(** * Dependency analysis tool ([scripts/analyze_deps.py]): model and properties

    A shallow embedding of the Python script: glob matching and paths
    (the [fnmatch] and [pathlib] calls the script makes), import extraction
    over a syntax tree, the directory analyzer, directory discovery and the
    structure snapshot.  Strings are [string]s, a character standing for a
    code point below 256; the file system is a finite tree of regular files
    and directories whose root is the working directory. *)

From Stdlib Require Import String Ascii List Bool Arith ZArith Lia.
From Stdlib Require Import Sorting.Sorted Sorting.Permutation Structures.OrderedTypeEx.
From Stdlib Require Import Numbers.DecimalString.
Import ListNotations.

Local Open Scope string_scope.
Local Open Scope list_scope.

(** ** Python string operations used by the script *)

Module PyStr.

(** [s.replace(old, new)]: non-overlapping occurrences, left to right.
    [skip] counts the characters of a match still to be dropped. *)
Fixpoint replace_go (old new : string) (skip : nat) (s : string) : string :=
  match s with
  | EmptyString => EmptyString
  | String c rest =>
      match skip with
      | S k => replace_go old new k rest
      | O =>
          if prefix old s
          then (new ++ replace_go old new (String.length old - 1) rest)%string
          else String c (replace_go old new 0 rest)
      end
  end.

(** With an empty [old], Python puts [new] before every character and at
    the end. *)
Fixpoint intersperse (new s : string) : string :=
  match s with
  | EmptyString => new
  | String c rest => (new ++ String c (intersperse new rest))%string
  end.

Definition replace (old new s : string) : string :=
  match old with
  | EmptyString => intersperse new s
  | _ => replace_go old new 0 s
  end.

(** Whitespace of [str.split()] below code point 256: TAB..CR, FS..US,
    SPACE, NEL and NBSP. *)
Definition is_space (c : ascii) : bool :=
  let n := nat_of_ascii c in
  (Nat.leb 9 n && Nat.leb n 13) || (Nat.leb 28 n && Nat.leb n 32)
  || Nat.eqb n 133 || Nat.eqb n 160.

(** [s.split()]: maximal runs of non-whitespace characters.  [cur] is the
    token being read. *)
Fixpoint split_go (cur : string) (s : string) : list string :=
  match s with
  | EmptyString => match cur with EmptyString => [] | _ => [cur] end
  | String c rest =>
      if is_space c
      then match cur with
           | EmptyString => split_go EmptyString rest
           | _ => cur :: split_go EmptyString rest
           end
      else split_go (cur ++ String c EmptyString)%string rest
  end.

Definition split (s : string) : list string := split_go EmptyString s.

(** [s.split(sep)] for a one-character separator: empty fields are kept. *)
Fixpoint split_on_go (sep : ascii) (cur : string) (s : string) : list string :=
  match s with
  | EmptyString => [cur]
  | String c rest =>
      if Ascii.eqb c sep
      then cur :: split_on_go sep EmptyString rest
      else split_on_go sep (cur ++ String c EmptyString)%string rest
  end.

Definition split_on (sep : ascii) (s : string) : list string :=
  split_on_go sep EmptyString s.

(** [sep.join(l)] *)
Definition join (sep : string) (l : list string) : string := String.concat sep l.

(** [c in s] for a character. *)
Fixpoint contains (c : ascii) (s : string) : bool :=
  match s with
  | EmptyString => false
  | String d rest => Ascii.eqb c d || contains c rest
  end.

(** [s.endswith(suffix)], written by recursion on [s]. *)
Fixpoint endswith (s suffix : string) : bool :=
  String.eqb s suffix ||
  match s with
  | EmptyString => false
  | String _ rest => endswith rest suffix
  end.

End PyStr.

(** ** [fnmatch.fnmatch] on POSIX

    The pattern is translated to a list of tokens as [fnmatch.translate]
    does: [*] any run of characters, [?] any one character, [[seq]] and
    [[!seq]] a character set with ranges, anything else itself.  A [[] with
    no closing bracket is a literal.  [os.path.normcase] is the identity.
    Sets are modelled in their usual form; what [fnmatch.translate] does with
    a set that holds an empty range (it takes the range out before it looks
    for the leading [!]) is not.  The patterns of the program hold no set,
    and no property below depends on one. *)

Module Fnmatch.

Inductive glob_token : Type :=
| GStar
| GAny
| GSet (negated : bool) (items : list (ascii * ascii))
| GChar (c : ascii).

(** Characters before the first closing bracket, if there is one. *)
Fixpoint until_bracket (s : string) : option string :=
  match s with
  | EmptyString => None
  | String c rest =>
      if Ascii.eqb c "]" then Some EmptyString
      else match until_bracket rest with
           | Some body => Some (String c body)
           | None => None
           end
  end.

(** The text of a set, given the pattern after its opening bracket: a
    leading [!] and then a leading closing bracket belong to the set. *)
Definition class_body (s : string) : option string :=
  let '(pre1, s1) :=
    match s with
    | String "!" r => ("!", r)
    | _ => ("", s)
    end in
  let '(pre2, s2) :=
    match s1 with
    | String "]" r => ("]", r)
    | _ => ("", s1)
    end in
  match until_bracket s2 with
  | Some body => Some (pre1 ++ pre2 ++ body)%string
  | None => None
  end.

(** Items of a set: [lo-hi] is a range, any other character is itself. *)
Fixpoint set_items (s : string) : list (ascii * ascii) :=
  match s with
  | EmptyString => []
  | String lo (String "-" (String hi rest)) => (lo, hi) :: set_items rest
  | String c rest => (c, c) :: set_items rest
  end.

Definition mk_set (stuff : string) : glob_token :=
  match stuff with
  | String "!" r => GSet true (set_items r)
  | _ => GSet false (set_items stuff)
  end.

Fixpoint translate_go (skip : nat) (pat : string) : list glob_token :=
  match pat with
  | EmptyString => []
  | String c rest =>
      match skip with
      | S k => translate_go k rest
      | O =>
          if Ascii.eqb c "*" then GStar :: translate_go 0 rest
          else if Ascii.eqb c "?" then GAny :: translate_go 0 rest
          else if Ascii.eqb c "[" then
            match class_body rest with
            | Some stuff => mk_set stuff :: translate_go (S (String.length stuff)) rest
            | None => GChar "[" :: translate_go 0 rest
            end
          else GChar c :: translate_go 0 rest
      end
  end.

Definition translate (pat : string) : list glob_token := translate_go 0 pat.

Definition in_range (c : ascii) (r : ascii * ascii) : bool :=
  Nat.leb (nat_of_ascii (fst r)) (nat_of_ascii c) && Nat.leb (nat_of_ascii c) (nat_of_ascii (snd r)).

Definition in_set (negated : bool) (items : list (ascii * ascii)) (c : ascii) : bool :=
  xorb negated (existsb (in_range c) items).

(** Whole-string match of a token list. *)
Fixpoint match_tokens (ts : list glob_token) (s : string) : bool :=
  match ts with
  | [] => match s with EmptyString => true | _ => false end
  | GStar :: ts' =>
      (fix star (s : string) : bool :=
         match_tokens ts' s ||
         match s with
         | EmptyString => false
         | String _ rest => star rest
         end) s
  | GAny :: ts' =>
      match s with
      | EmptyString => false
      | String _ rest => match_tokens ts' rest
      end
  | GSet negated items :: ts' =>
      match s with
      | EmptyString => false
      | String c rest => in_set negated items c && match_tokens ts' rest
      end
  | GChar d :: ts' =>
      match s with
      | EmptyString => false
      | String c rest => Ascii.eqb c d && match_tokens ts' rest
      end
  end.

Definition fnmatch (name pat : string) : bool := match_tokens (translate pat) name.

End Fnmatch.

Import Fnmatch.

(** ** [pathlib.PurePosixPath] *)

Inductive anchor : Type :=
| Relative      (* no leading slash *)
| Root          (* one leading slash, or three and more *)
| DoubleRoot.   (* exactly two leading slashes *)

Record Path : Type := mkPath {
  root : anchor;
  segments : list string   (* the parts after the root *)
}.

Definition anchor_str (a : anchor) : string :=
  match a with
  | Relative => ""
  | Root => "/"
  | DoubleRoot => "//"
  end.

Definition parse_anchor (s : string) : anchor :=
  match s with
  | String "/" (String "/" (String "/" _)) => Root
  | String "/" (String "/" _) => DoubleRoot
  | String "/" _ => Root
  | _ => Relative
  end.

Definition is_segment (p : string) : bool :=
  negb (String.eqb p "") && negb (String.eqb p ".").

(** [Path(s)]: empty components and [.] components are dropped. *)
Definition parse_path (s : string) : Path :=
  mkPath (parse_anchor s) (filter is_segment (PyStr.split_on "/" s)).

(** [str(path)] *)
Definition str (p : Path) : string :=
  match root p, segments p with
  | Relative, [] => "."
  | a, segs => (anchor_str a ++ PyStr.join "/" segs)%string
  end.

(** [path.name]: the last component, empty when there is none. *)
Definition name (p : Path) : string := last (segments p) "".

(** The proper prefixes of a list, shortest first. *)
Fixpoint prefixes {A : Type} (l : list A) : list (list A) :=
  match l with
  | [] => []
  | x :: xs => [] :: map (cons x) (prefixes xs)
  end.

(** [path.parents]: the ancestors, nearest first. *)
Definition parents (p : Path) : list Path :=
  map (mkPath (root p)) (rev (prefixes (segments p))).

(** [path / s] *)
Definition joinpath (p : Path) (s : string) : Path :=
  let q := parse_path s in
  match root q with
  | Relative => mkPath (root p) (segments p ++ segments q)
  | _ => q
  end.

(** The child path made for a directory entry: the entry name becomes one
    more component. *)
Definition child_path (p : Path) (entry : string) : Path :=
  mkPath (root p) (segments p ++ [entry]).

Definition anchor_eqb (a b : anchor) : bool :=
  match a, b with
  | Relative, Relative | Root, Root | DoubleRoot, DoubleRoot => true
  | _, _ => false
  end.

Fixpoint strip_prefix (base l : list string) : option (list string) :=
  match base, l with
  | [], _ => Some l
  | b :: base', x :: l' => if String.eqb b x then strip_prefix base' l' else None
  | _ :: _, [] => None
  end.

(** [path.relative_to(base)]; [None] stands for the [ValueError]. *)
Definition relative_to (p base : Path) : option Path :=
  if anchor_eqb (root p) (root base)
  then match strip_prefix (segments base) (segments p) with
       | Some rest => Some (mkPath Relative rest)
       | None => None
       end
  else None.

(** ** Console output and exceptions

    A computation prints lines and then returns a value or raises. *)

Inductive exn : Type := PyExn (cls : string) (msg : string).

Definition exn_msg (e : exn) : string := let 'PyExn _ msg := e in msg.

Definition M (A : Type) : Type := (list string * (exn + A))%type.

Definition ret {A : Type} (a : A) : M A := ([], inr a).

Definition raise {A : Type} (e : exn) : M A := ([], inl e).

Definition print (line : string) : M unit := ([line], inr tt).

Definition bind {A B : Type} (m : M A) (k : A -> M B) : M B :=
  match m with
  | (out, inl e) => (out, inl e)
  | (out, inr a) => let '(out', r) := k a in (out ++ out', r)
  end.

(** [try: m except Exception as e: h e] *)
Definition catch {A : Type} (m : M A) (h : exn -> M A) : M A :=
  match m with
  | (out, inl e) => let '(out', r) := h e in (out ++ out', r)
  | (out, inr a) => (out, inr a)
  end.

Notation "x <- m ;; k" := (bind m (fun x => k))
  (at level 61, m at next level, right associativity).
Notation "m ;;; k" := (bind m (fun _ => k))
  (at level 61, right associativity).

Definition console {A : Type} (m : M A) : list string := fst m.
Definition outcome {A : Type} (m : M A) : exn + A := snd m.

Arguments bind : simpl never.
Arguments catch : simpl never.
Arguments print : simpl never.

(** ** Syntax trees ([ast]) *)

Record alias : Type := mkAlias {
  alias_name : string;            (* [alias.name] *)
  asname : option string
}.

(** The nodes the extractor tells apart; any other node is [Other] with its
    child nodes in [ast.iter_child_nodes] order (a module, a function
    definition, an expression, ...). *)
Unset Elimination Schemes.

Inductive node : Type :=
| Import (names : list alias)
| ImportFrom (module : option string) (names : list alias) (level : nat)
| Alias (a : alias)
| Other (children : list node).

Set Elimination Schemes.

Definition iter_child_nodes (n : node) : list node :=
  match n with
  | Import names => map Alias names
  | ImportFrom _ names _ => map Alias names
  | Alias _ => []
  | Other children => children
  end.

Fixpoint node_size (n : node) : nat :=
  match n with
  | Import names => S (length names)
  | ImportFrom _ names _ => S (length names)
  | Alias _ => 1
  | Other children =>
      S ((fix sizes (l : list node) : nat :=
            match l with
            | [] => 0
            | c :: l' => node_size c + sizes l'
            end) children)
  end.

Definition queue_size (todo : list node) : nat := list_sum (map node_size todo).

(** [ast.walk]: a queue of nodes; the first is taken out, its children are
    put at the end, and it is yielded.  Every step takes one node of the
    finite tree, so [node_size] steps empty the queue. *)
Fixpoint walk_queue (fuel : nat) (todo : list node) : list node :=
  match fuel with
  | O => []
  | S fuel' =>
      match todo with
      | [] => []
      | n :: rest => n :: walk_queue fuel' (rest ++ iter_child_nodes n)
      end
  end.

Definition walk (tree : node) : list node := walk_queue (node_size tree) [tree].

(** The body of the loop of [find_imports]: what one node adds. *)
Definition import_refs (n : node) : list string :=
  match n with
  | Import names => map alias_name names
  | ImportFrom module names _ =>
      let module := match module with Some m => m | None => "" end in
      map (fun a =>
             match module with
             | EmptyString => alias_name a
             | _ => (module ++ "." ++ alias_name a)%string
             end) names
  | _ => []
  end.

Definition collect_imports (tree : node) : list string :=
  flat_map import_refs (walk tree).

(** ** The file system *)

(** What [open(...).read()] and [ast.parse] make of a file: a tree, or an
    exception with its message (syntax, encoding or I/O error). *)
Inductive content : Type :=
| Parsed (tree : node)
| Unparsable (err : string).

Unset Elimination Schemes.

Inductive fsnode : Type :=
| File (c : content)
| Dir (readable : bool) (entries : list (string * fsnode)).

Set Elimination Schemes.

Fixpoint find_entry (e : string) (entries : list (string * fsnode)) : option fsnode :=
  match entries with
  | [] => None
  | (e', n) :: rest => if String.eqb e e' then Some n else find_entry e rest
  end.

(** Resolution of path components from a directory; [up] holds the
    directories above, nearest first ([..] of the root is the root). *)
Fixpoint lookup_from (up : list fsnode) (cur : fsnode) (segs : list string) : option fsnode :=
  match segs with
  | [] => Some cur
  | s :: segs' =>
      match cur with
      | File _ => None
      | Dir _ entries =>
          if String.eqb s ".."
          then match up with
               | [] => lookup_from [] cur segs'
               | d :: up' => lookup_from up' d segs'
               end
          else match find_entry s entries with
               | Some child => lookup_from (cur :: up) child segs'
               | None => None
               end
      end
  end.

Definition lookup (fs : fsnode) (p : Path) : option fsnode :=
  lookup_from [] fs (segments p).

Definition exists_ (fs : fsnode) (p : Path) : bool :=
  match lookup fs p with Some _ => true | None => false end.

Definition is_dir (fs : fsnode) (p : Path) : bool :=
  match lookup fs p with Some (Dir _ _) => true | _ => false end.

Definition is_file (fs : fsnode) (p : Path) : bool :=
  match lookup fs p with Some (File _) => true | _ => false end.

(** [dir_path.rglob("*.py")] from a directory node: the matching entries of
    the directory, then those of each subdirectory in turn; a directory
    that cannot be listed gives nothing. *)
Fixpoint rglob_from (p : Path) (n : fsnode) : list Path :=
  match n with
  | File _ => []
  | Dir false _ => []
  | Dir true entries =>
      map (child_path p) (filter (fun e => fnmatch e "*.py") (map fst entries))
      ++ (fix sub (es : list (string * fsnode)) : list Path :=
            match es with
            | [] => []
            | (e, c) :: es' =>
                match c with
                | Dir _ _ => rglob_from (child_path p e) c
                | File _ => []
                end ++ sub es'
            end) entries
  end.

(** [dir_path.rglob("*.py")]: nothing when the start is not a directory. *)
Definition rglob_py (fs : fsnode) (dir_path : Path) : list Path :=
  match lookup fs dir_path with
  | Some (Dir r entries) => rglob_from dir_path (Dir r entries)
  | _ => []
  end.

(** ** File Import Extractor *)

(** Does the resolution of the components stop at a regular file with
    components still to go? *)
Fixpoint blocked_by_file (up : list fsnode) (cur : fsnode) (segs : list string) : bool :=
  match segs with
  | [] => false
  | s :: segs' =>
      match cur with
      | File _ => true
      | Dir _ entries =>
          if String.eqb s ".."
          then match up with
               | [] => blocked_by_file [] cur segs'
               | d :: up' => blocked_by_file up' d segs'
               end
          else match find_entry s entries with
               | Some child => blocked_by_file (cur :: up) child segs'
               | None => false
               end
      end
  end.

(** The [try] block of [find_imports] up to the parse.  A path that does
    not resolve raises errno 20 when it goes through a regular file and
    errno 2 otherwise. *)
Definition open_and_parse (fs : fsnode) (file_path : Path) : M node :=
  match lookup fs file_path with
  | Some (File (Parsed tree)) => ret tree
  | Some (File (Unparsable err)) => raise (PyExn "Exception" err)
  | Some (Dir _ _) =>
      raise (PyExn "IsADirectoryError"
               ("[Errno 21] Is a directory: '" ++ str file_path ++ "'")%string)
  | None =>
      raise (if blocked_by_file [] fs (segments file_path)
             then PyExn "NotADirectoryError"
                    ("[Errno 20] Not a directory: '" ++ str file_path ++ "'")%string
             else PyExn "FileNotFoundError"
                    ("[Errno 2] No such file or directory: '" ++ str file_path ++ "'")%string)
  end.

Definition find_imports (fs : fsnode) (file_path : Path) : M (list string) :=
  catch (tree <- open_and_parse fs file_path ;;
         ret (collect_imports tree))
        (fun e =>
           print ("Error parsing " ++ str file_path ++ ": " ++ exn_msg e)%string ;;;
           ret []).

(** ** Directory Analyzer *)

Record ModuleInfo : Type := mkModuleInfo {
  file : string;
  module_ : string;
  imports : list string
}.

Record DirectoryResult : Type := mkDirectoryResult {
  dr_name : string;
  modules : list ModuleInfo
}.

(** [str(relative_path).replace("/", ".").replace(".py", "")] *)
Definition module_path (relative_path : Path) : string :=
  PyStr.replace ".py" "" (PyStr.replace "/" "." (str relative_path)).

(** The loop over [dir_path.rglob("*.py")]. *)
Fixpoint analyze_files (fs : fsnode) (dir_path : Path) (files : list Path)
    (all_imports : list ModuleInfo) : M (list ModuleInfo) :=
  match files with
  | [] => ret all_imports
  | python_file :: rest =>
      imports <- find_imports fs python_file ;;
      match imports with
      | [] => analyze_files fs dir_path rest all_imports
      | _ =>
          match relative_to python_file dir_path with
          | None =>
              raise (PyExn "ValueError"
                       ("'" ++ str python_file ++ "' is not in the subpath of '"
                        ++ str dir_path ++ "'")%string)
          | Some relative_path =>
              let module_info :=
                mkModuleInfo (str relative_path) (module_path relative_path) imports in
              analyze_files fs dir_path rest (all_imports ++ [module_info])
          end
      end
  end.

Definition analyze_directory (fs : fsnode) (directory : string)
    : M (option DirectoryResult) :=
  catch
    (let dir_path := parse_path directory in
     if negb (exists_ fs dir_path)
     then print ("Directory not found: " ++ directory)%string ;;; ret None
     else
       let files := rglob_py fs dir_path in
       all_imports <- analyze_files fs dir_path files [] ;;
       match all_imports with
       | [] => ret None
       | _ => ret (Some (mkDirectoryResult (PyStr.replace "/" "." directory) all_imports))
       end)
    (fun e =>
       print ("Exception analyzing " ++ directory ++ ": " ++ exn_msg e)%string ;;;
       ret None).

(** ** Configuration constants *)

Definition DEFAULT_EXCLUDES : list string :=
  [ "node_modules"; ".venv"; "venv"; "__pycache__"; ".git"; ".pytest_cache";
    ".coverage"; "*.egg-info"; "dist"; "build"; ".idea"; ".vscode"; ".DS_Store";
    "*.pyc"; "*.pyo"; "*.pyd"; ".mypy_cache"; ".ruff_cache"; "htmlcov"; ".env";
    "*.log" ].

Definition IMPORTANT_FILE_PATTERNS : list string :=
  [ "*.py"; "*.ini"; "*.toml"; "*.yaml"; "*.yml"; "*.json"; "*.md";
    "Dockerfile"; "requirements.txt"; "setup.py"; "*.lock" ].

Definition is_important_file (path : Path) : bool :=
  existsb (fun pattern => fnmatch (str path) pattern) IMPORTANT_FILE_PATTERNS.

(** ** Directory Discoverer *)

(** The two nested loops with their early [return True]. *)
Definition should_skip_directory (path_str : string) (exclude_patterns : list string) : bool :=
  let path := parse_path path_str in
  existsb
    (fun pattern =>
       existsb (fun parent => fnmatch (str parent) pattern || fnmatch (name parent) pattern)
               (parents path)
       || (fnmatch path_str pattern || fnmatch (name path) pattern))
    exclude_patterns.

(** A [set] of strings: a list without repetition. *)
Definition set_add (x : string) (s : list string) : list string :=
  if existsb (String.eqb x) s then s else s ++ [x].

(** [sorted(...)] on strings: insertion sort by code point order. *)
Fixpoint insert_sorted (x : string) (l : list string) : list string :=
  match l with
  | [] => [x]
  | y :: l' => if String.leb x y then x :: l else y :: insert_sorted x l'
  end.

Fixpoint sorted (l : list string) : list string :=
  match l with
  | [] => []
  | x :: l' => insert_sorted x (sorted l')
  end.

(** [repr] of a string, for code points below 256.  The string is put in
    single quotes, or in double quotes when it holds a single quote and no
    double quote; the quote used and the backslash get a backslash, TAB, LF
    and CR their letter, and any other character that is not printable its
    two hexadecimal digits. *)
Definition double_quote : ascii := ascii_of_nat 34.

Definition backslash : ascii := ascii_of_nat 92.

Definition hex_digit (n : nat) : ascii :=
  match n with
  | 0 => "0" | 1 => "1" | 2 => "2" | 3 => "3" | 4 => "4" | 5 => "5" | 6 => "6" | 7 => "7"
  | 8 => "8" | 9 => "9" | 10 => "a" | 11 => "b" | 12 => "c" | 13 => "d" | 14 => "e"
  | _ => "f"
  end%char.

(** [str.isprintable] below code point 256: the visible ASCII characters
    and the space, and the Latin-1 characters from 161 on but the soft
    hyphen. *)
Definition is_printable (c : ascii) : bool :=
  let n := nat_of_ascii c in
  (Nat.leb 32 n && Nat.leb n 126) || (Nat.leb 161 n && negb (Nat.eqb n 173)).

Definition repr_char (quote c : ascii) : string :=
  let n := nat_of_ascii c in
  if Ascii.eqb c quote || Ascii.eqb c backslash then String backslash (String c "")
  else if Nat.eqb n 9 then String backslash "t"
  else if Nat.eqb n 10 then String backslash "n"
  else if Nat.eqb n 13 then String backslash "r"
  else if is_printable c then String c ""
  else String backslash
         (String "x" (String (hex_digit (n / 16)) (String (hex_digit (n mod 16)) ""))).

Fixpoint repr_chars (quote : ascii) (s : string) : string :=
  match s with
  | EmptyString => EmptyString
  | String c rest => (repr_char quote c ++ repr_chars quote rest)%string
  end.

Definition repr_str (s : string) : string :=
  let quote :=
    if PyStr.contains "'" s && negb (PyStr.contains double_quote s)
    then double_quote else "'"%char in
  String quote (repr_chars quote s ++ String quote "")%string.

(** How Python shows a list of strings in a message: [repr] of the list. *)
Definition repr_list (l : list string) : string :=
  ("[" ++ PyStr.join ", " (map repr_str l) ++ "]")%string.

Section Discovery.

(** [Path(".").glob(pattern)] on the file system at hand: the paths it
    yields and the exception that ends it, if any. *)
Variable glob : string -> list Path * option exn.

Variable fs : fsnode.

Definition root_path : Path := parse_path ".".

(** The loop over the paths of one glob. *)
Fixpoint add_matches (exclude_patterns : list string) (paths : list Path)
    (matching_dirs : list string) : list string :=
  match paths with
  | [] => matching_dirs
  | path :: rest =>
      if negb (is_dir fs path)
      then add_matches exclude_patterns rest matching_dirs
      else
        let path_str := str path in
        if negb (should_skip_directory path_str exclude_patterns)
        then add_matches exclude_patterns rest (set_add path_str matching_dirs)
        else add_matches exclude_patterns rest matching_dirs
  end.

(** The loop over the pattern tokens. *)
Fixpoint discover (exclude_patterns : list string) (patterns : list string)
    (matching_dirs : list string) : M (list string) :=
  match patterns with
  | [] => ret matching_dirs
  | pattern :: rest =>
      let direct_path := joinpath root_path pattern in
      if is_dir fs direct_path
         && negb (should_skip_directory (str direct_path) exclude_patterns)
      then discover exclude_patterns rest (set_add (str direct_path) matching_dirs)
      else
        let '(paths, err) := glob pattern in
        let matching_dirs := add_matches exclude_patterns paths matching_dirs in
        match err with
        | Some e =>
            print ("Warning: Error processing pattern '" ++ pattern ++ "': "
                   ++ exn_msg e)%string ;;;
            discover exclude_patterns rest matching_dirs
        | None => discover exclude_patterns rest matching_dirs
        end
  end.

Definition find_source_directories (search_pattern : string)
    (exclude_patterns : option (list string)) : M (list string) :=
  let exclude_patterns :=
    match exclude_patterns with Some l => l | None => [] end in
  (* computed, and not used below *)
  let all_excludes := exclude_patterns ++ DEFAULT_EXCLUDES in
  let patterns := PyStr.split search_pattern in
  matching_dirs <- discover exclude_patterns patterns [] ;;
  match matching_dirs with
  | [] => print ("Warning: No directories found for patterns: "
                 ++ repr_list patterns)%string
  | _ => ret tt
  end ;;;
  ret (sorted matching_dirs).

End Discovery.

(** ** Structure Snapshotter *)

(** The values the snapshot is made of; a [dict] keeps insertion order. *)
Unset Elimination Schemes.

Inductive value : Type :=
| VNone
| VStr (s : string)
| VList (l : list value)
| VDict (d : list (string * value)).

Set Elimination Schemes.

Fixpoint dict_get (k : string) (d : list (string * value)) : option value :=
  match d with
  | [] => None
  | (k', v) :: d' => if String.eqb k k' then Some v else dict_get k d'
  end.

(** [d[k] = v]: a key already there keeps its place. *)
Fixpoint dict_set (k : string) (v : value) (d : list (string * value)) : list (string * value) :=
  match d with
  | [] => [(k, v)]
  | (k', v') :: d' => if String.eqb k k' then (k, v) :: d' else (k', v') :: dict_set k v d'
  end.

Definition should_exclude (exclude_patterns : list string) (path : Path) : bool :=
  existsb (fun pattern => fnmatch (str path) pattern) exclude_patterns.

(** The body of the loop over the children, after the recursive call. *)
Definition add_child (tree : list (string * value)) (child_name : string)
    (child_is_dir : bool) (child_tree : value) : M (list (string * value)) :=
  match child_tree with
  | VNone => ret tree
  | _ =>
      if child_is_dir
      then ret (dict_set child_name child_tree tree)
      else
        let tree :=
          match dict_get "files" tree with
          | None => dict_set "files" (VList []) tree
          | Some _ => tree
          end in
        match dict_get "files" tree with
        | Some (VList l) => ret (dict_set "files" (VList (l ++ [child_tree])) tree)
        | _ => raise (PyExn "AttributeError" "'dict' object has no attribute 'append'")
        end
  end.

(** One child of a directory: its name, whether it is a directory, and the
    recursive call on it. *)
Definition child_run : Type := (string * bool * M value)%type.

Fixpoint insert_child (x : child_run) (l : list child_run) : list child_run :=
  match l with
  | [] => [x]
  | y :: l' =>
      if String.leb (fst (fst x)) (fst (fst y)) then x :: l else y :: insert_child x l'
  end.

(** [sorted(path.iterdir())]: siblings differ in their last component only,
    so they are ordered by name. *)
Fixpoint sorted_children (l : list child_run) : list child_run :=
  match l with
  | [] => []
  | x :: l' => insert_child x (sorted_children l')
  end.

Fixpoint build_children (children : list child_run) (tree : list (string * value))
    : M (list (string * value)) :=
  match children with
  | [] => ret tree
  | (child_name, child_is_dir, call) :: rest =>
      child_tree <- call ;;
      tree' <- add_child tree child_name child_is_dir child_tree ;;
      build_children rest tree'
  end.

Definition node_is_dir (n : fsnode) : bool :=
  match n with Dir _ _ => true | File _ => false end.

Section Snapshot.

Variable exclude_patterns : list string.
Variable max_depth : Z.

(** [build_tree] at a path that exists, [n] being what is there.  The
    recursive calls are set up entry by entry and run in sorted order. *)
Fixpoint build_tree (path : Path) (n : fsnode) (current_depth : Z) : M value :=
  if should_exclude exclude_patterns path then ret VNone
  else
    match n with
    | File _ =>
        if is_important_file path then ret (VStr (name path)) else ret VNone
    | Dir readable entries =>
        if (current_depth >=? max_depth)%Z then ret (VDict [])
        else if negb readable
        then print ("Warning: Permission denied for " ++ str path)%string ;;; ret VNone
        else
          let children :=
            (fix calls (es : list (string * fsnode)) : list child_run :=
               match es with
               | [] => []
               | (e, c) :: es' =>
                   (e, node_is_dir c, build_tree (child_path path e) c (current_depth + 1)%Z)
                   :: calls es'
               end) entries in
          tree <- build_children (sorted_children children) [] ;;
          match tree with
          | [] => ret VNone
          | _ => ret (VDict tree)
          end
    end.

(** [build_tree] at a path that does not exist: [is_file()] is false and
    [iterdir()] raises. *)
Definition build_tree_missing (path : Path) (current_depth : Z) : M value :=
  if should_exclude exclude_patterns path then ret VNone
  else if (current_depth >=? max_depth)%Z then ret (VDict [])
  else raise (PyExn "FileNotFoundError"
                ("[Errno 2] No such file or directory: '" ++ str path ++ "'")%string).

End Snapshot.

Definition generate_project_structure (fs : fsnode) (root_path : string)
    (exclude_patterns : option (list string)) (max_depth : Z) : M value :=
  let exclude_patterns :=
    match exclude_patterns with Some l => l | None => [] end in
  let root := parse_path root_path in
  built <- match lookup fs root with
           | Some n => build_tree exclude_patterns max_depth root n 0%Z
           | None => build_tree_missing exclude_patterns max_depth root 0%Z
           end ;;
  ret (VDict [(name root, built)]).

(** The call of the entry point: root [.], the caller's patterns followed by
    the defaults, and the default depth. *)
Definition main_project_structure (fs : fsnode) (exclude : list string) : M value :=
  generate_project_structure fs "." (Some (exclude ++ DEFAULT_EXCLUDES)) 3%Z.

(** ** Statements taken from the specification, for comparison *)

(** The exclusion rule as the specification words it: the full path, the
    bare name, or an ancestor by full path or bare name, matches a pattern. *)
Definition excluded_per_spec (patterns : list string) (path_str : string) : Prop :=
  exists pattern,
    In pattern patterns /\
    (fnmatch path_str pattern = true
     \/ fnmatch (name (parse_path path_str)) pattern = true
     \/ exists parent,
          In parent (parents (parse_path path_str)) /\
          (fnmatch (str parent) pattern = true \/ fnmatch (name parent) pattern = true)).

(** Source appearance order: a statement comes before the statements of
    its body, and these before the statements that follow it. *)
Fixpoint preorder (n : node) : list node :=
  n :: match n with
       | Other children =>
           (fix over (l : list node) : list node :=
              match l with
              | [] => []
              | c :: l' => preorder c ++ over l'
              end) children
       | _ => iter_child_nodes n
       end.

Definition source_order_imports (tree : node) : list string :=
  flat_map import_refs (preorder tree).

(** The module identifier as the specification words it: separators
    replaced by dots and the trailing [.py] taken off. *)
Fixpoint strip_py_suffix (s : string) : string :=
  match s with
  | EmptyString => EmptyString
  | String c rest =>
      if String.eqb s ".py" then EmptyString else String c (strip_py_suffix rest)
  end.

Definition module_path_per_spec (relative_path : Path) : string :=
  strip_py_suffix (PyStr.replace "/" "." (str relative_path)).

(** Is there an import statement in the subtree? *)
Fixpoint has_import (n : node) : bool :=
  match n with
  | Import _ => true
  | ImportFrom _ _ _ => true
  | Alias _ => false
  | Other children =>
      (fix any (l : list node) : bool :=
         match l with
         | [] => false
         | c :: l' => has_import c || any l'
         end) children
  end.

(** Every import statement of the tree is a statement of the module body
    itself, none is nested in another statement. *)
Definition imports_at_top_level (tree : node) : bool :=
  match tree with
  | Other body =>
      forallb (fun s =>
                 match s with
                 | Import _ | ImportFrom _ _ _ => true
                 | _ => negb (has_import s)
                 end) body
  | _ => false
  end.

(** [n] is a node of the tree [t]. *)
Inductive node_of : node -> node -> Prop :=
| node_of_self : forall t, node_of t t
| node_of_child : forall n c t, node_of n c -> In c (iter_child_nodes t) -> node_of n t.

(** The file names a snapshot value holds. *)
Fixpoint file_names (v : value) : list string :=
  match v with
  | VNone => []
  | VStr s => [s]
  | VList l =>
      (fix over (l : list value) : list string :=
         match l with
         | [] => []
         | x :: l' => file_names x ++ over l'
         end) l
  | VDict d =>
      (fix over (d : list (string * value)) : list string :=
         match d with
         | [] => []
         | (_, x) :: d' => file_names x ++ over d'
         end) d
  end.

(** How deep mappings are nested in a snapshot value. *)
Fixpoint nesting (v : value) : nat :=
  match v with
  | VDict d =>
      S ((fix over (d : list (string * value)) : nat :=
            match d with
            | [] => 0
            | (_, x) :: d' => Nat.max (nesting x) (over d')
            end) d)
  | _ => 0
  end.

Definition important_name (file_name : string) : Prop :=
  exists pattern, In pattern IMPORTANT_FILE_PATTERNS /\ fnmatch file_name pattern = true.

(** ** A sample project *)

Definition imp (module : string) : node := Import [mkAlias module None].

Definition py_file (body : list node) : fsnode := File (Parsed (Other body)).

Definition text_file : fsnode := File (Unparsable "invalid syntax (<unknown>, line 1)").

Definition sample_fs : fsnode :=
  Dir true
    [ ("src",
       Dir true
         [ ("app.py",
            py_file [imp "os"; ImportFrom (Some "proj.util") [mkAlias "helper" None] 0]);
           ("broken.py", File (Unparsable "invalid syntax (<unknown>, line 1)"));
           ("a.pyx.py", py_file [imp "sys"]);
           ("notes.txt", text_file) ]);
      ("node_modules",
       Dir true [ ("pkg", Dir true [ ("src", Dir true [ ("x.py", py_file [imp "a"]) ]) ]) ]);
      ("pkg",
       Dir true
         [ ("node_modules",
            Dir true [ ("sub", Dir true [ ("index.py", py_file [imp "z"]) ]) ]) ]);
      ("docs", Dir true [ ("empty", Dir true []) ]);
      ("README.md", text_file) ].

(** What [Path(".").glob] yields on the sample project. *)
Definition sample_glob (pattern : string) : list Path * option exn :=
  if String.eqb pattern "**/src"
  then ([parse_path "src"; parse_path "node_modules/pkg/src"], None)
  else if String.eqb pattern "**/sub"
  then ([parse_path "pkg/node_modules/sub"], None)
  else ([], None).

(** A module with an import inside a function body before one at top level:
    [def f(): import a] followed by [import b].  The children of the
    function definition are its arguments node and the statements of its
    body. *)
Definition nested_module : node := Other [Other [Other []; imp "a"]; imp "b"].

Definition nested_fs : fsnode := Dir true [ ("m.py", File (Parsed nested_module)) ].

(** The parse of a file fails: it is missing, a directory, or unparsable. *)
Definition parse_fails (fs : fsnode) (file_path : Path) : Prop :=
  forall tree, lookup fs file_path <> Some (File (Parsed tree)).

(** ** Notions used in the statements and proofs *)

(** Code point order on strings. *)
Definition str_lt (a b : string) : Prop := String.ltb a b = true.

(** The patterns of the caller, [None] standing for no pattern. *)
Definition caller_patterns (exclude_patterns : option (list string)) : list string :=
  match exclude_patterns with Some l => l | None => [] end.

(** The directories one pattern token contributes. *)
Definition token_dirs (glob : string -> list Path * option exn) (fs : fsnode)
    (exclude_patterns : list string) (pattern : string) : list string :=
  let direct_path := joinpath root_path pattern in
  if is_dir fs direct_path
     && negb (should_skip_directory (str direct_path) exclude_patterns)
  then [str direct_path]
  else
    map str
      (filter (fun path =>
                 is_dir fs path && negb (should_skip_directory (str path) exclude_patterns))
              (fst (glob pattern))).

(** A statement of a module whose imports are all at top level. *)
Definition top_level_stmt (s : node) : bool :=
  match s with
  | Import _ | ImportFrom _ _ _ => true
  | _ => negb (has_import s)
  end.

(** The tokens of a pattern without special characters. *)
Fixpoint lits (s : string) : list glob_token :=
  match s with
  | EmptyString => []
  | String c rest => GChar c :: lits rest
  end.

(** Every file name of the value passes the allow-list, and mappings are
    nested at most [k] deep. *)
Definition value_ok (k : nat) (v : value) : Prop :=
  Forall important_name (file_names v) /\ nesting v <= k.

Definition dict_ok (k : nat) (d : list (string * value)) : Prop :=
  Forall (fun kv => value_ok k (snd kv)) d.

(** The mappings left below a directory at depth [current_depth]. *)
Definition levels_below (max_depth current_depth : Z) : nat :=
  S (Z.to_nat (max_depth - current_depth)).

Definition run_ok (k : nat) (run : child_run) : Prop :=
  forall v, outcome (snd run) = inr v -> value_ok k v.

(** ** The entry point *)

(** The options [parse_args] returns. *)
Record Args : Type := mkArgs {
  search_pattern : string;
  output_file : string;
  structure_file : string;
  exclude : list string
}.

(** The options when the command line gives none. *)
Definition default_args : Args :=
  mkArgs "**/src" "analysis_results/pydeps_results.json"
         "analysis_results/project_structure.json" [].

Record AnalysisReport : Type := mkAnalysisReport {
  analysis_timestamp : string;
  project_root : string;
  report_modules : list DirectoryResult
}.

(** What [json.dump] is given. *)
Inductive document : Type :=
| ReportDoc (final_results : AnalysisReport)
| StructureDoc (project_structure : value).

(** What the entry point does to the outside, in order. *)
Inductive event : Type :=
| Printed (line : string)
| MadeDirs (path : Path)                   (* [mkdir(parents=True, exist_ok=True)] *)
| Wrote (path : Path) (doc : document).    (* [open(path, "w")] and [json.dump] *)

Definition IO (A : Type) : Type := (list event * (exn + A))%type.

Definition io_ret {A : Type} (a : A) : IO A := ([], inr a).

Definition io_bind {A B : Type} (m : IO A) (k : A -> IO B) : IO B :=
  match m with
  | (evs, inl e) => (evs, inl e)
  | (evs, inr a) => let '(evs', r) := k a in (evs ++ evs', r)
  end.

Definition emit (ev : event) : IO unit := ([ev], inr tt).

(** A computation that only prints, run inside the entry point. *)
Definition lift {A : Type} (m : M A) : IO A := (map Printed (fst m), snd m).

Arguments io_bind : simpl never.

(** [path.parent] *)
Definition parent (p : Path) : Path :=
  match parents p with
  | [] => p
  | q :: _ => q
  end.

(** [str(n)] for a length. *)
Definition str_of_nat (n : nat) : string := NilZero.string_of_uint (Nat.to_uint n).

(** The loop of [main] over the discovered directories. *)
Fixpoint analyze_all (fs : fsnode) (src_dirs : list string)
    (all_results : list DirectoryResult) : IO (list DirectoryResult) :=
  match src_dirs with
  | [] => io_ret all_results
  | directory :: rest =>
      io_bind (emit (Printed ("Analyzing " ++ directory ++ "...")%string)) (fun _ =>
      io_bind (lift (analyze_directory fs directory)) (fun result =>
      match result with
      | Some r =>
          io_bind (emit (Printed ("Found dependencies in " ++ directory)%string)) (fun _ =>
          analyze_all fs rest (all_results ++ [r]))
      | None => analyze_all fs rest all_results
      end))
  end.

(** [main], the options being given.  [now] is the time stamp and [cwd]
    the absolute working directory.  The run changes the file system it
    reads: [fs] is the file system as discovery finds it, [fs_dirs_made] as
    the analysis finds it, once the directory of the report is made, and
    [fs_report_written] as the snapshot finds it, once the report is written
    and the directory of the snapshot is made.  The output locations are
    taken to be writable. *)
Definition main (glob : string -> list Path * option exn)
    (fs fs_dirs_made fs_report_written : fsnode)
    (now cwd : string) (args : Args) : IO unit :=
  io_bind (lift (find_source_directories glob fs (search_pattern args) (Some (exclude args))))
    (fun src_dirs =>
  match src_dirs with
  | [] =>
      emit (Printed ("No directories found matching pattern: " ++ search_pattern args)%string)
  | _ =>
      let output_path := parse_path (output_file args) in
      io_bind (emit (MadeDirs (parent output_path))) (fun _ =>
      io_bind (analyze_all fs_dirs_made src_dirs []) (fun all_results =>
      let final_results := mkAnalysisReport now cwd all_results in
      io_bind (emit (Wrote output_path (ReportDoc final_results))) (fun _ =>
      let structure_path := parse_path (structure_file args) in
      io_bind (emit (MadeDirs (parent structure_path))) (fun _ =>
      io_bind (lift (main_project_structure fs_report_written (exclude args)))
        (fun project_structure =>
      io_bind (emit (Wrote structure_path (StructureDoc project_structure))) (fun _ =>
      io_bind (emit (Printed (String "010" "Analysis complete. Results written to "
                              ++ str output_path)%string)) (fun _ =>
      io_bind (emit (Printed ("Project structure written to " ++ str structure_path)%string))
        (fun _ =>
      emit (Printed ("Analyzed " ++ str_of_nat (length all_results)
                     ++ " source directories")%string)))))))))
  end).

(** The documents written, in order. *)
Fixpoint writes (evs : list event) : list (Path * document) :=
  match evs with
  | [] => []
  | Wrote path doc :: rest => (path, doc) :: writes rest
  | _ :: rest => writes rest
  end.

(** ** The calculator template ([calculator.py]) *)

Definition add (a b : Z) : Z := (a + b)%Z.

Definition subtract (a b : Z) : Z := (a - b)%Z.

(** ** Further notions for the statements *)

(** A path component as a directory listing gives it: not empty, not [.],
    without a slash. *)
Definition valid_segment (s : string) : bool :=
  is_segment s && negb (PyStr.contains "/" s).

Definition wf_path (p : Path) : Prop :=
  Forall (fun s => valid_segment s = true) (segments p).

(** The nodes [k] levels below the root of a tree, left to right. *)
Fixpoint nodes_at_depth (k : nat) (todo : list node) : list node :=
  match k with
  | O => todo
  | S k' => nodes_at_depth k' (flat_map iter_child_nodes todo)
  end.

(** [.py] occurs in the string at its very end and nowhere before. *)
Fixpoint only_final_py (s : string) : bool :=
  match s with
  | EmptyString => false
  | String _ rest => if prefix ".py" s then String.eqb s ".py" else only_final_py rest
  end.

(** The module entry of one visited file, if it has imports. *)
Definition module_entry (fs : fsnode) (dir_path python_file : Path) : list ModuleInfo :=
  match outcome (find_imports fs python_file), relative_to python_file dir_path with
  | inr (r :: rs), Some relative_path =>
      [mkModuleInfo (str relative_path) (module_path relative_path) (r :: rs)]
  | _, _ => []
  end.

(** The analyses that returned a result, in the order of the directories. *)
Fixpoint successful_analyses (fs : fsnode) (src_dirs : list string) : list DirectoryResult :=
  match src_dirs with
  | [] => []
  | directory :: rest =>
      match outcome (analyze_directory fs directory) with
      | inr (Some r) => r :: successful_analyses fs rest
      | _ => successful_analyses fs rest
      end
  end.

(** The recursive calls [build_tree] sets up for the entries of a
    directory, in listing order. *)
Definition child_runs (exclude_patterns : list string) (max_depth : Z) (path : Path)
    (current_depth : Z) (entries : list (string * fsnode)) : list child_run :=
  map (fun ec =>
         (fst ec, node_is_dir (snd ec),
          build_tree exclude_patterns max_depth (child_path path (fst ec)) (snd ec)
            (current_depth + 1)%Z))
      entries.

Definition run_key (run : child_run) : string := fst (fst run).

Definition run_lt (x y : child_run) : Prop := str_lt (run_key x) (run_key y).

(** The file-name endings of the allow-list. *)
Definition IMPORTANT_SUFFIXES : list string :=
  [ ".py"; ".ini"; ".toml"; ".yaml"; ".yml"; ".json"; ".md"; ".lock" ].

(** The path is not the bare [.]: it has a root or a component. *)
Definition below_top (p : Path) : Prop := root p <> Relative \/ segments p <> [].

(** The exception of [tree['files'].append] when [tree['files']] is a mapping. *)
Definition files_append_error : exn :=
  PyExn "AttributeError" "'dict' object has no attribute 'append'".

(** The entry under the key [files] is a list, or there is none. *)
Definition files_is_list (tree : list (string * value)) : Prop :=
  dict_get "files" tree = None \/ exists l, dict_get "files" tree = Some (VList l).

(** A project whose top level holds a directory named [files] and a
    source file that sorts after it. *)
Definition collision_fs : fsnode :=
  Dir true
    [ ("src", Dir true [ ("app.py", py_file [imp "os"]) ]);
      ("files", Dir true [ ("data.json", text_file) ]);
      ("main.py", py_file [imp "sys"]) ].

(** A pattern without the special characters of [fnmatch]. *)
Definition plain_char (c : ascii) : bool :=
  negb (Ascii.eqb c "*") && negb (Ascii.eqb c "?") && negb (Ascii.eqb c "[").

Fixpoint plain_pattern (pat : string) : bool :=
  match pat with
  | EmptyString => true
  | String c rest => plain_char c && plain_pattern rest
  end.

(** The endings that the default exclude list tests with a [*]. *)
Definition DEFAULT_EXCLUDE_SUFFIXES : list string :=
  [ ".egg-info"; ".pyc"; ".pyo"; ".pyd"; ".log" ].

(** A glob on the sample project that refuses one pattern, as [pathlib]
    refuses a component that holds [**] and more. *)
Definition raising_glob (pattern : string) : list Path * option exn :=
  if String.eqb pattern "**bad"
  then ([], Some (PyExn "ValueError"
                    "Invalid pattern: '**' can only be an entire path component"))
  else sample_glob pattern.

(** The value found in a snapshot by following keys. *)
Fixpoint value_at (keys : list string) (v : value) : option value :=
  match keys with
  | [] => Some v
  | k :: keys' =>
      match v with
      | VDict d =>
          match dict_get k d with
          | Some x => value_at keys' x
          | None => None
          end
      | _ => None
      end
  end.

(** Following [names] from the node [n] at [path] leads, through readable
    directories above the depth limit with distinctly named entries, to a
    directory at the depth limit, and no path on the way is excluded. *)
Fixpoint expanded_to_limit (exclude_patterns : list string) (max_depth : Z) (path : Path)
    (n : fsnode) (current_depth : Z) (names : list string) : Prop :=
  match names with
  | [] =>
      node_is_dir n = true
      /\ should_exclude exclude_patterns path = false
      /\ (current_depth >= max_depth)%Z
  | e :: rest =>
      exists entries c,
        n = Dir true entries
        /\ should_exclude exclude_patterns path = false
        /\ (current_depth < max_depth)%Z
        /\ NoDup (map fst entries)
        /\ In (e, c) entries
        /\ expanded_to_limit exclude_patterns max_depth (child_path path e) c
             (current_depth + 1) rest
  end.

(** * Properties *)

(** ** The string, pattern and path operations on samples *)

Example replace_ex1 : PyStr.replace ".py" "" "a.b.py" = "a.b".
Proof. reflexivity. Qed.

Example split_ex1 : PyStr.split "  **/src  lib/x " = ["**/src"; "lib/x"].
Proof. reflexivity. Qed.

Example fnmatch_ex1 : fnmatch "pkg/node_modules" "node_modules" = false.
Proof. reflexivity. Qed.

Example fnmatch_ex2 : fnmatch "pkg/mod.pyc" "*.pyc" = true.
Proof. reflexivity. Qed.

Example fnmatch_ex3 : fnmatch "b" "[!a-c]" = false /\ fnmatch "]" "[]x]" = true /\ fnmatch "[" "[" = true.
Proof. repeat split; reflexivity. Qed.

Example path_ex1 :
  map str (parents (parse_path "pkg/node_modules/sub")) = ["pkg/node_modules"; "pkg"; "."].
Proof. reflexivity. Qed.

Example path_ex2 : name (parse_path ".") = "" /\ str (parse_path "./a//b/.") = "a/b".
Proof. split; reflexivity. Qed.

(** ** Console-and-exception computations *)

Section MonadFacts.

Context {A B : Type}.

Lemma outcome_bind (m : M A) (k : A -> M B) :
  outcome (bind m k) =
  match outcome m with
  | inl e => inl e
  | inr a => outcome (k a)
  end.
Proof.
  unfold bind. destruct m as [out [e | a]]; simpl; [reflexivity |].
  destruct (k a); reflexivity.
Qed.

Lemma console_bind (m : M A) (k : A -> M B) :
  console (bind m k) =
  match outcome m with
  | inl _ => console m
  | inr a => console m ++ console (k a)
  end.
Proof.
  unfold bind. destruct m as [out [e | a]]; simpl; [reflexivity |].
  destruct (k a); reflexivity.
Qed.

Lemma bind_ret_l (a : A) (k : A -> M B) : bind (ret a) k = k a.
Proof. unfold bind, ret. destruct (k a); reflexivity. Qed.

Lemma outcome_catch (m : M A) (h : exn -> M A) :
  outcome (catch m h) =
  match outcome m with
  | inl e => outcome (h e)
  | inr a => inr a
  end.
Proof.
  unfold catch. destruct m as [out [e | a]]; simpl; [| reflexivity].
  destruct (h e); reflexivity.
Qed.

End MonadFacts.

(** ** Exclusion checks *)

Lemma should_skip_directory_iff (path_str : string) (patterns : list string) :
  should_skip_directory path_str patterns = true <-> excluded_per_spec patterns path_str.
Proof.
  unfold should_skip_directory, excluded_per_spec.
  rewrite existsb_exists. split.
  - intros [pattern [Hin H]]. exists pattern. split; [exact Hin |].
    apply orb_true_iff in H. destruct H as [H | H].
    + right. right. apply existsb_exists in H. destruct H as [parent [Hp H]].
      exists parent. split; [exact Hp |]. now apply orb_true_iff in H.
    + apply orb_true_iff in H. tauto.
  - intros [pattern [Hin H]]. exists pattern. split; [exact Hin |].
    apply orb_true_iff. destruct H as [H | [H | [parent [Hp H]]]].
    + right. rewrite H. reflexivity.
    + right. rewrite H. apply orb_true_r.
    + left. apply existsb_exists. exists parent. split; [exact Hp |].
      now apply orb_true_iff.
Qed.

Lemma should_exclude_iff (patterns : list string) (path : Path) :
  should_exclude patterns path = true <->
  exists pattern, In pattern patterns /\ fnmatch (str path) pattern = true.
Proof. unfold should_exclude. apply existsb_exists. Qed.

Lemma build_tree_excluded (patterns : list string) (max_depth : Z) (path : Path)
    (n : fsnode) (current_depth : Z) :
  should_exclude patterns path = true ->
  build_tree patterns max_depth path n current_depth = ret VNone.
Proof. intros H. destruct n; simpl; rewrite H; reflexivity. Qed.

(** ** Discovery: what the loops compute *)

Section DiscoveryFacts.

Variable glob : string -> list Path * option exn.
Variable fs : fsnode.

Lemma set_add_in (x y : string) (s : list string) :
  In y (set_add x s) <-> y = x \/ In y s.
Proof.
  unfold set_add. destruct (existsb (String.eqb x) s) eqn:E.
  - split; [tauto |]. intros [-> | H]; [| exact H].
    apply existsb_exists in E. destruct E as [z [Hz E]].
    apply String.eqb_eq in E. now subst.
  - rewrite in_app_iff. simpl. split; intros H; intuition auto.
Qed.

Lemma set_add_NoDup (x : string) (s : list string) : NoDup s -> NoDup (set_add x s).
Proof.
  intros H. unfold set_add. destruct (existsb (String.eqb x) s) eqn:E; [exact H |].
  apply NoDup_app; [exact H | repeat constructor; intros [] | ].
  intros y Hy [Hxy | []]. subst y.
  assert (existsb (String.eqb x) s = true) as E'.
  { apply existsb_exists. exists x. split; [exact Hy | apply String.eqb_refl]. }
  congruence.
Qed.

Lemma add_matches_in (excl : list string) (paths : list Path) :
  forall (acc : list string) (y : string),
    In y (add_matches fs excl paths acc) <->
    In y acc \/
    In y (map str (filter (fun path =>
                             is_dir fs path && negb (should_skip_directory (str path) excl))
                          paths)).
Proof.
  induction paths as [| path rest IH]; intros acc y; simpl.
  - tauto.
  - destruct (is_dir fs path); simpl.
    + destruct (should_skip_directory (str path) excl); simpl.
      * apply IH.
      * rewrite IH, set_add_in. intuition auto.
    + apply IH.
Qed.

Lemma add_matches_NoDup (excl : list string) (paths : list Path) :
  forall acc, NoDup acc -> NoDup (add_matches fs excl paths acc).
Proof.
  induction paths as [| path rest IH]; intros acc H; simpl; [exact H |].
  destruct (is_dir fs path); simpl; [| now apply IH].
  destruct (should_skip_directory (str path) excl); simpl; [now apply IH |].
  apply IH. now apply set_add_NoDup.
Qed.

(** The token loop never raises; its set holds what was there and what
    each token contributes. *)
Lemma discover_returns (excl : list string) (patterns : list string) :
  forall acc,
    NoDup acc ->
    exists dirs,
      outcome (discover glob fs excl patterns acc) = inr dirs /\
      NoDup dirs /\
      forall y, In y dirs <->
                In y acc \/ exists pattern, In pattern patterns /\ In y (token_dirs glob fs excl pattern).
Proof.
  induction patterns as [| pattern rest IH]; intros acc Hnd.
  - exists acc. split; [reflexivity |]. split; [exact Hnd |].
    intros y. split; [tauto |]. intros [H | [p [[] _]]]. exact H.
  - simpl. unfold token_dirs at 1.
    destruct (is_dir fs (joinpath root_path pattern)
              && negb (should_skip_directory (str (joinpath root_path pattern)) excl)) eqn:E.
    + destruct (IH (set_add (str (joinpath root_path pattern)) acc)) as [dirs [Ho [Hn Hi]]].
      { now apply set_add_NoDup. }
      exists dirs. split; [exact Ho |]. split; [exact Hn |].
      intros y. rewrite Hi, set_add_in. split.
      * intros [[-> | H] | [p [Hp H]]].
        -- right. exists pattern. split; [now left |].
           unfold token_dirs. rewrite E. now left.
        -- now left.
        -- right. exists p. split; [now right | exact H].
      * intros [H | [p [[<- | Hp] H]]].
        -- left. now right.
        -- unfold token_dirs in H. rewrite E in H. destruct H as [<- | []].
           left. now left.
        -- right. exists p. split; assumption.
    + destruct (glob pattern) as [paths err] eqn:G.
      destruct (IH (add_matches fs excl paths acc)) as [dirs [Ho [Hn Hi]]].
      { now apply add_matches_NoDup. }
      exists dirs. split.
      { destruct err as [e |]; [| exact Ho].
        rewrite outcome_bind. simpl. exact Ho. }
      split; [exact Hn |].
      intros y. rewrite Hi, add_matches_in. split.
      * intros [[H | H] | [p [Hp H]]].
        -- now left.
        -- right. exists pattern. split; [now left |].
           unfold token_dirs. rewrite E, G. exact H.
        -- right. exists p. split; [now right | exact H].
      * intros [H | [p [[<- | Hp] H]]].
        -- left. now left.
        -- unfold token_dirs in H. rewrite E, G in H. left. now right.
        -- right. exists p. split; assumption.
Qed.

Lemma token_dirs_not_skipped (excl : list string) (pattern y : string) :
  In y (token_dirs glob fs excl pattern) -> should_skip_directory y excl = false.
Proof.
  unfold token_dirs.
  destruct (is_dir fs (joinpath root_path pattern)
            && negb (should_skip_directory (str (joinpath root_path pattern)) excl)) eqn:E.
  - intros [<- | []]. apply andb_true_iff in E. destruct E as [_ E].
    now apply negb_true_iff in E.
  - rewrite in_map_iff. intros [path [<- H]].
    apply filter_In in H. destruct H as [_ H].
    apply andb_true_iff in H. destruct H as [_ H]. now apply negb_true_iff in H.
Qed.

End DiscoveryFacts.

(** ** Sorting strings *)

Section StringOrder.

Lemma str_lt_iff (a b : string) : str_lt a b <-> String_as_OT.lt a b.
Proof.
  unfold str_lt, String.ltb. rewrite <- String_as_OT.cmp_lt.
  unfold String_as_OT.cmp. destruct (String.compare a b); split; congruence.
Qed.

Lemma str_lt_trans (a b c : string) : str_lt a b -> str_lt b c -> str_lt a c.
Proof. rewrite !str_lt_iff. apply String_as_OT.lt_trans. Qed.

Lemma str_lt_irrefl (a : string) : ~ str_lt a a.
Proof.
  rewrite str_lt_iff. intros H. apply String_as_OT.lt_not_eq in H.
  apply H. reflexivity.
Qed.

Lemma leb_neq_lt (a b : string) : String.leb a b = true -> a <> b -> str_lt a b.
Proof.
  unfold str_lt, String.leb, String.ltb. intros H Hne.
  destruct (String.compare a b) eqn:E; try congruence.
  apply String.compare_eq_iff in E. contradiction.
Qed.

Lemma leb_false_lt (a b : string) : String.leb a b = false -> str_lt b a.
Proof.
  unfold str_lt, String.leb, String.ltb. intros H.
  rewrite String.compare_antisym.
  destruct (String.compare a b); simpl; congruence.
Qed.

Lemma insert_sorted_in (x y : string) (l : list string) :
  In y (insert_sorted x l) <-> y = x \/ In y l.
Proof.
  induction l as [| z l IH]; simpl.
  - intuition auto.
  - destruct (String.leb x z); simpl; [intuition auto |].
    rewrite IH. intuition auto.
Qed.

Lemma sorted_in (y : string) (l : list string) : In y (sorted l) <-> In y l.
Proof.
  induction l as [| x l IH]; simpl; [tauto |].
  rewrite insert_sorted_in, IH. intuition auto.
Qed.

Lemma insert_sorted_strict (x : string) (l : list string) :
  StronglySorted str_lt l -> ~ In x l -> StronglySorted str_lt (insert_sorted x l).
Proof.
  induction l as [| z l IH]; intros Hs Hx; simpl.
  - constructor; constructor.
  - inversion Hs as [| ? ? Hs' Hall]; subst.
    destruct (String.leb x z) eqn:E.
    + assert (str_lt x z) as Hxz.
      { apply leb_neq_lt; [exact E |]. intros ->. apply Hx. now left. }
      constructor; [exact Hs |]. constructor; [exact Hxz |].
      rewrite Forall_forall in *. intros w Hw.
      apply (str_lt_trans _ z); auto.
    + constructor.
      * apply IH; [exact Hs' |]. intros H. apply Hx. now right.
      * rewrite Forall_forall in *. intros w Hw.
        apply insert_sorted_in in Hw. destruct Hw as [-> | Hw]; [| auto].
        now apply leb_false_lt.
Qed.

Lemma sorted_strict (l : list string) : NoDup l -> StronglySorted str_lt (sorted l).
Proof.
  induction 1 as [| x l Hx Hnd IH]; simpl; [constructor |].
  apply insert_sorted_strict; [exact IH |]. now rewrite sorted_in.
Qed.

Lemma strict_sorted_NoDup (l : list string) : StronglySorted str_lt l -> NoDup l.
Proof.
  induction 1 as [| x l Hs IH Hall]; constructor; [| exact IH].
  intros Hin. rewrite Forall_forall in Hall.
  exact (str_lt_irrefl x (Hall x Hin)).
Qed.

(** A strictly sorted list is determined by its elements. *)
Lemma strict_sorted_unique (l1 l2 : list string) :
  StronglySorted str_lt l1 -> StronglySorted str_lt l2 ->
  (forall y, In y l1 <-> In y l2) -> l1 = l2.
Proof.
  intros H1. revert l2.
  induction H1 as [| a l1 Hs1 IH Hall1]; intros l2 H2 Hsame.
  - destruct l2 as [| b l2]; [reflexivity |].
    exfalso. apply (proj2 (Hsame b)). now left.
  - destruct H2 as [| b l2 Hs2 Hall2].
    + exfalso. apply (proj1 (Hsame a)). now left.
    + rewrite Forall_forall in Hall1, Hall2.
      assert (a = b) as ->.
      { destruct (proj1 (Hsame a) (or_introl eq_refl)) as [Hba | Ha]; [now symmetry |].
        destruct (proj2 (Hsame b) (or_introl eq_refl)) as [Hab | Hb]; [exact Hab |].
        exfalso. apply (str_lt_irrefl a).
        apply (str_lt_trans _ b); auto. }
      f_equal. apply IH; [exact Hs2 |].
      intros y. split; intros Hy.
      * destruct (proj1 (Hsame y) (or_intror Hy)) as [<- | H]; [| exact H].
        exfalso. exact (str_lt_irrefl _ (Hall1 _ Hy)).
      * destruct (proj2 (Hsame y) (or_intror Hy)) as [<- | H]; [| exact H].
        exfalso. exact (str_lt_irrefl _ (Hall2 _ Hy)).
Qed.

End StringOrder.

(** ** Discovery: the returned list *)

Section DiscoveryResult.

Variable glob : string -> list Path * option exn.
Variable fs : fsnode.

(** Discovery returns: a strictly sorted list holding what the tokens
    contribute under the caller's patterns. *)
Lemma find_source_directories_returns (search_pattern : string)
    (exclude_patterns : option (list string)) :
  exists dirs,
    outcome (find_source_directories glob fs search_pattern exclude_patterns) = inr dirs /\
    StronglySorted str_lt dirs /\
    forall y, In y dirs <->
              exists pattern,
                In pattern (PyStr.split search_pattern) /\
                In y (token_dirs glob fs (caller_patterns exclude_patterns) pattern).
Proof.
  unfold find_source_directories. fold (caller_patterns exclude_patterns).
  destruct (discover_returns glob fs (caller_patterns exclude_patterns)
              (PyStr.split search_pattern) [] (NoDup_nil _)) as [dirs [Ho [Hnd Hin]]].
  exists (sorted dirs). split; [| split].
  - rewrite outcome_bind, Ho, outcome_bind.
    destruct dirs; reflexivity.
  - now apply sorted_strict.
  - intros y. rewrite sorted_in, Hin. simpl. tauto.
Qed.

End DiscoveryResult.

Lemma split_go_app (a b : string) :
  forall cur,
    PyStr.split_go cur (a ++ String " " b)%string =
    PyStr.split_go cur a ++ PyStr.split b.
Proof.
  induction a as [| c a IH]; intros cur; simpl.
  - change (PyStr.is_space " ") with true. cbv iota. destruct cur; reflexivity.
  - destruct (PyStr.is_space c).
    + destruct cur; rewrite IH; reflexivity.
    + apply IH.
Qed.

Lemma find_source_directories_same_tokens
    (glob : string -> list Path * option exn) (fs : fsnode)
    (s1 s2 : string) (exclude_patterns : option (list string)) :
  (forall t, In t (PyStr.split s1) <-> In t (PyStr.split s2)) ->
  outcome (find_source_directories glob fs s1 exclude_patterns) =
  outcome (find_source_directories glob fs s2 exclude_patterns).
Proof.
  intros Hsame.
  destruct (find_source_directories_returns glob fs s1 exclude_patterns)
    as [d1 [Ho1 [Hs1 Hin1]]].
  destruct (find_source_directories_returns glob fs s2 exclude_patterns)
    as [d2 [Ho2 [Hs2 Hin2]]].
  rewrite Ho1, Ho2. f_equal.
  apply strict_sorted_unique; [exact Hs1 | exact Hs2 |].
  intros y. rewrite Hin1, Hin2.
  split; intros [p [Hp Hy]]; exists p; (split; [now apply Hsame | exact Hy]).
Qed.

(** C1 (the code departs from the claim): discovery checks a directory
    against the caller's patterns only, so with no caller pattern it returns
    [node_modules/pkg/src], a directory that the default list would exclude
    through its ancestor [node_modules]. *)
Theorem C1_default_excludes_not_applied :
  outcome (find_source_directories sample_glob sample_fs "**/src" None)
  = inr ["node_modules/pkg/src"; "src"]
  /\ should_skip_directory "node_modules/pkg/src" ([] ++ DEFAULT_EXCLUDES) = true
  /\ outcome (find_source_directories sample_glob sample_fs "node_modules" None)
     = inr ["node_modules"].
Proof. repeat split; vm_compute; reflexivity. Qed.

(** C2 (the code departs from the claim): the structure snapshot matches a
    pattern against the full path of a node only.  With the default exclude
    list, as the entry point passes it, the path [pkg/node_modules/sub] has
    an ancestor whose bare name matches [node_modules], and discovery's check
    skips it under that list; yet the snapshot's check excludes neither the
    path nor its parent, and the directory is in the snapshot of the sample
    project. *)
Theorem C2_snapshot_checks_full_path_only :
  excluded_per_spec DEFAULT_EXCLUDES "pkg/node_modules/sub"
  /\ should_skip_directory "pkg/node_modules/sub" DEFAULT_EXCLUDES = true
  /\ should_exclude DEFAULT_EXCLUDES (parse_path "pkg/node_modules/sub") = false
  /\ should_exclude DEFAULT_EXCLUDES (parse_path "pkg/node_modules") = false
  /\ outcome (main_project_structure sample_fs [])
     = inr (VDict
              [("",
                VDict
                  [("files", VList [VStr "README.md"]);
                   ("pkg", VDict [("node_modules", VDict [("sub", VDict [])])]);
                   ("src", VDict [("files", VList [VStr "a.pyx.py"; VStr "app.py";
                                                   VStr "broken.py"])])])])
  /\ outcome (generate_project_structure sample_fs "." (Some ["node_modules"]) 3)
     = inr (VDict
              [("",
                VDict
                  [("files", VList [VStr "README.md"]);
                   ("pkg", VDict [("node_modules", VDict [("sub", VDict [])])]);
                   ("src", VDict [("files", VList [VStr "a.pyx.py"; VStr "app.py";
                                                   VStr "broken.py"])])])]).
Proof.
  split; [| repeat split; vm_compute; reflexivity].
  exists "node_modules". split; [now left |].
  right. right. exists (parse_path "pkg/node_modules").
  split; [vm_compute; now left | right; vm_compute; reflexivity].
Qed.

(** C8: discovery returns a strictly increasing list (so sorted and free of
    duplicates), the same list for every permutation of the pattern tokens,
    and the same list when the tokens are given twice. *)
Theorem C8_discovery_order_independent :
  forall (glob : string -> list Path * option exn) (fs : fsnode)
         (s1 s2 : string) (exclude_patterns : option (list string)),
    Permutation (PyStr.split s1) (PyStr.split s2) ->
    outcome (find_source_directories glob fs s1 exclude_patterns)
    = outcome (find_source_directories glob fs s2 exclude_patterns)
    /\ (exists dirs,
           outcome (find_source_directories glob fs s1 exclude_patterns) = inr dirs
           /\ StronglySorted str_lt dirs /\ NoDup dirs)
    /\ outcome (find_source_directories glob fs (s1 ++ String " " s1)%string exclude_patterns)
       = outcome (find_source_directories glob fs s1 exclude_patterns).
Proof.
  intros glob fs s1 s2 excl Hperm. split; [| split].
  - apply find_source_directories_same_tokens. intros t. split; intros H.
    + exact (Permutation_in t Hperm H).
    + exact (Permutation_in t (Permutation_sym Hperm) H).
  - destruct (find_source_directories_returns glob fs s1 excl) as [d [Ho [Hs _]]].
    exists d. split; [exact Ho |]. split; [exact Hs |]. now apply strict_sorted_NoDup.
  - apply find_source_directories_same_tokens. intros t.
    unfold PyStr.split at 1. rewrite split_go_app. fold (PyStr.split s1).
    rewrite in_app_iff. tauto.
Qed.

Lemma C8_discovery_order_independent_witness :
  outcome (find_source_directories sample_glob sample_fs "pkg **/src docs" None)
  = outcome (find_source_directories sample_glob sample_fs "**/src docs pkg" None).
Proof.
  apply (C8_discovery_order_independent sample_glob sample_fs
           "pkg **/src docs" "**/src docs pkg" None).
  change (Permutation ["pkg"; "**/src"; "docs"] ["**/src"; "docs"; "pkg"]).
  apply (Permutation_cons_app ["**/src"; "docs"] []). apply Permutation_refl.
Defined.

(** C10: for the root path [.], the value the entry point passes, the
    snapshot is a mapping with one entry whose key is the empty string. *)
Theorem C10_root_key_is_empty_string :
  forall (fs : fsnode) (exclude : list string) (v : value),
    outcome (main_project_structure fs exclude) = inr v ->
    name (parse_path ".") = ""
    /\ (exists built, v = VDict [("", built)])
    /\ (forall exclude_patterns max_depth w,
           outcome (generate_project_structure fs "." exclude_patterns max_depth) = inr w ->
           exists built, w = VDict [("", built)]).
Proof.
  assert (forall fs excl d w,
             outcome (generate_project_structure fs "." excl d) = inr w ->
             exists built, w = VDict [("", built)]) as Hgen.
  { intros fs excl d w. unfold generate_project_structure.
    rewrite outcome_bind.
    match goal with |- match outcome ?m with _ => _ end = _ -> _ =>
      destruct (outcome m) as [e | built] end.
    - discriminate.
    - intros H. exists built. simpl in H. now injection H as <-. }
  intros fs exclude v H. split; [reflexivity |]. split.
  - unfold main_project_structure in H. exact (Hgen fs _ _ v H).
  - intros excl d w. apply Hgen.
Qed.

Lemma C10_root_key_is_empty_string_witness :
  exists built,
    VDict
      [("",
        VDict
          [("files", VList [VStr "README.md"]);
           ("pkg", VDict [("node_modules", VDict [("sub", VDict [])])]);
           ("src", VDict [("files", VList [VStr "a.pyx.py"; VStr "app.py";
                                           VStr "broken.py"])])])]
    = VDict [("", built)].
Proof.
  apply (C10_root_key_is_empty_string sample_fs []).
  vm_compute. reflexivity.
Defined.

(** C4 (the code departs from the claim): the module identifier is made by
    removing every occurrence of [.py] from the dotted path, not the
    trailing one only; the file [a.pyx.py] gets the module [ax], where the
    claim gives [a.pyx].  For [a.b.py] the two agree on [a.b]. *)
Theorem C4_module_path_removes_every_py :
  module_path (parse_path "a.pyx.py") = "ax"
  /\ module_path_per_spec (parse_path "a.pyx.py") = "a.pyx"
  /\ module_path (parse_path "my.pyutils/mod.py") = "myutils.mod"
  /\ module_path (parse_path "a.b.py") = "a.b"
  /\ outcome (analyze_directory sample_fs "src")
     = inr (Some
              (mkDirectoryResult "src"
                 [ mkModuleInfo "app.py" "app" ["os"; "proj.util.helper"];
                   mkModuleInfo "a.pyx.py" "ax" ["sys"] ])).
Proof. repeat split; vm_compute; reflexivity. Qed.

(** ** The walk over a syntax tree *)

Lemma node_children_ind (P : node -> Prop) :
  (forall n, Forall P (iter_child_nodes n) -> P n) -> forall n, P n.
Proof.
  intros H. fix IH 1. intros n. apply H.
  destruct n as [names | m names l | a | children]; simpl.
  - induction names as [| a names IHn]; constructor; [apply H; constructor | exact IHn].
  - induction names as [| a names IHn]; constructor; [apply H; constructor | exact IHn].
  - constructor.
  - induction children as [| c cs IHcs]; constructor; [apply IH | exact IHcs].
Qed.

Lemma preorder_unfold (n : node) :
  preorder n = n :: flat_map preorder (iter_child_nodes n).
Proof.
  destruct n as [names | m names l | a | children]; simpl; f_equal.
  - induction names as [| a names IH]; simpl; [reflexivity | now rewrite <- IH].
  - induction names as [| a names IH]; simpl; [reflexivity | now rewrite <- IH].
Qed.

Lemma node_size_unfold (n : node) :
  node_size n = S (queue_size (iter_child_nodes n)).
Proof.
  unfold queue_size.
  destruct n as [names | m names l | a | children]; simpl; f_equal.
  - induction names as [| a names IH]; simpl; [reflexivity | now rewrite <- IH].
  - induction names as [| a names IH]; simpl; [reflexivity | now rewrite <- IH].
  - induction children as [| c cs IH]; simpl; [reflexivity | now rewrite <- IH].
Qed.

Lemma queue_size_app (q1 q2 : list node) :
  queue_size (q1 ++ q2) = queue_size q1 + queue_size q2.
Proof. unfold queue_size. now rewrite map_app, list_sum_app. Qed.

Lemma queue_size_cons (n : node) (rest : list node) :
  queue_size (n :: rest) = S (queue_size (iter_child_nodes n) + queue_size rest).
Proof. unfold queue_size at 1. simpl. now rewrite node_size_unfold. Qed.

(** With fuel for every node of the queue, the walk yields the nodes of the
    queue's trees, each once. *)
Lemma walk_queue_preorder (fuel : nat) :
  forall todo,
    queue_size todo <= fuel ->
    Permutation (walk_queue fuel todo) (flat_map preorder todo).
Proof.
  induction fuel as [| fuel IH]; intros todo Hsize.
  - destruct todo as [| n rest]; [constructor |].
    rewrite queue_size_cons in Hsize. lia.
  - destruct todo as [| n rest]; [constructor |].
    cbn [walk_queue flat_map]. rewrite (preorder_unfold n).
    cbn [app]. constructor.
    rewrite IH.
    + rewrite flat_map_app. apply Permutation_app_comm.
    + rewrite queue_size_cons in Hsize. rewrite queue_size_app. lia.
Qed.

(** Fuel beyond the size of the queue changes nothing: the walk has ended. *)
Lemma walk_queue_fuel (f1 : nat) :
  forall f2 todo,
    queue_size todo <= f1 -> queue_size todo <= f2 ->
    walk_queue f1 todo = walk_queue f2 todo.
Proof.
  induction f1 as [| f1 IH]; intros f2 todo H1 H2.
  - destruct todo as [| n rest]; [now destruct f2 |].
    rewrite queue_size_cons in H1. lia.
  - destruct todo as [| n rest]; [now destruct f2 |].
    rewrite queue_size_cons in H1, H2.
    destruct f2 as [| f2]; [lia |].
    cbn [walk_queue]. f_equal.
    apply IH; rewrite queue_size_app; lia.
Qed.

Lemma walk_preorder (tree : node) : Permutation (walk tree) (preorder tree).
Proof.
  unfold walk. rewrite walk_queue_preorder.
  - simpl. now rewrite app_nil_r.
  - rewrite queue_size_cons, node_size_unfold. unfold queue_size. simpl. lia.
Qed.

Lemma preorder_node_of (tree n : node) : In n (preorder tree) <-> node_of n tree.
Proof.
  split.
  - revert n. induction tree as [tree IH] using node_children_ind. intros n.
    rewrite preorder_unfold. intros [<- | H]; [constructor |].
    apply in_flat_map in H. destruct H as [c [Hc H]].
    rewrite Forall_forall in IH.
    apply (node_of_child n c); [now apply IH | exact Hc].
  - induction 1 as [t | n c t _ IH Hc].
    + rewrite preorder_unfold. now left.
    + rewrite preorder_unfold. right. apply in_flat_map. now exists c.
Qed.

Lemma walk_node_of (tree n : node) : In n (walk tree) <-> node_of n tree.
Proof.
  rewrite <- preorder_node_of. split; apply Permutation_in.
  - apply walk_preorder.
  - apply Permutation_sym, walk_preorder.
Qed.

Lemma collect_imports_permutation (tree : node) :
  Permutation (collect_imports tree) (source_order_imports tree).
Proof.
  unfold collect_imports, source_order_imports.
  apply Permutation_flat_map, walk_preorder.
Qed.

(** A subtree without import statements adds nothing, in either order. *)
Lemma has_import_children (n : node) :
  has_import n = false ->
  import_refs n = [] /\ Forall (fun c => has_import c = false) (iter_child_nodes n).
Proof.
  destruct n as [names | m names l | a | children]; simpl; try discriminate.
  - intros _. split; [reflexivity | constructor].
  - intros H. split; [reflexivity |].
    induction children as [| c cs IH]; constructor.
    + now apply orb_false_iff in H.
    + apply IH. now apply orb_false_iff in H.
Qed.

Lemma preorder_no_import (n : node) :
  has_import n = false -> flat_map import_refs (preorder n) = [].
Proof.
  induction n as [n IH] using node_children_ind. intros H.
  apply has_import_children in H. destruct H as [Hn Hc].
  rewrite preorder_unfold. cbn [flat_map]. rewrite Hn. cbn [app].
  rewrite Forall_forall in IH, Hc.
  induction (iter_child_nodes n) as [| c cs IHcs]; [reflexivity |].
  cbn [flat_map]. rewrite flat_map_app, IH; [| now left | apply Hc; now left].
  apply IHcs; intros x Hx; [apply IH | apply Hc]; now right.
Qed.

Lemma top_level_stmt_children (s : node) :
  top_level_stmt s = true ->
  Forall (fun c => has_import c = false) (iter_child_nodes s).
Proof.
  destruct s as [names | m names l | a | children]; simpl; intros H.
  - apply Forall_forall. intros c Hc. apply in_map_iff in Hc. now destruct Hc as [a [<- _]].
  - apply Forall_forall. intros c Hc. apply in_map_iff in Hc. now destruct Hc as [a [<- _]].
  - constructor.
  - apply negb_true_iff in H.
    exact (proj2 (has_import_children (Other children) H)).
Qed.

Lemma top_level_stmt_source (s : node) :
  top_level_stmt s = true -> flat_map import_refs (preorder s) = import_refs s.
Proof.
  intros H. rewrite preorder_unfold. cbn [flat_map].
  assert (flat_map import_refs (flat_map preorder (iter_child_nodes s)) = []) as ->.
  { apply top_level_stmt_children in H. rewrite Forall_forall in H.
    induction (iter_child_nodes s) as [| c cs IH]; [reflexivity |].
    cbn [flat_map]. rewrite flat_map_app, preorder_no_import; [| apply H; now left].
    apply IH. intros x Hx. apply H. now right. }
  apply app_nil_r.
Qed.

(** The walk of a queue made of top-level statements followed by subtrees
    without imports collects the references of the former, in order. *)
Lemma walk_queue_top_level (fuel : nat) :
  forall q1 q2,
    queue_size (q1 ++ q2) <= fuel ->
    Forall (fun s => top_level_stmt s = true) q1 ->
    Forall (fun c => has_import c = false) q2 ->
    flat_map import_refs (walk_queue fuel (q1 ++ q2)) = flat_map import_refs q1.
Proof.
  induction fuel as [| fuel IH]; intros q1 q2 Hsize H1 H2.
  - destruct q1 as [| n q1]; [reflexivity |].
    cbn [app] in Hsize. rewrite queue_size_cons in Hsize. lia.
  - destruct q1 as [| n q1].
    + destruct q2 as [| n q2]; [reflexivity |].
      cbn [app walk_queue flat_map].
      inversion H2 as [| ? ? Hn H2']; subst.
      destruct (has_import_children n Hn) as [Hr Hc]. rewrite Hr. cbn [app].
      apply (IH [] (q2 ++ iter_child_nodes n)).
      * cbn [app] in *. rewrite queue_size_cons in Hsize.
        rewrite queue_size_app. lia.
      * constructor.
      * apply Forall_app. split; assumption.
    + cbn [app walk_queue flat_map].
      inversion H1 as [| ? ? Hn H1']; subst. f_equal.
      rewrite <- app_assoc.
      apply (IH q1 (q2 ++ iter_child_nodes n)).
      * cbn [app] in Hsize. rewrite queue_size_cons in Hsize.
        rewrite !queue_size_app in *. lia.
      * exact H1'.
      * apply Forall_app. split; [exact H2 | now apply top_level_stmt_children].
Qed.

Lemma collect_imports_top_level (tree : node) :
  imports_at_top_level tree = true ->
  collect_imports tree = source_order_imports tree.
Proof.
  destruct tree as [names | m names l | a | body]; try discriminate.
  unfold imports_at_top_level. fold top_level_stmt. intros H.
  assert (Forall (fun s => top_level_stmt s = true) body) as Hall.
  { apply Forall_forall. now apply forallb_forall. }
  clear H.
  unfold collect_imports, source_order_imports, walk.
  rewrite node_size_unfold, preorder_unfold.
  cbn [walk_queue app flat_map import_refs iter_child_nodes].
  rewrite <- (app_nil_r body) at 2.
  rewrite walk_queue_top_level; [| rewrite app_nil_r; lia | exact Hall | constructor].
  induction Hall as [| s body Hs _ IH]; [reflexivity |].
  cbn [flat_map]. rewrite flat_map_app, top_level_stmt_source by exact Hs.
  now rewrite IH.
Qed.

(** ** The extractor *)

Lemma find_imports_parsed (fs : fsnode) (file_path : Path) (tree : node) :
  lookup fs file_path = Some (File (Parsed tree)) ->
  find_imports fs file_path = ret (collect_imports tree).
Proof.
  intros H. unfold find_imports, open_and_parse. rewrite H. reflexivity.
Qed.

Lemma find_imports_failed (fs : fsnode) (file_path : Path) :
  parse_fails fs file_path ->
  exists msg,
    find_imports fs file_path
    = (["Error parsing " ++ str file_path ++ ": " ++ msg]%string, inr []).
Proof.
  intros H. unfold find_imports, open_and_parse.
  destruct (lookup fs file_path) as [[[tree | err] | r entries] |] eqn:E.
  - exfalso. exact (H tree E).
  - exists err. reflexivity.
  - eexists. reflexivity.
  - eexists. reflexivity.
Qed.

Lemma find_imports_total (fs : fsnode) (file_path : Path) :
  exists refs, outcome (find_imports fs file_path) = inr refs.
Proof.
  unfold find_imports, open_and_parse.
  destruct (lookup fs file_path) as [[[tree | err] | r entries] |];
    eexists; reflexivity.
Qed.

(** C5: for a file that parses, the extractor prints nothing and returns
    the name of each target of an [import], [module.name] for each target of
    a [from module import] with a non-empty module, and the bare name when
    the module is empty; nothing else is returned.  The three sample
    statements give the three sample results. *)
Theorem C5_import_references :
  forall (fs : fsnode) (file_path : Path) (tree : node),
    lookup fs file_path = Some (File (Parsed tree)) ->
    exists refs,
      find_imports fs file_path = ret refs
      /\ (forall names a,
             node_of (Import names) tree -> In a names -> In (alias_name a) refs)
      /\ (forall c m names level a,
             node_of (ImportFrom (Some (String c m)) names level) tree -> In a names ->
             In (String c m ++ "." ++ alias_name a)%string refs)
      /\ (forall module names level a,
             node_of (ImportFrom module names level) tree ->
             module = None \/ module = Some "" ->
             In a names -> In (alias_name a) refs)
      /\ (forall r, In r refs -> exists n, node_of n tree /\ In r (import_refs n))
      /\ collect_imports (Other [Import [mkAlias "a.b" None]]) = ["a.b"]
      /\ collect_imports (Other [ImportFrom (Some "a.b") [mkAlias "c" None] 0]) = ["a.b.c"]
      /\ collect_imports (Other [ImportFrom None [mkAlias "c" None] 1]) = ["c"].
Proof.
  intros fs file_path tree Hlook.
  exists (collect_imports tree).
  split; [now apply find_imports_parsed |].
  assert (forall n r, node_of n tree -> In r (import_refs n) -> In r (collect_imports tree))
    as Hin.
  { intros n r Hn Hr. unfold collect_imports. apply in_flat_map.
    exists n. split; [now apply walk_node_of | exact Hr]. }
  split; [| split; [| split; [| split]]].
  - intros names a Hn Ha. apply (Hin _ _ Hn). simpl. now apply in_map.
  - intros c m names level a Hn Ha. apply (Hin _ _ Hn). simpl.
    apply in_map_iff. exists a. split; [reflexivity | exact Ha].
  - intros module names level a Hn Hm Ha. apply (Hin _ _ Hn).
    destruct Hm as [-> | ->]; simpl; apply in_map_iff; exists a; (split; [reflexivity | exact Ha]).
  - intros r Hr. unfold collect_imports in Hr. apply in_flat_map in Hr.
    destruct Hr as [n [Hn Hr]]. exists n. split; [now apply walk_node_of | exact Hr].
  - repeat split; reflexivity.
Qed.

Lemma C5_import_references_witness :
  exists refs,
    find_imports sample_fs (parse_path "src/app.py") = ret refs
    /\ In "proj.util.helper" refs.
Proof.
  destruct (C5_import_references sample_fs (parse_path "src/app.py")
              (Other [imp "os"; ImportFrom (Some "proj.util") [mkAlias "helper" None] 0])
              eq_refl) as [refs [Hret [_ [Hfrom _]]]].
  exists refs. split; [exact Hret |].
  apply (Hfrom "p"%char "roj.util" [mkAlias "helper" None] 0 (mkAlias "helper" None)).
  - apply (node_of_child _ (ImportFrom (Some "proj.util") [mkAlias "helper" None] 0)).
    + apply node_of_self.
    + right. left. reflexivity.
  - left. reflexivity.
Defined.

(** C3, as stated, fails for nested imports: for a module made of a
    function whose body imports [a], followed by [import b], the extractor
    returns [b] before [a], while [a] comes first in the file. *)
Lemma C3_nested_import_out_of_source_order :
  find_imports nested_fs (parse_path "m.py") = ret ["b"; "a"]
  /\ source_order_imports nested_module = ["a"; "b"].
Proof. split; reflexivity. Qed.

(** ** The analyzer's loop *)

Lemma fsnode_entries_ind (P : fsnode -> Prop) :
  (forall c, P (File c)) ->
  (forall r entries, Forall (fun e => P (snd e)) entries -> P (Dir r entries)) ->
  forall n, P n.
Proof.
  intros Hfile Hdir. fix IH 1. intros [c | r entries].
  - apply Hfile.
  - apply Hdir. induction entries as [| [e c] es IHes]; constructor.
    + apply IH.
    + exact IHes.
Qed.

Lemma strip_prefix_app (base rest : list string) :
  strip_prefix base (base ++ rest) = Some rest.
Proof.
  induction base as [| b base IH]; simpl; [now destruct rest |].
  now rewrite String.eqb_refl.
Qed.

Lemma anchor_eqb_refl (a : anchor) : anchor_eqb a a = true.
Proof. now destruct a. Qed.

(** Every file found lies under the directory searched. *)
Lemma rglob_from_under (n : fsnode) :
  forall p f,
    In f (rglob_from p n) ->
    exists rest, f = mkPath (root p) (segments p ++ rest).
Proof.
  induction n as [c | r entries IH] using fsnode_entries_ind; intros p f.
  - intros [].
  - destruct r; [| intros []]. cbn [rglob_from]. rewrite in_app_iff. intros [H | H].
    + apply in_map_iff in H. destruct H as [e [<- _]]. now exists [e].
    + induction entries as [| [e c] es IHes]; [destruct H |].
      inversion IH as [| ? ? Hc Hes]; subst. cbn [snd] in Hc.
      apply in_app_iff in H. destruct H as [H | H].
      * destruct c as [c | r entries]; [destruct H |].
        apply Hc in H. destruct H as [rest ->].
        exists (e :: rest). cbn [child_path root segments].
        now rewrite <- app_assoc.
      * now apply IHes.
Qed.

Lemma relative_to_under (r : anchor) (segs rest : list string) :
  relative_to (mkPath r (segs ++ rest)) (mkPath r segs) = Some (mkPath Relative rest).
Proof.
  unfold relative_to. cbn [root segments].
  now rewrite anchor_eqb_refl, strip_prefix_app.
Qed.

Lemma outcome_analyze_files_cons (fs : fsnode) (dir_path python_file : Path)
    (rest : list Path) (acc : list ModuleInfo) :
  outcome (analyze_files fs dir_path (python_file :: rest) acc) =
  match outcome (find_imports fs python_file) with
  | inl e => inl e
  | inr [] => outcome (analyze_files fs dir_path rest acc)
  | inr imports =>
      match relative_to python_file dir_path with
      | None =>
          inl (PyExn "ValueError"
                 ("'" ++ str python_file ++ "' is not in the subpath of '"
                  ++ str dir_path ++ "'")%string)
      | Some relative_path =>
          outcome (analyze_files fs dir_path rest
                     (acc ++ [mkModuleInfo (str relative_path) (module_path relative_path)
                                imports]))
      end
  end.
Proof.
  cbn [analyze_files]. rewrite outcome_bind.
  destruct (outcome (find_imports fs python_file)) as [e | [| r rs]]; try reflexivity.
  destruct (relative_to python_file dir_path); reflexivity.
Qed.

(** A file whose extraction gives nothing leaves the loop's result as it
    would be without the file. *)
Lemma analyze_files_skip (fs : fsnode) (dir_path file_path : Path) (after : list Path) :
  outcome (find_imports fs file_path) = inr [] ->
  forall before acc,
    outcome (analyze_files fs dir_path (before ++ file_path :: after) acc)
    = outcome (analyze_files fs dir_path (before ++ after) acc).
Proof.
  intros Hempty. induction before as [| x before IH]; intros acc.
  - cbn [app]. now rewrite outcome_analyze_files_cons, Hempty.
  - cbn [app]. rewrite !outcome_analyze_files_cons.
    destruct (outcome (find_imports fs x)) as [e | [| r rs]]; [reflexivity | apply IH |].
    destruct (relative_to x dir_path); [apply IH | reflexivity].
Qed.

(** Over files that lie under the directory the loop returns, and it adds
    a module exactly for the files with imports. *)
Lemma analyze_files_returns (fs : fsnode) (dir_path : Path) (files : list Path) :
  (forall f, In f files -> exists rest, f = mkPath (root dir_path) (segments dir_path ++ rest)) ->
  forall acc,
    exists mods,
      outcome (analyze_files fs dir_path files acc) = inr (acc ++ mods)
      /\ (mods = [] <-> forall f, In f files -> outcome (find_imports fs f) = inr []).
Proof.
  induction files as [| x files IH]; intros Hunder acc.
  - exists []. rewrite app_nil_r. split; [reflexivity |]. split; [intros _ f [] | reflexivity].
  - rewrite outcome_analyze_files_cons.
    assert (forall f, In f files ->
                      exists rest, f = mkPath (root dir_path) (segments dir_path ++ rest))
      as Hunder' by (intros f Hf; apply Hunder; now right).
    destruct (find_imports_total fs x) as [refs Hx]. rewrite Hx.
    destruct refs as [| r rs].
    + destruct (IH Hunder' acc) as [mods [Ho Hiff]].
      exists mods. split; [exact Ho |]. rewrite Hiff. split.
      * intros H f [<- | Hf]; [exact Hx | now apply H].
      * intros H f Hf. apply H. now right.
    + destruct (Hunder x (or_introl eq_refl)) as [rest ->].
      destruct dir_path as [r0 segs]. cbn [root segments] in *.
      rewrite relative_to_under.
      match goal with |- context [acc ++ [?mi]] =>
        destruct (IH Hunder' (acc ++ [mi])) as [mods [Ho _]]; exists (mi :: mods) end.
      split.
      * rewrite Ho. now rewrite <- app_assoc.
      * split; [discriminate |]. intros H.
        specialize (H _ (or_introl eq_refl)). congruence.
Qed.

Lemma analyze_directory_outcome (fs : fsnode) (directory : string) :
  exists mods,
    (mods = [] <->
     forall f, In f (rglob_py fs (parse_path directory)) ->
               outcome (find_imports fs f) = inr [])
    /\ outcome (analyze_directory fs directory) =
       inr match mods with
           | [] => None
           | _ => Some (mkDirectoryResult (PyStr.replace "/" "." directory) mods)
           end.
Proof.
  assert (forall f, In f (rglob_py fs (parse_path directory)) ->
                    exists rest,
                      f = mkPath (root (parse_path directory))
                            (segments (parse_path directory) ++ rest)) as Hunder.
  { unfold rglob_py. destruct (lookup fs (parse_path directory)) as [[c | r entries] |].
    - intros f [].
    - apply rglob_from_under.
    - intros f []. }
  destruct (analyze_files_returns fs (parse_path directory)
              (rglob_py fs (parse_path directory)) Hunder []) as [mods [Ho Hiff]].
  unfold analyze_directory. rewrite outcome_catch.
  destruct (exists_ fs (parse_path directory)) eqn:E; cbn [negb].
  - exists mods. split; [exact Hiff |].
    cbv zeta. rewrite outcome_bind, Ho. cbn [app].
    destruct mods; reflexivity.
  - exists []. split.
    + split; [| reflexivity]. intros _ f. unfold rglob_py. unfold exists_ in E.
      destruct (lookup fs (parse_path directory)); [discriminate | intros []].
    + rewrite outcome_bind. reflexivity.
Qed.

(** C9: when the parse of a file fails, the extractor prints one line
    naming the file and the error and returns the empty list; the loop over
    the files goes on with the next file, and its result is what it would be
    without the failing file.  Neither the extractor nor the analyzer of a
    directory ever raises. *)
Theorem C9_parse_failure_is_contained :
  forall (fs : fsnode) (file_path : Path),
    parse_fails fs file_path ->
    (exists msg,
        find_imports fs file_path
        = (["Error parsing " ++ str file_path ++ ": " ++ msg]%string, inr []))
    /\ (forall dir_path before after acc,
           outcome (analyze_files fs dir_path (before ++ file_path :: after) acc)
           = outcome (analyze_files fs dir_path (before ++ after) acc))
    /\ (forall dir_path after acc,
           exists msg,
             console (analyze_files fs dir_path (file_path :: after) acc)
             = ("Error parsing " ++ str file_path ++ ": " ++ msg)%string
               :: console (analyze_files fs dir_path after acc))
    /\ (forall fs' p, exists refs, outcome (find_imports fs' p) = inr refs)
    /\ (forall fs' directory, exists result, outcome (analyze_directory fs' directory) = inr result).
Proof.
  intros fs file_path Hfail.
  destruct (find_imports_failed fs file_path Hfail) as [msg Hmsg].
  split; [now exists msg |]. split; [| split; [| split]].
  - intros dir_path before after acc. apply analyze_files_skip. now rewrite Hmsg.
  - intros dir_path after acc. exists msg.
    cbn [analyze_files]. rewrite console_bind, Hmsg. reflexivity.
  - exact find_imports_total.
  - intros fs' directory.
    destruct (analyze_directory_outcome fs' directory) as [mods [_ Ho]].
    eexists. exact Ho.
Qed.

Lemma C9_parse_failure_is_contained_witness :
  outcome (analyze_files sample_fs (parse_path "src")
             ([parse_path "src/app.py"] ++ parse_path "src/broken.py"
                :: [parse_path "src/a.pyx.py"]) [])
  = outcome (analyze_files sample_fs (parse_path "src")
               ([parse_path "src/app.py"] ++ [parse_path "src/a.pyx.py"]) []).
Proof.
  apply (C9_parse_failure_is_contained sample_fs (parse_path "src/broken.py")).
  intros tree. vm_compute. discriminate.
Defined.

(** C6: the analyzer returns nothing when the directory does not exist and
    when no file under it yields imports; when some file yields imports it
    returns a result whose name is the directory string with [/] replaced by
    [.] and whose module list is not empty. *)
Theorem C6_analyze_directory_result :
  forall (fs : fsnode) (directory : string),
    (exists_ fs (parse_path directory) = false ->
     outcome (analyze_directory fs directory) = inr None)
    /\ ((forall f, In f (rglob_py fs (parse_path directory)) ->
                   outcome (find_imports fs f) = inr []) ->
        outcome (analyze_directory fs directory) = inr None)
    /\ ((exists f, In f (rglob_py fs (parse_path directory))
                   /\ outcome (find_imports fs f) <> inr []) ->
        exists mods,
          mods <> []
          /\ outcome (analyze_directory fs directory)
             = inr (Some (mkDirectoryResult (PyStr.replace "/" "." directory) mods))).
Proof.
  intros fs directory.
  destruct (analyze_directory_outcome fs directory) as [mods [Hiff Ho]].
  split; [| split].
  - intros Hex. rewrite Ho.
    assert (mods = []) as ->; [| reflexivity].
    apply Hiff. unfold rglob_py. unfold exists_ in Hex.
    destruct (lookup fs (parse_path directory)); [discriminate | intros f []].
  - intros Hall. rewrite Ho. apply Hiff in Hall. now subst.
  - intros [f [Hf Hne]]. exists mods.
    assert (mods <> []) as Hmods.
    { intros Hm. apply Hne. now apply Hiff. }
    split; [exact Hmods |]. rewrite Ho. now destruct mods.
Qed.

Lemma C6_analyze_directory_result_witness :
  outcome (analyze_directory sample_fs "nosuch/dir") = inr None
  /\ exists mods,
       mods <> []
       /\ outcome (analyze_directory sample_fs "pkg/node_modules")
          = inr (Some (mkDirectoryResult "pkg.node_modules" mods)).
Proof.
  split.
  - apply (proj1 (C6_analyze_directory_result sample_fs "nosuch/dir")). reflexivity.
  - apply (proj2 (proj2 (C6_analyze_directory_result sample_fs "pkg/node_modules"))).
    exists (parse_path "pkg/node_modules/sub/index.py").
    split; [vm_compute; now left | vm_compute; discriminate].
Defined.

(** ** Matching a full path and matching the bare name *)

Section PathMatching.

Lemma match_lits (L : string) : forall s, match_tokens (lits L) s = String.eqb s L.
Proof.
  induction L as [| d L IH]; intros [| c s]; simpl; try reflexivity.
  rewrite IH. now destruct (Ascii.eqb c d).
Qed.

Lemma match_star_unfold (ts : list glob_token) (s : string) :
  match_tokens (GStar :: ts) s =
  match_tokens ts s
  || match s with
     | EmptyString => false
     | String _ rest => match_tokens (GStar :: ts) rest
     end.
Proof. destruct s; reflexivity. Qed.

Lemma match_star_lits (L : string) :
  forall s, match_tokens (GStar :: lits L) s = PyStr.endswith s L.
Proof.
  induction s as [| c s IH].
  - rewrite match_star_unfold, match_lits. reflexivity.
  - rewrite match_star_unfold, match_lits, IH. reflexivity.
Qed.

Lemma contains_app (c : ascii) (a b : string) :
  PyStr.contains c (a ++ b)%string = PyStr.contains c a || PyStr.contains c b.
Proof.
  induction a as [| d a IH]; simpl; [reflexivity |].
  now rewrite IH, orb_assoc.
Qed.

Lemma eqb_contains (c : ascii) (s L : string) :
  String.eqb s L = true -> PyStr.contains c s = PyStr.contains c L.
Proof. intros H. apply String.eqb_eq in H. now subst. Qed.

(** A suffix without a slash lies within what follows the last slash. *)
Lemma endswith_after_slash (L seg rest : string) :
  PyStr.contains "/" L = false ->
  PyStr.endswith (seg ++ String "/" rest)%string L = true ->
  PyStr.endswith rest L = true.
Proof.
  intros HL. induction seg as [| c seg IH]; cbn [String.append PyStr.endswith]; intros H.
  - apply orb_true_iff in H. destruct H as [H | H]; [| exact H].
    apply (eqb_contains "/") in H. simpl in H. congruence.
  - apply orb_true_iff in H. destruct H as [H | H]; [| now apply IH].
    apply (eqb_contains "/") in H. rewrite HL in H.
    change (String c (seg ++ String "/" rest))%string
      with (String c seg ++ String "/" rest)%string in H.
    rewrite contains_app in H. simpl in H.
    rewrite !orb_true_r in H. discriminate.
Qed.

Lemma endswith_join (L : string) (segs : list string) :
  PyStr.contains "/" L = false ->
  segs <> [] ->
  PyStr.endswith (PyStr.join "/" segs) L = true ->
  PyStr.endswith (last segs "") L = true.
Proof.
  intros HL. induction segs as [| x segs IH]; intros Hne H; [contradiction |].
  destruct segs as [| y segs]; [exact H |].
  change (PyStr.join "/" (x :: y :: segs))
    with (x ++ String "/" (PyStr.join "/" (y :: segs)))%string in H.
  apply endswith_after_slash in H; [| exact HL].
  apply IH in H; [exact H | discriminate].
Qed.

Lemma endswith_str_name (L : string) (p : Path) :
  PyStr.contains "/" L = false ->
  PyStr.endswith "." L = false ->
  PyStr.endswith (str p) L = true ->
  PyStr.endswith (name p) L = true.
Proof.
  intros HL Hdot. destruct p as [a segs]. unfold str, name. cbn [root segments].
  assert (forall s, PyStr.endswith (anchor_str a ++ s)%string L = true ->
                    PyStr.endswith s L = true) as Hanchor.
  { intros s H. destruct a; cbn [anchor_str] in H.
    - exact H.
    - now apply (endswith_after_slash L "" s).
    - apply (endswith_after_slash L "" s); [exact HL |].
      now apply (endswith_after_slash L "" (String "/" s)). }
  destruct segs as [| x segs].
  - destruct a; intros H; [congruence | |]; now apply (Hanchor "").
  - intros H.
    assert (PyStr.endswith (anchor_str a ++ PyStr.join "/" (x :: segs))%string L = true)
      as H' by (destruct a; exact H).
    apply Hanchor in H'. apply endswith_join in H'; [exact H' | exact HL | discriminate].
Qed.

Lemma contains_join (x y : string) (segs : list string) :
  PyStr.contains "/" (PyStr.join "/" (x :: y :: segs)) = true.
Proof.
  change (PyStr.join "/" (x :: y :: segs))
    with (x ++ String "/" (PyStr.join "/" (y :: segs)))%string.
  rewrite contains_app. simpl. apply orb_true_r.
Qed.

(** A path written without a slash is [.] or its own bare name. *)
Lemma str_without_slash (p : Path) :
  PyStr.contains "/" (str p) = false -> str p = "." \/ str p = name p.
Proof.
  destruct p as [a segs]. unfold str, name. cbn [root segments].
  destruct a.
  - destruct segs as [| x [| y segs]]; intros H; [now left | now right |].
    exfalso. change (PyStr.contains "/" (PyStr.join "/" (x :: y :: segs)) = false) in H.
    rewrite contains_join in H. discriminate.
  - destruct segs; intros H; simpl in H; discriminate.
  - destruct segs; intros H; simpl in H; discriminate.
Qed.

Lemma eqb_str_name (L : string) (p : Path) :
  PyStr.contains "/" L = false ->
  String.eqb "." L = false ->
  String.eqb (str p) L = true ->
  String.eqb (name p) L = true.
Proof.
  intros HL Hdot H.
  pose proof (eqb_contains "/" _ _ H) as Hc. rewrite HL in Hc.
  destruct (str_without_slash p Hc) as [E | E].
  - rewrite E in H. congruence.
  - now rewrite <- E.
Qed.

(** A file that the allow-list accepts by its full path is accepted by
    its bare name as well. *)
Lemma is_important_file_name (path : Path) :
  is_important_file path = true -> important_name (name path).
Proof.
  unfold is_important_file, important_name. rewrite existsb_exists.
  intros [pattern [Hin H]]. exists pattern. split; [exact Hin |].
  unfold IMPORTANT_FILE_PATTERNS in Hin. cbn [In] in Hin.
  repeat match type of Hin with
         | _ \/ _ => destruct Hin as [<- | Hin]
         | False => destruct Hin
         end;
    match goal with
    | H : fnmatch ?s (String "*" ?L) = true |- _ =>
        change (match_tokens (GStar :: lits L) s = true) in H;
        change (match_tokens (GStar :: lits L) (name path) = true);
        rewrite match_star_lits in *;
        apply endswith_str_name; [reflexivity | reflexivity | exact H]
    | H : fnmatch ?s ?L = true |- _ =>
        change (match_tokens (lits L) s = true) in H;
        change (match_tokens (lits L) (name path) = true);
        rewrite match_lits in *;
        apply eqb_str_name; [reflexivity | reflexivity | exact H]
    end.
Qed.

End PathMatching.

(** ** The snapshot *)

Section SnapshotFacts.

Lemma file_names_dict (d : list (string * value)) :
  file_names (VDict d) = flat_map (fun kv => file_names (snd kv)) d.
Proof.
  induction d as [| [key v] d IH]; [reflexivity |].
  cbn [flat_map snd]. rewrite <- IH. reflexivity.
Qed.

Lemma file_names_list (l : list value) :
  file_names (VList l) = flat_map file_names l.
Proof.
  induction l as [| v l IH]; [reflexivity |].
  cbn [flat_map]. rewrite <- IH. reflexivity.
Qed.

Lemma dict_ok_value (k : nat) (d : list (string * value)) :
  dict_ok k d -> value_ok (S k) (VDict d).
Proof.
  unfold dict_ok, value_ok. intros H. split.
  - rewrite file_names_dict. induction H as [| [key v] d [Hv _] _ IH]; [constructor |].
    cbn [flat_map snd]. apply Forall_app. split; assumption.
  - cbn [nesting]. apply le_n_S.
    induction H as [| [key v] d [_ Hv] _ IH]; [apply Nat.le_0_l |].
    cbn [snd] in Hv. apply Nat.max_lub; assumption.
Qed.

Lemma dict_set_ok (k : nat) (key : string) (v : value) (d : list (string * value)) :
  value_ok k v -> dict_ok k d -> dict_ok k (dict_set key v d).
Proof.
  intros Hv. unfold dict_ok. induction 1 as [| [key' v'] d Hv' Hd IH]; cbn [dict_set].
  - constructor; [exact Hv | constructor].
  - destruct (String.eqb key key'); constructor; assumption.
Qed.

Lemma dict_get_ok (k : nat) (key : string) (v : value) (d : list (string * value)) :
  dict_ok k d -> dict_get key d = Some v -> value_ok k v.
Proof.
  unfold dict_ok. induction 1 as [| [key' v'] d Hv' Hd IH]; cbn [dict_get]; [discriminate |].
  destruct (String.eqb key key'); [| exact IH].
  intros H. injection H as <-. exact Hv'.
Qed.

Lemma value_ok_empty_list (k : nat) : value_ok k (VList []).
Proof. split; [constructor | apply Nat.le_0_l]. Qed.

Lemma value_ok_append (k : nat) (l : list value) (v : value) :
  value_ok k (VList l) -> value_ok k v -> value_ok k (VList (l ++ [v])).
Proof.
  intros [Hl _] [Hv _]. split; [| apply Nat.le_0_l].
  rewrite file_names_list in *. rewrite flat_map_app. apply Forall_app.
  split; [exact Hl |]. cbn [flat_map]. now rewrite app_nil_r.
Qed.

Lemma add_child_ok (k : nat) (tree tree' : list (string * value))
    (child_name : string) (child_is_dir : bool) (child_tree : value) :
  dict_ok k tree -> value_ok k child_tree ->
  outcome (add_child tree child_name child_is_dir child_tree) = inr tree' ->
  dict_ok k tree'.
Proof.
  intros Ht Hc. unfold add_child.
  assert (outcome
            (if child_is_dir
             then ret (dict_set child_name child_tree tree)
             else
               let tree0 :=
                 match dict_get "files" tree with
                 | None => dict_set "files" (VList []) tree
                 | Some _ => tree
                 end in
               match dict_get "files" tree0 with
               | Some (VList l) => ret (dict_set "files" (VList (l ++ [child_tree])) tree0)
               | _ => raise (PyExn "AttributeError" "'dict' object has no attribute 'append'")
               end) = inr tree' -> dict_ok k tree') as Hmain.
  { destruct child_is_dir.
    - intros H. injection H as <-. now apply dict_set_ok.
    - cbv zeta.
      set (tree0 := match dict_get "files" tree with
                    | None => dict_set "files" (VList []) tree
                    | Some _ => tree
                    end).
      assert (dict_ok k tree0) as Ht0.
      { unfold tree0. destruct (dict_get "files" tree); [exact Ht |].
        apply dict_set_ok; [apply value_ok_empty_list | exact Ht]. }
      destruct (dict_get "files" tree0) as [[| s | l | d] |] eqn:E; try discriminate.
      intros H. injection H as <-.
      apply dict_set_ok; [| exact Ht0].
      apply value_ok_append; [| exact Hc].
      exact (dict_get_ok k "files" (VList l) tree0 Ht0 E). }
  destruct child_tree; try exact Hmain.
  intros H. injection H as <-. exact Ht.
Qed.

Lemma insert_child_ok (k : nat) (x : child_run) (l : list child_run) :
  run_ok k x -> Forall (run_ok k) l -> Forall (run_ok k) (insert_child x l).
Proof.
  intros Hx. induction 1 as [| y l Hy Hl IH]; cbn [insert_child].
  - constructor; [exact Hx | constructor].
  - destruct (String.leb (fst (fst x)) (fst (fst y))); constructor; auto.
Qed.

Lemma sorted_children_ok (k : nat) (l : list child_run) :
  Forall (run_ok k) l -> Forall (run_ok k) (sorted_children l).
Proof.
  induction 1 as [| x l Hx Hl IH]; cbn [sorted_children]; [constructor |].
  now apply insert_child_ok.
Qed.

Lemma build_children_ok (k : nat) (children : list child_run) :
  Forall (run_ok k) children ->
  forall tree tree',
    dict_ok k tree ->
    outcome (build_children children tree) = inr tree' ->
    dict_ok k tree'.
Proof.
  induction 1 as [| [[child_name child_is_dir] call] rest Hrun Hrest IH];
    intros tree tree' Ht; cbn [build_children].
  - intros H. injection H as <-. exact Ht.
  - rewrite outcome_bind.
    destruct (outcome call) as [e | child_tree] eqn:Ec; [discriminate |].
    rewrite outcome_bind.
    destruct (outcome (add_child tree child_name child_is_dir child_tree))
      as [e | tree1] eqn:Ea; [discriminate |].
    apply IH. apply (add_child_ok k tree tree1 child_name child_is_dir child_tree Ht).
    + apply Hrun. exact Ec.
    + exact Ea.
Qed.

Variable exclude_patterns : list string.
Variable max_depth : Z.

Lemma levels_below_step (current_depth : Z) :
  (current_depth >=? max_depth)%Z = false ->
  levels_below max_depth current_depth = S (levels_below max_depth (current_depth + 1)).
Proof.
  intros H. rewrite Z.geb_leb in H. apply Z.leb_gt in H.
  unfold levels_below. f_equal.
  replace (max_depth - current_depth)%Z with (Z.succ (max_depth - (current_depth + 1)))%Z
    by lia.
  rewrite Z2Nat.inj_succ by lia. reflexivity.
Qed.

Lemma value_ok_none (k : nat) : value_ok k VNone.
Proof. split; [constructor | apply Nat.le_0_l]. Qed.

Lemma value_ok_empty_dict (k : nat) : value_ok (S k) (VDict []).
Proof. split; [constructor | simpl; lia]. Qed.

(** What [build_tree] returns holds accepted file names only and is
    nested no deeper than the levels left. *)
Lemma build_tree_ok (n : fsnode) :
  forall path current_depth v,
    outcome (build_tree exclude_patterns max_depth path n current_depth) = inr v ->
    value_ok (levels_below max_depth current_depth) v.
Proof.
  induction n as [c | r entries IH] using fsnode_entries_ind;
    intros path current_depth v; cbn [build_tree].
  - destruct (should_exclude exclude_patterns path).
    { intros H. injection H as <-. apply value_ok_none. }
    destruct (is_important_file path) eqn:E; intros H; injection H as <-.
    + split; [| apply Nat.le_0_l].
      constructor; [now apply is_important_file_name | constructor].
    + apply value_ok_none.
  - destruct (should_exclude exclude_patterns path).
    { intros H. injection H as <-. apply value_ok_none. }
    destruct (current_depth >=? max_depth)%Z eqn:Ed.
    { intros H. injection H as <-. apply value_ok_empty_dict. }
    destruct r; cbn [negb].
    2:{ rewrite outcome_bind. intros H. injection H as <-. apply value_ok_none. }
    rewrite outcome_bind.
    match goal with |- match outcome (build_children (sorted_children ?cs) []) with _ => _ end = _ -> _ =>
      assert (Forall (run_ok (levels_below max_depth (current_depth + 1))) cs) as Hruns end.
    { induction entries as [| [e c] es IHes]; [constructor |].
      inversion IH as [| ? ? Hc Hes]; subst. constructor.
      - intros w Hw. cbn [snd] in Hw, Hc. exact (Hc _ _ _ Hw).
      - now apply IHes. }
    match goal with |- match outcome ?m with _ => _ end = _ -> _ =>
      destruct (outcome m) as [e | tree] eqn:Et end; [discriminate |].
    apply build_children_ok with (k := levels_below max_depth (current_depth + 1)) in Et;
      [| now apply sorted_children_ok | constructor].
    rewrite (levels_below_step current_depth Ed).
    destruct tree as [| kv tree]; intros H; injection H as <-.
    + apply value_ok_none.
    + now apply dict_ok_value.
Qed.

(** At the depth limit a directory that is not excluded is the empty
    mapping, whatever it holds. *)
Lemma build_tree_at_limit (path : Path) (r : bool) (entries : list (string * fsnode))
    (current_depth : Z) :
  should_exclude exclude_patterns path = false ->
  (current_depth >= max_depth)%Z ->
  build_tree exclude_patterns max_depth path (Dir r entries) current_depth = ret (VDict []).
Proof.
  intros He Hd. cbn [build_tree]. rewrite He.
  assert ((current_depth >=? max_depth)%Z = true) as -> by (apply Z.geb_le; lia).
  reflexivity.
Qed.

End SnapshotFacts.

(** * Further properties of the code *)

(** ** Paths written out and read back *)

Lemma append_assoc (a b c : string) : ((a ++ b) ++ c = a ++ (b ++ c))%string.
Proof. induction a as [| x a IH]; simpl; [reflexivity | now rewrite IH]. Qed.

Lemma append_nil_r (a : string) : (a ++ "")%string = a.
Proof. induction a as [| x a IH]; simpl; [reflexivity | now rewrite IH]. Qed.

Lemma valid_segment_parts (s : string) :
  valid_segment s = true ->
  s <> "" /\ s <> "." /\ PyStr.contains "/" s = false.
Proof.
  unfold valid_segment, is_segment. intros H.
  apply andb_true_iff in H. destruct H as [H1 H2].
  apply andb_true_iff in H1. destruct H1 as [Ha Hb].
  apply negb_true_iff in Ha, Hb, H2.
  apply String.eqb_neq in Ha, Hb. auto.
Qed.

(** Reading a text without the separator goes to the end of it. *)
Lemma split_on_go_plain (seg : string) :
  PyStr.contains "/" seg = false ->
  forall cur rest,
    PyStr.split_on_go "/" cur (seg ++ rest)%string
    = PyStr.split_on_go "/" (cur ++ seg)%string rest.
Proof.
  induction seg as [| c seg IH]; intros Hc cur rest.
  - cbn [String.append]. now rewrite append_nil_r.
  - cbn [PyStr.contains] in Hc. apply orb_false_iff in Hc. destruct Hc as [Hc1 Hc2].
    cbn [String.append PyStr.split_on_go].
    rewrite Ascii.eqb_sym, Hc1. rewrite IH by exact Hc2.
    now rewrite append_assoc.
Qed.

Lemma split_on_join (segs : list string) :
  segs <> [] ->
  Forall (fun s => valid_segment s = true) segs ->
  PyStr.split_on "/" (PyStr.join "/" segs) = segs.
Proof.
  unfold PyStr.split_on.
  induction segs as [| x segs IH]; intros Hne Hall; [contradiction |].
  inversion Hall as [| ? ? Hx Hrest]; subst.
  apply valid_segment_parts in Hx. destruct Hx as [_ [_ Hx]].
  destruct segs as [| y segs].
  - cbn [PyStr.join String.concat].
    rewrite <- (append_nil_r x) at 1. rewrite split_on_go_plain by exact Hx.
    reflexivity.
  - change (PyStr.join "/" (x :: y :: segs))
      with (x ++ String "/" (PyStr.join "/" (y :: segs)))%string.
    rewrite split_on_go_plain by exact Hx.
    cbn [PyStr.split_on_go String.append]. rewrite Ascii.eqb_refl.
    f_equal. apply IH; [discriminate | exact Hrest].
Qed.

Lemma filter_valid_segments (segs : list string) :
  Forall (fun s => valid_segment s = true) segs -> filter is_segment segs = segs.
Proof.
  induction 1 as [| x segs Hx _ IH]; [reflexivity |].
  cbn [filter]. unfold valid_segment in Hx. apply andb_true_iff in Hx.
  destruct Hx as [-> _]. now rewrite IH.
Qed.

Lemma join_head (x : string) (segs : list string) :
  exists tail, PyStr.join "/" (x :: segs) = (x ++ tail)%string.
Proof.
  destruct segs as [| y segs].
  - exists "". cbn. now rewrite append_nil_r.
  - eexists. reflexivity.
Qed.

Lemma split_on_slash (s : string) :
  PyStr.split_on "/" (String "/" s) = "" :: PyStr.split_on "/" s.
Proof. reflexivity. Qed.

Lemma filter_empty_segment (l : list string) :
  filter is_segment ("" :: l) = filter is_segment l.
Proof. reflexivity. Qed.

Lemma parse_anchor_plain (c : ascii) (s : string) :
  c <> "/"%char ->
  parse_anchor (String c s) = Relative
  /\ parse_anchor (String "/" (String c s)) = Root
  /\ parse_anchor (String "/" (String "/" (String c s))) = DoubleRoot.
Proof.
  intros Hc. destruct c as [[] [] [] [] [] [] [] []]; try (repeat split; reflexivity).
  now elim Hc.
Qed.

(** [Path(str(p))] is [p] when the components of [p] are as a listing
    gives them. *)
Lemma parse_path_str (p : Path) : wf_path p -> parse_path (str p) = p.
Proof.
  destruct p as [a segs]. unfold wf_path. cbn [segments]. intros Hwf.
  destruct segs as [| x segs].
  - destruct a; reflexivity.
  - assert (x :: segs <> []) as Hne by discriminate.
    pose proof (split_on_join (x :: segs) Hne Hwf) as Hsplit.
    pose proof (filter_valid_segments (x :: segs) Hwf) as Hfilter.
    inversion Hwf as [| ? ? Hx _]; subst.
    apply valid_segment_parts in Hx. destruct Hx as [Hx1 [_ Hx3]].
    destruct (join_head x segs) as [tail Htail].
    destruct x as [| c x]; [contradiction |].
    cbn [PyStr.contains] in Hx3. apply orb_false_iff in Hx3. destruct Hx3 as [Hc _].
    assert (c <> "/"%char) as Hc'.
    { intros ->. discriminate. }
    destruct (parse_anchor_plain c (x ++ tail)%string Hc') as [Ha1 [Ha2 Ha3]].
    unfold parse_path, str. cbn [root segments].
    destruct a; cbn [anchor_str].
    + change ("" ++ PyStr.join "/" (String c x :: segs))%string
        with (PyStr.join "/" (String c x :: segs)).
      rewrite Hsplit, Hfilter. f_equal.
      rewrite Htail. exact Ha1.
    + change ("/" ++ PyStr.join "/" (String c x :: segs))%string
        with (String "/" (PyStr.join "/" (String c x :: segs))).
      rewrite split_on_slash, filter_empty_segment, Hsplit, Hfilter. f_equal.
      rewrite Htail. exact Ha2.
    + change ("//" ++ PyStr.join "/" (String c x :: segs))%string
        with (String "/" (String "/" (PyStr.join "/" (String c x :: segs)))).
      rewrite !split_on_slash, !filter_empty_segment, Hsplit, Hfilter. f_equal.
      rewrite Htail. exact Ha3.
Qed.

(** ** Discovery, further *)

Lemma prefixes_snoc {A : Type} (l : list A) (x : A) :
  prefixes (l ++ [x]) = prefixes l ++ [l].
Proof.
  induction l as [| a l IH]; [reflexivity |].
  cbn [app prefixes]. rewrite IH, map_app. reflexivity.
Qed.

Lemma parents_child (p : Path) (e : string) :
  parents (child_path p e) = p :: parents p.
Proof.
  destruct p as [r segs]. unfold parents, child_path. cbn [root segments].
  rewrite prefixes_snoc, rev_app_distr. reflexivity.
Qed.

Lemma wf_child (p : Path) (e : string) :
  wf_path p -> valid_segment e = true -> wf_path (child_path p e).
Proof.
  unfold wf_path, child_path. cbn [segments]. intros Hp He.
  apply Forall_app. split; [exact Hp | now constructor].
Qed.

Lemma should_skip_child (p : Path) (e : string) (patterns : list string) :
  wf_path p -> valid_segment e = true ->
  should_skip_directory (str p) patterns = true ->
  should_skip_directory (str (child_path p e)) patterns = true.
Proof.
  intros Hp He. unfold should_skip_directory.
  rewrite (parse_path_str p Hp), (parse_path_str _ (wf_child p e Hp He)).
  rewrite parents_child, !existsb_exists.
  intros [pattern [Hin H]]. exists pattern. split; [exact Hin |].
  cbn [existsb]. apply orb_true_iff in H. destruct H as [H | H].
  - rewrite H. now rewrite orb_true_r.
  - rewrite H. reflexivity.
Qed.

(** X1: in discovery's check, exclusion is inherited: when a path is
    skipped, every path beneath it is skipped under the same patterns, so no
    directory beneath a directory that the caller's patterns exclude is ever
    returned. *)
Theorem X1_exclusion_inherited_by_descendants :
  forall (p : Path) (below : list string) (patterns : list string),
    wf_path p ->
    Forall (fun s => valid_segment s = true) below ->
    should_skip_directory (str p) patterns = true ->
    should_skip_directory (str (mkPath (root p) (segments p ++ below))) patterns = true
    /\ (forall glob fs search exclude_patterns dirs,
           caller_patterns exclude_patterns = patterns ->
           outcome (find_source_directories glob fs search exclude_patterns) = inr dirs ->
           ~ In (str (mkPath (root p) (segments p ++ below))) dirs).
Proof.
  assert (forall below p patterns,
             wf_path p ->
             Forall (fun s => valid_segment s = true) below ->
             should_skip_directory (str p) patterns = true ->
             should_skip_directory (str (mkPath (root p) (segments p ++ below))) patterns
             = true) as Hskip.
  { induction below as [| e below IH]; intros p patterns Hp Hb H.
    - rewrite app_nil_r. now destruct p.
    - inversion Hb as [| ? ? He Hb']; subst.
      specialize (IH (child_path p e) patterns (wf_child p e Hp He) Hb'
                    (should_skip_child p e patterns Hp He H)).
      cbn [child_path root segments] in IH. now rewrite <- app_assoc in IH. }
  intros p below patterns Hp Hb H. split; [now apply Hskip |].
  intros glob fs search excl dirs Hcaller Ho Hin.
  destruct (find_source_directories_returns glob fs search excl) as [d [Ho' [_ Hmem]]].
  rewrite Ho in Ho'. injection Ho' as ->.
  apply Hmem in Hin. destruct Hin as [token [_ Hin]].
  apply token_dirs_not_skipped in Hin. rewrite Hcaller in Hin.
  rewrite (Hskip below p patterns Hp Hb H) in Hin. discriminate.
Qed.

Lemma X1_exclusion_inherited_by_descendants_witness :
  should_skip_directory "vendor/lib/deep/src" ["vendor"] = true.
Proof.
  apply (X1_exclusion_inherited_by_descendants
           (parse_path "vendor") ["lib"; "deep"; "src"] ["vendor"]).
  - repeat constructor.
  - repeat constructor.
  - reflexivity.
Defined.

(** X2: every string discovery returns is the text of a path that is a
    directory of the file system, is not skipped under the caller's
    patterns, and was contributed by one of the tokens: the token itself as a
    path, or a path its glob yields. *)
Theorem X2_discovery_returns_directories :
  forall (glob : string -> list Path * option exn) (fs : fsnode) (search : string)
         (exclude_patterns : option (list string)) (dirs : list string) (y : string),
    outcome (find_source_directories glob fs search exclude_patterns) = inr dirs ->
    In y dirs ->
    exists token path,
      In token (PyStr.split search)
      /\ y = str path
      /\ is_dir fs path = true
      /\ should_skip_directory y (caller_patterns exclude_patterns) = false
      /\ (path = joinpath root_path token \/ In path (fst (glob token))).
Proof.
  intros glob fs search excl dirs y Ho Hy.
  destruct (find_source_directories_returns glob fs search excl) as [d [Ho' [_ Hmem]]].
  rewrite Ho in Ho'. injection Ho' as ->.
  apply Hmem in Hy. destruct Hy as [token [Htoken Hy]].
  pose proof (token_dirs_not_skipped glob fs _ _ _ Hy) as Hskip.
  exists token. unfold token_dirs in Hy.
  destruct (is_dir fs (joinpath root_path token)
            && negb (should_skip_directory (str (joinpath root_path token))
                       (caller_patterns excl))) eqn:E.
  - destruct Hy as [<- | []]. exists (joinpath root_path token).
    apply andb_true_iff in E. destruct E as [E _]. auto 6.
  - apply in_map_iff in Hy. destruct Hy as [path [<- Hp]].
    apply filter_In in Hp. destruct Hp as [Hp Hd].
    apply andb_true_iff in Hd. destruct Hd as [Hd _].
    exists path. auto 6.
Qed.

Lemma X2_discovery_returns_directories_witness :
  exists token path,
    In token (PyStr.split "**/src docs")
    /\ "node_modules/pkg/src" = str path
    /\ is_dir sample_fs path = true
    /\ should_skip_directory "node_modules/pkg/src" (caller_patterns None) = false
    /\ (path = joinpath root_path token \/ In path (fst (sample_glob token))).
Proof.
  apply (X2_discovery_returns_directories sample_glob sample_fs "**/src docs" None
           ["docs"; "node_modules/pkg/src"; "src"]).
  - vm_compute. reflexivity.
  - right. left. reflexivity.
Defined.

(** X3: a token that names an existing directory which the caller's
    patterns do not skip is returned, written as a normalised path, whatever
    the glob of that token would yield. *)
Theorem X3_direct_token_is_returned :
  forall (glob : string -> list Path * option exn) (fs : fsnode) (search token : string)
         (exclude_patterns : option (list string)),
    In token (PyStr.split search) ->
    is_dir fs (joinpath root_path token) = true ->
    should_skip_directory (str (joinpath root_path token))
      (caller_patterns exclude_patterns) = false ->
    exists dirs,
      outcome (find_source_directories glob fs search exclude_patterns) = inr dirs
      /\ In (str (joinpath root_path token)) dirs.
Proof.
  intros glob fs search token excl Htoken Hdir Hskip.
  destruct (find_source_directories_returns glob fs search excl) as [d [Ho [_ Hmem]]].
  exists d. split; [exact Ho |]. apply Hmem. exists token. split; [exact Htoken |].
  unfold token_dirs. rewrite Hdir, Hskip. now left.
Qed.

Lemma X3_direct_token_is_returned_witness :
  exists dirs,
    outcome (find_source_directories sample_glob sample_fs "./pkg//node_modules/ docs" None)
    = inr dirs
    /\ In "pkg/node_modules" dirs.
Proof.
  apply (X3_direct_token_is_returned sample_glob sample_fs
           "./pkg//node_modules/ docs" "./pkg//node_modules/" None).
  - left. reflexivity.
  - reflexivity.
  - reflexivity.
Defined.

Lemma insert_sorted_not_nil (x : string) (l : list string) : insert_sorted x l <> [].
Proof. destruct l as [| y l]; simpl; [discriminate |]. destruct (String.leb x y); discriminate. Qed.

(** X4: when discovery finds nothing, the last line it prints is the
    warning that names the tokens; a search specification made of white
    space only has no token, prints that warning with an empty list and
    returns the empty list without consulting the file system. *)
Theorem X4_nothing_found_warning :
  forall (glob : string -> list Path * option exn) (fs : fsnode) (search : string)
         (exclude_patterns : option (list string)),
    (outcome (find_source_directories glob fs search exclude_patterns) = inr [] ->
     exists before,
       console (find_source_directories glob fs search exclude_patterns)
       = before ++ [("Warning: No directories found for patterns: "
                     ++ repr_list (PyStr.split search))%string])
    /\ (PyStr.split search = [] ->
        find_source_directories glob fs search exclude_patterns
        = (["Warning: No directories found for patterns: []"], inr [])).
Proof.
  intros glob fs search excl. split.
  - unfold find_source_directories. fold (caller_patterns excl).
    destruct (discover_returns glob fs (caller_patterns excl)
                (PyStr.split search) [] (NoDup_nil _)) as [dirs [Ho _]].
    rewrite outcome_bind, Ho, outcome_bind, console_bind, Ho.
    destruct dirs as [| d dirs].
    + intros _. eexists. rewrite console_bind. cbn [outcome print snd]. reflexivity.
    + cbn [outcome ret snd sorted]. intros H. injection H as H.
      now apply insert_sorted_not_nil in H.
  - intros Hsplit. unfold find_source_directories. rewrite Hsplit. reflexivity.
Qed.

Lemma X4_nothing_found_warning_witness :
  find_source_directories sample_glob sample_fs "   " None
  = (["Warning: No directories found for patterns: []"], inr []).
Proof.
  apply (X4_nothing_found_warning sample_glob sample_fs "   " None). reflexivity.
Defined.

(** ** The order of the walk *)

Lemma walk_queue_nil (fuel : nat) : walk_queue fuel [] = [].
Proof. now destruct fuel. Qed.

(** The walk yields the nodes in the queue, then goes on with those after
    them and their children. *)
Lemma walk_queue_front (q : list node) :
  forall fuel r,
    walk_queue (length q + fuel) (q ++ r)
    = q ++ walk_queue fuel (r ++ flat_map iter_child_nodes q).
Proof.
  induction q as [| n q IH]; intros fuel r.
  - cbn [length app flat_map plus]. now rewrite app_nil_r.
  - cbn [length app plus walk_queue flat_map]. f_equal.
    rewrite <- app_assoc, IH. now rewrite <- app_assoc.
Qed.

Lemma queue_size_children (q : list node) :
  queue_size q = length q + queue_size (flat_map iter_child_nodes q).
Proof.
  induction q as [| n q IH]; [reflexivity |].
  rewrite queue_size_cons. cbn [flat_map length]. rewrite queue_size_app. lia.
Qed.

Lemma flat_map_seq_shift {A : Type} (f : nat -> list A) (n : nat) :
  flat_map f (seq 1 n) = flat_map (fun k => f (S k)) (seq 0 n).
Proof.
  rewrite <- seq_shift. induction (seq 0 n) as [| k l IH]; [reflexivity |].
  cbn [map flat_map]. now rewrite IH.
Qed.

Lemma walk_queue_levels (fuel : nat) :
  forall q,
    queue_size q <= fuel ->
    walk_queue fuel q = flat_map (fun k => nodes_at_depth k q) (seq 0 fuel).
Proof.
  induction fuel as [| fuel IH]; intros q Hsize; [reflexivity |].
  cbn [seq flat_map]. rewrite flat_map_seq_shift. cbn [nodes_at_depth].
  pose proof (queue_size_children q) as Hq.
  destruct q as [| n q].
  { rewrite <- IH by (cbn; lia). cbn [flat_map app]. now rewrite !walk_queue_nil. }
  cbn [length] in Hq.
  rewrite <- IH by lia.
  replace (S fuel) with (length (n :: q) + (fuel - length q)) by (cbn [length]; lia).
  rewrite <- (app_nil_r (n :: q)) at 2.
  rewrite walk_queue_front. cbn [app]. f_equal. f_equal.
  apply walk_queue_fuel; lia.
Qed.

Lemma flat_map_flat_map {A B C : Type} (f : B -> list C) (g : A -> list B) (l : list A) :
  flat_map f (flat_map g l) = flat_map (fun x => flat_map f (g x)) l.
Proof.
  induction l as [| x l IH]; [reflexivity |].
  cbn [flat_map]. now rewrite flat_map_app, IH.
Qed.

(** X5: for a file that parses, the extractor lists the references level
    by level: those of the statements at nesting depth [k] of the tree, from
    left to right, before those at depth [k + 1]. *)
Theorem X5_imports_listed_by_depth :
  forall (fs : fsnode) (file_path : Path) (tree : node),
    lookup fs file_path = Some (File (Parsed tree)) ->
    find_imports fs file_path
    = ret (flat_map (fun k => flat_map import_refs (nodes_at_depth k [tree]))
                    (seq 0 (node_size tree))).
Proof.
  intros fs file_path tree Hlook. rewrite (find_imports_parsed fs file_path tree Hlook).
  f_equal. unfold collect_imports, walk.
  rewrite walk_queue_levels.
  - apply flat_map_flat_map.
  - rewrite queue_size_cons, node_size_unfold. unfold queue_size. simpl. lia.
Qed.

Lemma X5_imports_listed_by_depth_witness :
  find_imports nested_fs (parse_path "m.py")
  = ret (flat_map (fun k => flat_map import_refs (nodes_at_depth k [nested_module]))
                  (seq 0 (node_size nested_module))).
Proof.
  apply (X5_imports_listed_by_depth nested_fs (parse_path "m.py") nested_module).
  reflexivity.
Defined.

(** ** The analyzer's result, further *)

Lemma analyze_files_entries (fs : fsnode) (dir_path : Path) (files : list Path) :
  (forall f, In f files -> exists rest, f = mkPath (root dir_path) (segments dir_path ++ rest)) ->
  forall acc,
    outcome (analyze_files fs dir_path files acc)
    = inr (acc ++ flat_map (module_entry fs dir_path) files).
Proof.
  induction files as [| x files IH]; intros Hunder acc.
  - cbn [flat_map]. now rewrite app_nil_r.
  - rewrite outcome_analyze_files_cons. cbn [flat_map]. unfold module_entry at 1.
    assert (forall f, In f files ->
                      exists rest, f = mkPath (root dir_path) (segments dir_path ++ rest))
      as Hunder' by (intros f Hf; apply Hunder; now right).
    destruct (find_imports_total fs x) as [refs Hx]. rewrite Hx.
    destruct refs as [| r rs]; [now apply IH |].
    destruct (Hunder x (or_introl eq_refl)) as [rest ->].
    destruct dir_path as [r0 segs]. cbn [root segments] in *.
    rewrite relative_to_under. rewrite IH by exact Hunder'.
    now rewrite <- app_assoc.
Qed.

Lemma rglob_py_under (fs : fsnode) (dir_path : Path) :
  forall f, In f (rglob_py fs dir_path) ->
            exists rest, f = mkPath (root dir_path) (segments dir_path ++ rest).
Proof.
  unfold rglob_py. destruct (lookup fs dir_path) as [[c | r entries] |].
  - intros f [].
  - apply rglob_from_under.
  - intros f [].
Qed.

(** X6: when the analyzer returns a result, its modules are, in the order
    in which the files are visited, one entry for each visited file with a
    non-empty import list and none for the others: the entry holds the path
    of the file relative to the directory, the module identifier made from
    it, and the imports of the file. *)
Theorem X6_modules_of_the_result :
  forall (fs : fsnode) (directory : string) (r : DirectoryResult),
    outcome (analyze_directory fs directory) = inr (Some r) ->
    modules r
    = flat_map (module_entry fs (parse_path directory)) (rglob_py fs (parse_path directory))
    /\ Forall (fun m =>
                 imports m <> []
                 /\ exists f relative_path,
                      In f (rglob_py fs (parse_path directory))
                      /\ relative_to f (parse_path directory) = Some relative_path
                      /\ root relative_path = Relative
                      /\ file m = str relative_path
                      /\ module_ m = module_path relative_path
                      /\ outcome (find_imports fs f) = inr (imports m))
              (modules r).
Proof.
  intros fs directory r Ho.
  assert (modules r
          = flat_map (module_entry fs (parse_path directory))
                     (rglob_py fs (parse_path directory))) as Hmods.
  { revert Ho. unfold analyze_directory. rewrite outcome_catch.
    destruct (exists_ fs (parse_path directory)); cbn [negb].
    - cbv zeta. rewrite outcome_bind.
      rewrite (analyze_files_entries fs _ _ (rglob_py_under fs _) []). cbn [app].
      destruct (flat_map (module_entry fs (parse_path directory))
                         (rglob_py fs (parse_path directory))) as [| m ms].
      + discriminate.
      + intros H. cbn in H. injection H as <-. reflexivity.
    - rewrite outcome_bind. discriminate. }
  split; [exact Hmods |]. rewrite Hmods. apply Forall_forall. intros m Hm.
  apply in_flat_map in Hm. destruct Hm as [f [Hf Hm]].
  unfold module_entry in Hm.
  destruct (outcome (find_imports fs f)) as [e | [| x xs]] eqn:Ef; try destruct Hm.
  destruct (relative_to f (parse_path directory)) as [rel |] eqn:Er; [| destruct Hm].
  destruct Hm as [<- | []]. cbn [imports file module_]. split; [discriminate |].
  exists f, rel. repeat split; try assumption.
  unfold relative_to in Er.
  destruct (anchor_eqb (root f) (root (parse_path directory))); [| discriminate].
  destruct (strip_prefix (segments (parse_path directory)) (segments f)); [| discriminate].
  now injection Er as <-.
Qed.

Lemma X6_modules_of_the_result_witness :
  modules (mkDirectoryResult "src"
             [ mkModuleInfo "app.py" "app" ["os"; "proj.util.helper"];
               mkModuleInfo "a.pyx.py" "ax" ["sys"] ])
  = flat_map (module_entry sample_fs (parse_path "src")) (rglob_py sample_fs (parse_path "src")).
Proof.
  apply (X6_modules_of_the_result sample_fs "src"). vm_compute. reflexivity.
Defined.

(** ** The module identifier, further *)

Lemma eqb_py_prefix (s : string) : String.eqb s ".py" = true -> prefix ".py" s = true.
Proof. intros H. apply String.eqb_eq in H. now subst. Qed.

Lemma replace_only_final_py (s : string) :
  only_final_py s = true -> PyStr.replace ".py" "" s = strip_py_suffix s.
Proof.
  unfold PyStr.replace.
  induction s as [| c rest IH]; [discriminate |].
  cbn [only_final_py strip_py_suffix PyStr.replace_go].
  destruct (prefix ".py" (String c rest)) eqn:E.
  - intros H. apply String.eqb_eq in H. injection H as -> ->. reflexivity.
  - intros H. destruct (String.eqb (String c rest) ".py") eqn:Eq.
    + apply eqb_py_prefix in Eq. congruence.
    + f_equal. now apply IH.
Qed.

(** X7: when [.py] occurs in the dotted relative path at its very end and
    nowhere before, the module identifier is the dotted path without that
    suffix; a file [pkg/a.b.py] gets the module [pkg.a.b]. *)
Theorem X7_module_path_strips_suffix :
  forall relative_path : Path,
    only_final_py (PyStr.replace "/" "." (str relative_path)) = true ->
    module_path relative_path = module_path_per_spec relative_path.
Proof.
  intros relative_path H. unfold module_path, module_path_per_spec.
  now apply replace_only_final_py.
Qed.

Lemma X7_module_path_strips_suffix_witness :
  module_path (parse_path "pkg/a.b.py") = module_path_per_spec (parse_path "pkg/a.b.py").
Proof.
  apply (X7_module_path_strips_suffix (parse_path "pkg/a.b.py")). reflexivity.
Defined.

(** ** The snapshot, further *)

Lemma build_tree_dir (exclude_patterns : list string) (max_depth : Z) (path : Path)
    (readable : bool) (entries : list (string * fsnode)) (current_depth : Z) :
  build_tree exclude_patterns max_depth path (Dir readable entries) current_depth
  = if should_exclude exclude_patterns path then ret VNone
    else if (current_depth >=? max_depth)%Z then ret (VDict [])
    else if negb readable
    then print ("Warning: Permission denied for " ++ str path)%string ;;; ret VNone
    else
      tree <- build_children
                (sorted_children
                   (child_runs exclude_patterns max_depth path current_depth entries)) [] ;;
      match tree with
      | [] => ret VNone
      | _ => ret (VDict tree)
      end.
Proof.
  cbn [build_tree].
  assert ((fix calls (es : list (string * fsnode)) : list child_run :=
             match es with
             | [] => []
             | (e, c) :: es' =>
                 (e, node_is_dir c,
                  build_tree exclude_patterns max_depth (child_path path e) c
                    (current_depth + 1)%Z) :: calls es'
             end) entries
          = child_runs exclude_patterns max_depth path current_depth entries) as ->.
  { unfold child_runs. induction entries as [| [e c] es IH]; [reflexivity |].
    cbn [map fst snd]. now rewrite IH. }
  reflexivity.
Qed.

Lemma insert_child_in (x y : child_run) (l : list child_run) :
  In y (insert_child x l) <-> y = x \/ In y l.
Proof.
  induction l as [| z l IH]; cbn [insert_child].
  - cbn. intuition auto.
  - destruct (String.leb (fst (fst x)) (fst (fst z))); cbn [In]; [intuition auto |].
    rewrite IH. intuition auto.
Qed.

Lemma sorted_children_in (y : child_run) (l : list child_run) :
  In y (sorted_children l) <-> In y l.
Proof.
  induction l as [| x l IH]; cbn [sorted_children]; [tauto |].
  rewrite insert_child_in, IH. cbn. intuition auto.
Qed.

Lemma insert_child_strict (x : child_run) (l : list child_run) :
  StronglySorted run_lt l ->
  ~ In (run_key x) (map run_key l) ->
  StronglySorted run_lt (insert_child x l).
Proof.
  induction l as [| z l IH]; intros Hs Hx; cbn [insert_child].
  - constructor; constructor.
  - inversion Hs as [| ? ? Hs' Hall]; subst.
    fold (run_key x). fold (run_key z).
    destruct (String.leb (run_key x) (run_key z)) eqn:E.
    + assert (run_lt x z) as Hxz.
      { apply leb_neq_lt; [exact E |]. intros Heq. apply Hx. left. now symmetry. }
      constructor; [exact Hs |]. constructor; [exact Hxz |].
      rewrite Forall_forall in *. intros w Hw.
      apply (str_lt_trans _ (run_key z)); [exact Hxz | now apply Hall].
    + constructor.
      * apply IH; [exact Hs' |]. intros H. apply Hx. now right.
      * rewrite Forall_forall in *. intros w Hw.
        apply (proj1 (insert_child_in x w l)) in Hw.
        destruct Hw as [-> | Hw]; [| now apply Hall].
        now apply leb_false_lt.
Qed.

Lemma sorted_children_strict (l : list child_run) :
  NoDup (map run_key l) -> StronglySorted run_lt (sorted_children l).
Proof.
  induction l as [| x l IH]; cbn [map sorted_children]; intros Hnd; [constructor |].
  inversion Hnd as [| ? ? Hx Hnd']; subst.
  apply insert_child_strict; [now apply IH |].
  intros H. apply Hx. apply in_map_iff in H. destruct H as [w [Hk Hw]].
  apply (proj1 (sorted_children_in w l)) in Hw.
  apply in_map_iff. exists w. split; assumption.
Qed.

(** A list in strictly increasing key order is determined by its members. *)
Lemma strict_runs_unique (l1 l2 : list child_run) :
  StronglySorted run_lt l1 -> StronglySorted run_lt l2 ->
  (forall y, In y l1 <-> In y l2) -> l1 = l2.
Proof.
  intros H1. revert l2.
  induction H1 as [| a l1 Hs1 IH Hall1]; intros l2 H2 Hsame.
  - destruct l2 as [| b l2]; [reflexivity |].
    exfalso. apply (proj2 (Hsame b)). now left.
  - destruct H2 as [| b l2 Hs2 Hall2].
    + exfalso. apply (proj1 (Hsame a)). now left.
    + rewrite Forall_forall in Hall1, Hall2.
      assert (a = b) as ->.
      { destruct (proj1 (Hsame a) (or_introl eq_refl)) as [Hba | Ha]; [now symmetry |].
        destruct (proj2 (Hsame b) (or_introl eq_refl)) as [Hab | Hb]; [exact Hab |].
        exfalso. apply (str_lt_irrefl (run_key a)).
        apply (str_lt_trans _ (run_key b)); [now apply Hall1 | now apply Hall2]. }
      f_equal. apply IH; [exact Hs2 |].
      intros y. split; intros Hy.
      * destruct (proj1 (Hsame y) (or_intror Hy)) as [<- | H]; [| exact H].
        exfalso. exact (str_lt_irrefl _ (Hall1 _ Hy)).
      * destruct (proj2 (Hsame y) (or_intror Hy)) as [<- | H]; [| exact H].
        exfalso. exact (str_lt_irrefl _ (Hall2 _ Hy)).
Qed.

Lemma child_runs_keys (excl : list string) (max_depth : Z) (path : Path) (d : Z)
    (entries : list (string * fsnode)) :
  map run_key (child_runs excl max_depth path d entries) = map fst entries.
Proof. unfold child_runs. rewrite map_map. reflexivity. Qed.

(** X8: the snapshot of a directory does not depend on the order in which
    the file system lists its entries, the names being distinct. *)
Theorem X8_snapshot_independent_of_listing_order :
  forall (exclude_patterns : list string) (max_depth : Z) (path : Path) (readable : bool)
         (entries entries' : list (string * fsnode)) (current_depth : Z),
    NoDup (map fst entries) ->
    Permutation entries entries' ->
    build_tree exclude_patterns max_depth path (Dir readable entries) current_depth
    = build_tree exclude_patterns max_depth path (Dir readable entries') current_depth.
Proof.
  intros excl max_depth path readable entries entries' d Hnd Hperm.
  rewrite !build_tree_dir.
  assert (sorted_children (child_runs excl max_depth path d entries)
          = sorted_children (child_runs excl max_depth path d entries')) as ->;
    [| reflexivity].
  apply strict_runs_unique.
  - apply sorted_children_strict. now rewrite child_runs_keys.
  - apply sorted_children_strict. rewrite child_runs_keys.
    apply (Permutation_NoDup (l := map fst entries)); [| exact Hnd].
    now apply Permutation_map.
  - intros y. rewrite !sorted_children_in. unfold child_runs.
    split; apply Permutation_in; [| apply Permutation_sym]; now apply Permutation_map.
Qed.

Lemma X8_snapshot_independent_of_listing_order_witness :
  build_tree [] 3 (parse_path ".") (Dir true [("b.py", text_file); ("a", Dir true [])]) 0
  = build_tree [] 3 (parse_path ".") (Dir true [("a", Dir true []); ("b.py", text_file)]) 0.
Proof.
  apply (X8_snapshot_independent_of_listing_order [] 3 (parse_path ".") true
           [("b.py", text_file); ("a", Dir true [])]
           [("a", Dir true []); ("b.py", text_file)] 0).
  - repeat constructor; simpl; intuition discriminate.
  - apply perm_swap.
Defined.

Lemma insert_child_Forall (P : child_run -> Prop) (x : child_run) (l : list child_run) :
  P x -> Forall P l -> Forall P (insert_child x l).
Proof.
  intros Hx Hl. apply Forall_forall. intros y Hy.
  apply (proj1 (insert_child_in x y l)) in Hy.
  destruct Hy as [-> | Hy]; [exact Hx |]. rewrite Forall_forall in Hl. now apply Hl.
Qed.

Lemma sorted_children_Forall (P : child_run -> Prop) (l : list child_run) :
  Forall P l -> Forall P (sorted_children l).
Proof.
  intros Hl. apply Forall_forall. intros y Hy.
  apply (proj1 (sorted_children_in y l)) in Hy.
  rewrite Forall_forall in Hl. now apply Hl.
Qed.

Lemma build_children_nothing (children : list child_run) :
  Forall (fun run => snd run = ret VNone) children ->
  forall tree, build_children children tree = ret tree.
Proof.
  induction 1 as [| [[child_name child_is_dir] call] rest Hrun _ IH]; intros tree.
  - reflexivity.
  - cbn [snd] in Hrun. subst call. cbn [build_children].
    rewrite bind_ret_l. cbn [add_child]. rewrite bind_ret_l. apply IH.
Qed.

(** X9: a directory above the depth limit that is not excluded, can be
    listed, and whose entries all give nothing (an empty directory, or files
    that are excluded or not accepted, or directories that are themselves
    left out) is left out of the snapshot: it gives nothing and prints
    nothing. *)
Theorem X9_directory_without_content_is_omitted :
  forall (exclude_patterns : list string) (max_depth : Z) (path : Path)
         (entries : list (string * fsnode)) (current_depth : Z),
    should_exclude exclude_patterns path = false ->
    (current_depth < max_depth)%Z ->
    (forall e c, In (e, c) entries ->
                 build_tree exclude_patterns max_depth (child_path path e) c
                   (current_depth + 1) = ret VNone) ->
    build_tree exclude_patterns max_depth path (Dir true entries) current_depth = ret VNone.
Proof.
  intros excl max_depth path entries d Hex Hd Hall.
  rewrite build_tree_dir, Hex.
  assert ((d >=? max_depth)%Z = false) as -> by (rewrite Z.geb_leb; apply Z.leb_gt; lia).
  cbn [negb]. rewrite build_children_nothing; [now rewrite bind_ret_l |].
  apply sorted_children_Forall. unfold child_runs. apply Forall_forall.
  intros run Hrun. apply in_map_iff in Hrun. destruct Hrun as [[e c] [<- Hin]].
  cbn [snd fst]. now apply Hall.
Qed.

Lemma X9_directory_without_content_is_omitted_witness :
  build_tree DEFAULT_EXCLUDES 3 (parse_path "docs")
    (Dir true [("empty", Dir true []); ("notes.txt", text_file); ("run.log", text_file)]) 1
  = ret VNone.
Proof.
  apply (X9_directory_without_content_is_omitted DEFAULT_EXCLUDES 3 (parse_path "docs")
           [("empty", Dir true []); ("notes.txt", text_file); ("run.log", text_file)] 1).
  - reflexivity.
  - reflexivity.
  - intros e c [H | [H | [H | []]]]; injection H as <- <-; reflexivity.
Defined.

(** ** A subdirectory named [files] *)

Lemma dict_get_set_same (k : string) (v : value) (d : list (string * value)) :
  dict_get k (dict_set k v d) = Some v.
Proof.
  induction d as [| [k' v'] d IH]; cbn [dict_set dict_get].
  - now rewrite String.eqb_refl.
  - destruct (String.eqb k k') eqn:E; cbn [dict_get]; rewrite ?String.eqb_refl, ?E; auto.
Qed.

Lemma dict_get_set_other (k k' : string) (v : value) (d : list (string * value)) :
  k <> k' -> dict_get k (dict_set k' v d) = dict_get k d.
Proof.
  intros Hne. apply String.eqb_neq in Hne.
  induction d as [| [k0 v0] d IH]; cbn [dict_set dict_get].
  - now rewrite Hne.
  - destruct (String.eqb k' k0) eqn:E; cbn [dict_get].
    + apply String.eqb_eq in E. subst k0. now rewrite Hne.
    + now rewrite IH.
Qed.

Lemma outcome_build_children_cons (child_name : string) (child_is_dir : bool)
    (call : M value) (rest : list child_run) (tree : list (string * value)) :
  outcome (build_children ((child_name, child_is_dir, call) :: rest) tree)
  = match outcome call with
    | inl e => inl e
    | inr child_tree =>
        match outcome (add_child tree child_name child_is_dir child_tree) with
        | inl e => inl e
        | inr tree' => outcome (build_children rest tree')
        end
    end.
Proof.
  cbn [build_children]. rewrite outcome_bind.
  destruct (outcome call) as [e | v]; [reflexivity |]. now rewrite outcome_bind.
Qed.

Lemma outcome_build_children_app (l1 l2 : list child_run) :
  forall tree,
    outcome (build_children (l1 ++ l2) tree)
    = match outcome (build_children l1 tree) with
      | inl e => inl e
      | inr tree' => outcome (build_children l2 tree')
      end.
Proof.
  induction l1 as [| [[n b] call] l1 IH]; intros tree; [reflexivity |].
  cbn [app]. rewrite !outcome_build_children_cons.
  destruct (outcome call) as [e | v]; [reflexivity |].
  destruct (outcome (add_child tree n b v)) as [e | t]; [reflexivity | apply IH].
Qed.

(** With a mapping under [files], adding a file raises and adding a
    directory of another name keeps the mapping. *)
Lemma add_child_files_mapping (tree : list (string * value)) (kvs : list (string * value))
    (child_name : string) (child_is_dir : bool) (child_tree : value) :
  dict_get "files" tree = Some (VDict kvs) ->
  child_name <> "files" ->
  match outcome (add_child tree child_name child_is_dir child_tree) with
  | inl e => e = files_append_error /\ child_is_dir = false /\ child_tree <> VNone
  | inr tree' =>
      dict_get "files" tree' = Some (VDict kvs)
      /\ (child_is_dir = false -> child_tree = VNone)
  end.
Proof.
  intros Hfiles Hname. unfold add_child.
  assert (match
             outcome
               (if child_is_dir
                then ret (dict_set child_name child_tree tree)
                else
                  let tree0 :=
                    match dict_get "files" tree with
                    | None => dict_set "files" (VList []) tree
                    | Some _ => tree
                    end in
                  match dict_get "files" tree0 with
                  | Some (VList l) =>
                      ret (dict_set "files" (VList (l ++ [child_tree])) tree0)
                  | _ => raise (PyExn "AttributeError"
                                  "'dict' object has no attribute 'append'")
                  end)
           with
           | inl e => e = files_append_error /\ child_is_dir = false
           | inr tree' => dict_get "files" tree' = Some (VDict kvs) /\ child_is_dir = true
           end) as Hmain.
  { destruct child_is_dir.
    - cbn [outcome ret snd]. split; [| reflexivity].
      rewrite dict_get_set_other; [exact Hfiles | now apply not_eq_sym].
    - cbv zeta. rewrite Hfiles. rewrite Hfiles. cbn. split; reflexivity. }
  destruct child_tree;
    try (destruct (outcome _) as [e | t];
         [ destruct Hmain as [-> ->]; repeat split; discriminate
         | destruct Hmain as [Hg ->]; split; [exact Hg | discriminate] ]).
  cbn. split; [exact Hfiles | reflexivity].
Qed.

Lemma build_children_files_mapping (children : list child_run) :
  Forall (fun run => run_key run <> "files") children ->
  forall tree kvs,
    dict_get "files" tree = Some (VDict kvs) ->
    match outcome (build_children children tree) with
    | inl _ => True
    | inr tree' => dict_get "files" tree' = Some (VDict kvs)
    end.
Proof.
  induction 1 as [| [[n b] call] rest Hkey _ IH]; intros tree kvs Hfiles.
  - exact Hfiles.
  - rewrite outcome_build_children_cons.
    destruct (outcome call) as [e | v]; [exact I |].
    pose proof (add_child_files_mapping tree kvs n b v Hfiles Hkey) as Hadd.
    destruct (outcome (add_child tree n b v)) as [e | t]; [exact I |].
    apply IH. apply Hadd.
Qed.

(** Two members of a strictly increasing list stand in their key order. *)
Lemma strict_runs_split (l : list child_run) (x y : child_run) :
  StronglySorted run_lt l -> In x l -> In y l -> run_lt x y ->
  exists l1 l2 l3, l = l1 ++ x :: l2 ++ y :: l3.
Proof.
  induction 1 as [| a l Hs IH Hall]; intros Hx Hy Hxy; [destruct Hx |].
  rewrite Forall_forall in Hall.
  destruct Hx as [-> | Hx].
  - destruct Hy as [-> | Hy].
    + exfalso. exact (str_lt_irrefl _ Hxy).
    + apply in_split in Hy. destruct Hy as [l2 [l3 ->]]. now exists [], l2, l3.
  - destruct Hy as [-> | Hy].
    + exfalso. apply (str_lt_irrefl (run_key x)).
      apply (str_lt_trans _ (run_key y)); [exact Hxy | now apply Hall].
    + destruct (IH Hx Hy Hxy) as [l1 [l2 [l3 ->]]]. now exists (a :: l1), l2, l3.
Qed.

Lemma strict_runs_around (l1 l2 : list child_run) (x : child_run) :
  StronglySorted run_lt (l1 ++ x :: l2) ->
  Forall (fun run => run_lt run x) l1 /\ Forall (fun run => run_lt x run) l2.
Proof.
  induction l1 as [| a l1 IH]; cbn [app]; intros Hs.
  - inversion Hs; subst. split; [constructor | assumption].
  - inversion Hs as [| ? ? Hs' Hall]; subst.
    destruct (IH Hs') as [H1 H2]. split; [| exact H2].
    constructor; [| exact H1].
    rewrite Forall_forall in Hall. apply Hall. apply in_or_app. right. now left.
Qed.

Lemma run_lt_key_differs (x y : child_run) : run_lt x y -> run_key y <> run_key x.
Proof.
  unfold run_lt. intros H Heq. rewrite Heq in H. exact (str_lt_irrefl _ H).
Qed.

(** What [build_tree] raises is the exception of the [files] list. *)
Lemma build_children_raises (children : list child_run) :
  Forall (fun run => forall e, outcome (snd run) = inl e -> e = files_append_error) children ->
  forall tree e,
    outcome (build_children children tree) = inl e -> e = files_append_error.
Proof.
  induction 1 as [| [[n b] call] rest Hrun _ IH]; intros tree e.
  - discriminate.
  - rewrite outcome_build_children_cons. cbn [snd] in Hrun.
    destruct (outcome call) as [e' | v].
    + intros H. injection H as <-. now apply Hrun.
    + destruct (outcome (add_child tree n b v)) as [e' | t] eqn:Ea; [| apply IH].
      intros H. injection H as <-.
      unfold add_child in Ea.
      destruct v; destruct b; cbn in Ea; try discriminate;
        repeat match type of Ea with
               | context [match ?x with _ => _ end] => destruct x; cbn in Ea
               end;
        try discriminate; now injection Ea as <-.
Qed.

Lemma build_tree_raises (exclude_patterns : list string) (max_depth : Z) (n : fsnode) :
  forall path current_depth e,
    outcome (build_tree exclude_patterns max_depth path n current_depth) = inl e ->
    e = files_append_error.
Proof.
  induction n as [c | r entries IH] using fsnode_entries_ind; intros path d e.
  - cbn [build_tree]. destruct (should_exclude exclude_patterns path); [discriminate |].
    destruct (is_important_file path); discriminate.
  - rewrite build_tree_dir.
    destruct (should_exclude exclude_patterns path); [discriminate |].
    destruct (d >=? max_depth)%Z; [discriminate |].
    destruct r; cbn [negb]; [| rewrite outcome_bind; discriminate].
    rewrite outcome_bind.
    destruct (outcome (build_children _ [])) as [e' | tree] eqn:Eb.
    + intros H. injection H as <-. revert Eb. apply build_children_raises.
      apply sorted_children_Forall. unfold child_runs. apply Forall_forall.
      intros run Hrun. apply in_map_iff in Hrun. destruct Hrun as [[e0 c] [<- Hin]].
      cbn [snd fst]. rewrite Forall_forall in IH. exact (IH _ Hin _ _).
    + destruct tree; discriminate.
Qed.

Lemma build_children_files_collision (l : list child_run) (kvs : list (string * value))
    (g : string) (cx cy : M value) (v : value) :
  StronglySorted run_lt l ->
  In ("files", true, cx) l -> outcome cx = inr (VDict kvs) ->
  In (g, false, cy) l -> outcome cy = inr v -> v <> VNone ->
  str_lt "files" g ->
  forall tree, exists e, outcome (build_children l tree) = inl e.
Proof.
  intros Hs Hx Hcx Hy Hcy Hv Hlt tree.
  destruct (strict_runs_split l _ _ Hs Hx Hy Hlt) as [l1 [l2 [l3 ->]]].
  destruct (strict_runs_around _ _ _ Hs) as [_ Hafter].
  rewrite outcome_build_children_app.
  destruct (outcome (build_children l1 tree)) as [e | t1]; [now exists e |].
  rewrite outcome_build_children_cons, Hcx.
  cbn [add_child outcome ret snd].
  rewrite outcome_build_children_app.
  apply Forall_app in Hafter. destruct Hafter as [Hl2 Hrest].
  assert (Forall (fun run => run_key run <> "files") l2) as Hkeys.
  { eapply Forall_impl; [| exact Hl2]. intros run Hrun.
    exact (run_lt_key_differs _ _ Hrun). }
  pose proof (build_children_files_mapping l2 Hkeys
                (dict_set "files" (VDict kvs) t1) kvs (dict_get_set_same _ _ _)) as Hmid.
  destruct (outcome (build_children l2 (dict_set "files" (VDict kvs) t1))) as [e | t3];
    [now exists e |].
  rewrite outcome_build_children_cons, Hcy.
  assert (g <> "files") as Hg.
  { intros ->. exact (str_lt_irrefl _ Hlt). }
  pose proof (add_child_files_mapping t3 kvs g false v Hmid Hg) as Hadd.
  destruct (outcome (add_child t3 g false v)) as [e | t4]; [now exists e |].
  destruct Hadd as [_ Hnone]. now elim Hv; apply Hnone.
Qed.

(** X10: a directory above the depth limit that holds a subdirectory named
    [files] with a snapshot of its own (the empty mapping of the depth limit
    counts) and an accepted file whose name sorts after [files] cannot be
    snapshotted: [build_tree] raises the [AttributeError] of appending to a
    mapping, whatever else the directory holds. *)
Theorem X10_files_directory_breaks_snapshot :
  forall (exclude_patterns : list string) (max_depth : Z) (path : Path)
         (entries : list (string * fsnode)) (current_depth : Z)
         (sub_readable : bool) (sub_entries : list (string * fsnode))
         (kvs : list (string * value)) (g : string) (c : content),
    should_exclude exclude_patterns path = false ->
    (current_depth < max_depth)%Z ->
    NoDup (map fst entries) ->
    In ("files", Dir sub_readable sub_entries) entries ->
    outcome (build_tree exclude_patterns max_depth (child_path path "files")
               (Dir sub_readable sub_entries) (current_depth + 1)) = inr (VDict kvs) ->
    In (g, File c) entries ->
    str_lt "files" g ->
    should_exclude exclude_patterns (child_path path g) = false ->
    is_important_file (child_path path g) = true ->
    outcome (build_tree exclude_patterns max_depth path (Dir true entries) current_depth)
    = inl files_append_error.
Proof.
  intros excl max_depth path entries d sr se kvs g c Hex Hd Hnd Hx Hcx Hy Hlt Hgex Hgimp.
  assert (exists e,
             outcome (build_tree excl max_depth path (Dir true entries) d) = inl e)
    as [e He].
  { rewrite build_tree_dir, Hex.
    assert ((d >=? max_depth)%Z = false) as -> by (rewrite Z.geb_leb; apply Z.leb_gt; lia).
    cbn [negb]. rewrite outcome_bind.
    destruct (build_children_files_collision
                (sorted_children (child_runs excl max_depth path d entries)) kvs g
                (build_tree excl max_depth (child_path path "files") (Dir sr se) (d + 1))
                (build_tree excl max_depth (child_path path g) (File c) (d + 1))
                (VStr (name (child_path path g)))) with (tree := @nil (string * value))
      as [e He].
    - apply sorted_children_strict. now rewrite child_runs_keys.
    - apply sorted_children_in. unfold child_runs. apply in_map_iff.
      exists ("files", Dir sr se). split; [reflexivity | exact Hx].
    - exact Hcx.
    - apply sorted_children_in. unfold child_runs. apply in_map_iff.
      exists (g, File c). split; [reflexivity | exact Hy].
    - cbn [build_tree]. now rewrite Hgex, Hgimp.
    - discriminate.
    - exact Hlt.
    - exists e. now rewrite He. }
  rewrite He. f_equal. exact (build_tree_raises _ _ _ _ _ _ He).
Qed.

Lemma X10_files_directory_breaks_snapshot_witness :
  outcome (build_tree DEFAULT_EXCLUDES 3 (parse_path ".")
             (Dir true [ ("main.py", py_file [imp "os"]);
                         ("files", Dir true [ ("data.json", text_file) ]) ]) 0)
  = inl files_append_error.
Proof.
  apply (X10_files_directory_breaks_snapshot DEFAULT_EXCLUDES 3 (parse_path ".")
           [ ("main.py", py_file [imp "os"]);
             ("files", Dir true [ ("data.json", text_file) ]) ] 0
           true [ ("data.json", text_file) ]
           [("files", VList [VStr "data.json"])] "main.py" (Parsed (Other [imp "os"]))).
  - reflexivity.
  - reflexivity.
  - repeat constructor; simpl; intuition discriminate.
  - right. left. reflexivity.
  - reflexivity.
  - left. reflexivity.
  - reflexivity.
  - reflexivity.
  - reflexivity.
Defined.

Lemma add_child_files_list (tree : list (string * value)) (child_name : string)
    (child_is_dir : bool) (child_tree : value) :
  files_is_list tree ->
  child_name <> "files" ->
  exists tree',
    outcome (add_child tree child_name child_is_dir child_tree) = inr tree'
    /\ files_is_list tree'.
Proof.
  intros Hfiles Hname. unfold add_child.
  assert (exists tree',
             outcome
               (if child_is_dir
                then ret (dict_set child_name child_tree tree)
                else
                  let tree0 :=
                    match dict_get "files" tree with
                    | None => dict_set "files" (VList []) tree
                    | Some _ => tree
                    end in
                  match dict_get "files" tree0 with
                  | Some (VList l) =>
                      ret (dict_set "files" (VList (l ++ [child_tree])) tree0)
                  | _ => raise (PyExn "AttributeError"
                                  "'dict' object has no attribute 'append'")
                  end) = inr tree'
             /\ files_is_list tree') as Hmain.
  { destruct child_is_dir.
    - eexists. split; [reflexivity |]. unfold files_is_list.
      rewrite dict_get_set_other by (now apply not_eq_sym). exact Hfiles.
    - cbv zeta. destruct Hfiles as [Hnone | [l Hl]].
      + rewrite Hnone, dict_get_set_same. eexists. split; [reflexivity |].
        right. eexists. apply dict_get_set_same.
      + rewrite Hl, Hl. eexists. split; [reflexivity |].
        right. eexists. apply dict_get_set_same. }
  destruct child_tree; try exact Hmain.
  exists tree. split; [reflexivity | exact Hfiles].
Qed.

Lemma build_children_files_list (children : list child_run) :
  Forall (fun run => run_key run <> "files"
                     /\ exists v, outcome (snd run) = inr v) children ->
  forall tree,
    files_is_list tree ->
    exists tree', outcome (build_children children tree) = inr tree' /\ files_is_list tree'.
Proof.
  induction 1 as [| [[n b] call] rest [Hkey [v Hv]] _ IH]; intros tree Hfiles.
  - exists tree. split; [reflexivity | exact Hfiles].
  - rewrite outcome_build_children_cons. cbn [snd] in Hv. rewrite Hv.
    destruct (add_child_files_list tree n b v Hfiles Hkey) as [t [Ht Hl]].
    rewrite Ht. now apply IH.
Qed.

Lemma build_children_files_kept (children : list child_run) :
  Forall (fun run => run_key run <> "files"
                     /\ exists v, outcome (snd run) = inr v
                                  /\ (snd (fst run) = false -> v = VNone)) children ->
  forall tree kvs,
    dict_get "files" tree = Some (VDict kvs) ->
    exists tree',
      outcome (build_children children tree) = inr tree'
      /\ dict_get "files" tree' = Some (VDict kvs).
Proof.
  induction 1 as [| [[n b] call] rest [Hkey [v [Hv Hfile]]] _ IH]; intros tree kvs Hfiles.
  - exists tree. split; [reflexivity | exact Hfiles].
  - rewrite outcome_build_children_cons. cbn [snd fst] in Hv, Hfile. rewrite Hv.
    pose proof (add_child_files_mapping tree kvs n b v Hfiles Hkey) as Hadd.
    destruct (outcome (add_child tree n b v)) as [e | t].
    + destruct Hadd as [_ [Hb Hne]]. now elim Hne; apply Hfile.
    + apply IH. apply Hadd.
Qed.

(** X11: when a directory holds a subdirectory named [files] with a
    snapshot of its own, no entry raises, and every accepted file of the
    directory sorts before [files], the snapshot of the directory is a
    mapping whose [files] entry is the snapshot of the subdirectory: the
    list of the directory's own files, built first, is replaced. *)
Theorem X11_files_directory_replaces_file_list :
  forall (exclude_patterns : list string) (max_depth : Z) (path : Path)
         (entries : list (string * fsnode)) (current_depth : Z)
         (sub_readable : bool) (sub_entries : list (string * fsnode))
         (kvs : list (string * value)),
    should_exclude exclude_patterns path = false ->
    (current_depth < max_depth)%Z ->
    NoDup (map fst entries) ->
    In ("files", Dir sub_readable sub_entries) entries ->
    outcome (build_tree exclude_patterns max_depth (child_path path "files")
               (Dir sub_readable sub_entries) (current_depth + 1)) = inr (VDict kvs) ->
    (forall e c, In (e, c) entries ->
                 exists v, outcome (build_tree exclude_patterns max_depth (child_path path e) c
                                      (current_depth + 1)) = inr v
                           /\ (node_is_dir c = false -> v <> VNone -> str_lt e "files")) ->
    exists tree,
      outcome (build_tree exclude_patterns max_depth path (Dir true entries) current_depth)
      = inr (VDict tree)
      /\ dict_get "files" tree = Some (VDict kvs).
Proof.
  intros excl max_depth path entries d sr se kvs Hex Hd Hnd Hx Hcx Hall.
  rewrite build_tree_dir, Hex.
  assert ((d >=? max_depth)%Z = false) as -> by (rewrite Z.geb_leb; apply Z.leb_gt; lia).
  cbn [negb]. rewrite outcome_bind.
  set (cx := build_tree excl max_depth (child_path path "files") (Dir sr se) (d + 1)) in *.
  set (l := sorted_children (child_runs excl max_depth path d entries)).
  assert (StronglySorted run_lt l) as Hs.
  { apply sorted_children_strict. now rewrite child_runs_keys. }
  assert (In ("files", true, cx) l) as Hin.
  { apply sorted_children_in. unfold child_runs. apply in_map_iff.
    exists ("files", Dir sr se). split; [reflexivity | exact Hx]. }
  assert (forall run, In run l ->
                      exists v, outcome (snd run) = inr v
                                /\ (snd (fst run) = false -> v <> VNone ->
                                    str_lt (run_key run) "files")) as Hruns.
  { intros run Hrun. apply (proj1 (sorted_children_in run _)) in Hrun.
    unfold child_runs in Hrun. apply in_map_iff in Hrun.
    destruct Hrun as [[e c] [<- Hec]]. cbn [snd fst run_key]. now apply Hall. }
  apply in_split in Hin. destruct Hin as [l1 [l2 Hl]].
  rewrite Hl in Hs. destruct (strict_runs_around _ _ _ Hs) as [Hbefore Hafter].
  assert (forall run, In run (l1 ++ l2) -> In run l) as Hsub.
  { intros run Hrun. rewrite Hl. apply in_app_or in Hrun. apply in_or_app.
    destruct Hrun; [now left | right; now right]. }
  rewrite Hl, outcome_build_children_app.
  destruct (build_children_files_list l1) with (tree := @nil (string * value))
    as [t1 [Ht1 _]].
  { apply Forall_forall. intros run Hrun. split.
    - rewrite Forall_forall in Hbefore. specialize (Hbefore run Hrun).
      intros Hk. unfold run_lt in Hbefore. cbn [run_key fst] in Hbefore.
      rewrite Hk in Hbefore. exact (str_lt_irrefl _ Hbefore).
    - destruct (Hruns run) as [v [Hv _]]; [apply Hsub, in_or_app; now left |].
      now exists v. }
  { now left. }
  rewrite Ht1, outcome_build_children_cons, Hcx. cbn [add_child outcome ret snd].
  destruct (build_children_files_kept l2) with
    (tree := dict_set "files" (VDict kvs) t1) (kvs := kvs) as [t2 [Ht2 Hget]].
  { apply Forall_forall. intros run Hrun.
    rewrite Forall_forall in Hafter. specialize (Hafter run Hrun).
    split; [exact (run_lt_key_differs _ _ Hafter) |].
    destruct (Hruns run) as [v [Hv Hfile]]; [apply Hsub, in_or_app; now right |].
    exists v. split; [exact Hv |]. intros Hb.
    destruct v; try reflexivity;
      (exfalso; apply (str_lt_irrefl "files");
       apply (str_lt_trans _ (run_key run)); [exact Hafter | apply Hfile; [exact Hb | discriminate]]). }
  { apply dict_get_set_same. }
  rewrite Ht2. exists t2. split; [| exact Hget].
  destruct t2; [discriminate | reflexivity].
Qed.

Lemma X11_files_directory_replaces_file_list_witness :
  exists tree,
    outcome (build_tree DEFAULT_EXCLUDES 3 (parse_path ".")
               (Dir true [ ("app.py", py_file [imp "os"]);
                           ("files", Dir true [ ("data.json", text_file) ]) ]) 0)
    = inr (VDict tree)
    /\ dict_get "files" tree = Some (VDict [("files", VList [VStr "data.json"])]).
Proof.
  apply (X11_files_directory_replaces_file_list DEFAULT_EXCLUDES 3 (parse_path ".")
           [ ("app.py", py_file [imp "os"]);
             ("files", Dir true [ ("data.json", text_file) ]) ] 0
           true [ ("data.json", text_file) ]).
  - reflexivity.
  - reflexivity.
  - repeat constructor; simpl; intuition discriminate.
  - right. left. reflexivity.
  - reflexivity.
  - intros e c [H | [H | []]]; injection H as <- <-.
    + eexists. split; [reflexivity |]. intros _ _. reflexivity.
    + eexists. split; [reflexivity |]. discriminate.
Defined.

(** ** A pattern that matches the root *)

Lemma fnmatch_star (s : string) : fnmatch s "*" = true.
Proof.
  change (match_tokens [GStar] s = true).
  induction s as [| c s IH]; [reflexivity |].
  rewrite match_star_unfold. now rewrite IH, orb_true_r.
Qed.

Lemma generate_project_structure_excluded (fs : fsnode) (root_path : string)
    (patterns : list string) (max_depth : Z) :
  should_exclude patterns (parse_path root_path) = true ->
  generate_project_structure fs root_path (Some patterns) max_depth
  = ret (VDict [(name (parse_path root_path), VNone)]).
Proof.
  intros H. unfold generate_project_structure.
  destruct (lookup fs (parse_path root_path)) as [n |].
  - rewrite (build_tree_excluded _ _ _ _ _ H). now rewrite bind_ret_l.
  - unfold build_tree_missing. rewrite H. now rewrite bind_ret_l.
Qed.

(** ** The allow-list below the top level *)

Lemma join_snoc (segs : list string) (e : string) :
  segs <> [] ->
  PyStr.join "/" (segs ++ [e]) = (PyStr.join "/" segs ++ String "/" e)%string.
Proof.
  induction segs as [| x segs IH]; intros Hne; [contradiction |].
  destruct segs as [| y segs]; [reflexivity |].
  change (PyStr.join "/" ((x :: y :: segs) ++ [e]))
    with (x ++ String "/" (PyStr.join "/" ((y :: segs) ++ [e])))%string.
  rewrite IH by discriminate.
  change (PyStr.join "/" (x :: y :: segs))
    with (x ++ String "/" (PyStr.join "/" (y :: segs)))%string.
  now rewrite append_assoc.
Qed.

Lemma str_child_below_top (p : Path) (e : string) :
  below_top p -> exists X, str (child_path p e) = (X ++ String "/" e)%string.
Proof.
  destruct p as [a segs]. unfold below_top, str, child_path. cbn [root segments].
  intros H. destruct segs as [| x segs].
  - destruct a.
    + destruct H as [H | H]; now elim H.
    + now exists "".
    + now exists "/".
  - exists (anchor_str a ++ PyStr.join "/" (x :: segs))%string.
    assert (PyStr.join "/" (x :: segs ++ [e])
            = (PyStr.join "/" (x :: segs) ++ String "/" e)%string) as Hjoin.
    { apply (join_snoc (x :: segs) e). discriminate. }
    destruct a; cbn [app anchor_str]; rewrite Hjoin, ?append_assoc; reflexivity.
Qed.

Lemma endswith_extend (L seg rest : string) :
  PyStr.endswith rest L = true ->
  PyStr.endswith (seg ++ String "/" rest)%string L = true.
Proof.
  intros H. induction seg as [| c seg IH]; cbn [String.append PyStr.endswith].
  - rewrite H. apply orb_true_r.
  - rewrite IH. apply orb_true_r.
Qed.

Lemma nested_star (X e L : string) :
  PyStr.contains "/" L = false ->
  match_tokens (GStar :: lits L) (X ++ String "/" e)%string = PyStr.endswith e L.
Proof.
  intros HL. rewrite match_star_lits.
  destruct (PyStr.endswith e L) eqn:E.
  - now apply endswith_extend.
  - destruct (PyStr.endswith (X ++ String "/" e) L) eqn:E'; [| reflexivity].
    apply endswith_after_slash in E'; [congruence | exact HL].
Qed.

Lemma nested_lit (X e L : string) :
  PyStr.contains "/" L = false ->
  match_tokens (lits L) (X ++ String "/" e)%string = false.
Proof.
  intros HL. rewrite match_lits.
  destruct (String.eqb (X ++ String "/" e) L) eqn:E; [| reflexivity].
  apply (eqb_contains "/") in E. rewrite contains_app, HL in E.
  simpl in E. rewrite orb_true_r in E. discriminate.
Qed.

(** X13: for a file below the top level (its directory is not the bare
    [.]), the allow-list test depends on the ending of the file name only:
    the file is accepted exactly when its name ends with one of the listed
    suffixes.  The whole-name patterns match at the top level only, so a
    [Dockerfile] or a [requirements.txt] inside a subdirectory is not
    accepted, while at the top level it is. *)
Theorem X13_allow_list_below_top_level :
  forall (p : Path) (e : string),
    below_top p ->
    is_important_file (child_path p e)
    = existsb (fun suffix => PyStr.endswith e suffix) IMPORTANT_SUFFIXES
    /\ is_important_file (child_path p "Dockerfile") = false
    /\ is_important_file (child_path p "requirements.txt") = false
    /\ is_important_file (child_path (parse_path ".") "Dockerfile") = true
    /\ is_important_file (child_path (parse_path ".") "requirements.txt") = true.
Proof.
  assert (forall p e, below_top p ->
                      is_important_file (child_path p e)
                      = existsb (fun suffix => PyStr.endswith e suffix) IMPORTANT_SUFFIXES)
    as Hgen.
  { intros p e Hp. destruct (str_child_below_top p e Hp) as [X HX].
    unfold is_important_file, IMPORTANT_FILE_PATTERNS, IMPORTANT_SUFFIXES.
    cbn [existsb]. rewrite HX.
    rewrite (nested_star X e ".py" eq_refl
             : fnmatch (X ++ String "/" e) "*.py" = PyStr.endswith e ".py").
    rewrite (nested_star X e ".ini" eq_refl
             : fnmatch (X ++ String "/" e) "*.ini" = PyStr.endswith e ".ini").
    rewrite (nested_star X e ".toml" eq_refl
             : fnmatch (X ++ String "/" e) "*.toml" = PyStr.endswith e ".toml").
    rewrite (nested_star X e ".yaml" eq_refl
             : fnmatch (X ++ String "/" e) "*.yaml" = PyStr.endswith e ".yaml").
    rewrite (nested_star X e ".yml" eq_refl
             : fnmatch (X ++ String "/" e) "*.yml" = PyStr.endswith e ".yml").
    rewrite (nested_star X e ".json" eq_refl
             : fnmatch (X ++ String "/" e) "*.json" = PyStr.endswith e ".json").
    rewrite (nested_star X e ".md" eq_refl
             : fnmatch (X ++ String "/" e) "*.md" = PyStr.endswith e ".md").
    rewrite (nested_star X e ".lock" eq_refl
             : fnmatch (X ++ String "/" e) "*.lock" = PyStr.endswith e ".lock").
    rewrite (nested_lit X e "Dockerfile" eq_refl
             : fnmatch (X ++ String "/" e) "Dockerfile" = false).
    rewrite (nested_lit X e "requirements.txt" eq_refl
             : fnmatch (X ++ String "/" e) "requirements.txt" = false).
    rewrite (nested_lit X e "setup.py" eq_refl
             : fnmatch (X ++ String "/" e) "setup.py" = false).
    reflexivity. }
  intros p e Hp. split; [now apply Hgen |].
  split; [now rewrite Hgen | split; [now rewrite Hgen | split; reflexivity]].
Qed.

Lemma X13_allow_list_below_top_level_witness :
  is_important_file (child_path (parse_path "services/api") "Dockerfile") = false.
Proof.
  assert (below_top (parse_path "services/api")) as Hbelow by (right; discriminate).
  exact (proj1 (proj2 (X13_allow_list_below_top_level (parse_path "services/api")
                         "Dockerfile" Hbelow))).
Defined.

(** ** The entry point *)

Lemma writes_app (a b : list event) : writes (a ++ b) = writes a ++ writes b.
Proof.
  induction a as [| ev a IH]; [reflexivity |].
  destruct ev; cbn [app writes]; now rewrite IH.
Qed.

Lemma writes_printed (lines : list string) : writes (map Printed lines) = [].
Proof. induction lines as [| l lines IH]; [reflexivity | exact IH]. Qed.

Lemma analyze_all_returns (fs : fsnode) (src_dirs : list string) :
  forall all_results,
    exists evs,
      analyze_all fs src_dirs all_results
      = (evs, inr (all_results ++ successful_analyses fs src_dirs))
      /\ writes evs = [].
Proof.
  induction src_dirs as [| directory rest IH]; intros acc.
  - exists []. cbn. now rewrite app_nil_r.
  - destruct (analyze_directory_outcome fs directory) as [mods [_ Ho]].
    cbn [analyze_all successful_analyses]. rewrite Ho.
    destruct (analyze_directory fs directory) as [out r]. cbn [outcome snd] in Ho. subst r.
    destruct mods as [| m mods].
    + destruct (IH acc) as [evs [He Hw]].
      eexists. unfold io_bind, emit, lift. cbn [fst snd]. rewrite He.
      split; [reflexivity |].
      cbn [app writes]. now rewrite writes_app, writes_printed, Hw.
    + match goal with |- context [Some ?r] =>
        destruct (IH (acc ++ [r])) as [evs [He Hw]] end.
      eexists. unfold io_bind, emit, lift. cbn [fst snd]. rewrite He.
      split; [now rewrite <- app_assoc |].
      cbn [app writes]. rewrite writes_app, writes_printed. cbn [app writes]. exact Hw.
Qed.

(** X14: when discovery finds no directory, the entry point prints what
    discovery printed and then the line that no directory matches the
    search pattern, returns, and makes no directory and writes no file. *)
Theorem X14_main_without_directories :
  forall (glob : string -> list Path * option exn) (fs fs_dirs_made fs_report_written : fsnode)
         (now cwd : string) (args : Args),
    outcome (find_source_directories glob fs (search_pattern args) (Some (exclude args)))
    = inr [] ->
    main glob fs fs_dirs_made fs_report_written now cwd args
    = (map Printed
         (console (find_source_directories glob fs (search_pattern args)
                     (Some (exclude args))))
       ++ [Printed ("No directories found matching pattern: " ++ search_pattern args)%string],
       inr tt).
Proof.
  intros glob fs fs2 fs3 now cwd args H. unfold main.
  destruct (find_source_directories glob fs (search_pattern args) (Some (exclude args)))
    as [out r].
  cbn [outcome snd] in H. subst r. reflexivity.
Qed.

Lemma X14_main_without_directories_witness :
  main sample_glob sample_fs sample_fs sample_fs "2024-01-01T00:00:00+00:00" "/work"
    (mkArgs "**/nomatch" "out/deps.json" "out/tree.json" [])
  = ([Printed "Warning: No directories found for patterns: ['**/nomatch']";
      Printed "No directories found matching pattern: **/nomatch"],
     inr tt).
Proof.
  apply (X14_main_without_directories sample_glob sample_fs sample_fs sample_fs
           "2024-01-01T00:00:00+00:00" "/work"
           (mkArgs "**/nomatch" "out/deps.json" "out/tree.json" [])).
  reflexivity.
Defined.

(** X15: when discovery finds directories and the snapshot is built, the
    entry point returns and writes two documents, in this order: at the
    output path the report, whose modules are the results of the directories
    whose analysis returned one, in discovery order, and at the structure
    path the snapshot; the summary line gives the number of these results. *)
Theorem X15_main_writes_report_then_snapshot :
  forall (glob : string -> list Path * option exn) (fs fs_dirs_made fs_report_written : fsnode)
         (now cwd : string) (args : Args) (d : string) (ds : list string) (v : value),
    outcome (find_source_directories glob fs (search_pattern args) (Some (exclude args)))
    = inr (d :: ds) ->
    outcome (main_project_structure fs_report_written (exclude args)) = inr v ->
    let run := main glob fs fs_dirs_made fs_report_written now cwd args in
    let results := successful_analyses fs_dirs_made (d :: ds) in
    snd run = inr tt
    /\ writes (fst run)
       = [ (parse_path (output_file args), ReportDoc (mkAnalysisReport now cwd results));
           (parse_path (structure_file args), StructureDoc v) ]
    /\ In (Printed ("Analyzed " ++ str_of_nat (length results) ++ " source directories")%string)
          (fst run).
Proof.
  intros glob fs fs2 fs3 now cwd args d ds v Hd Hv. cbv zeta. unfold main.
  destruct (find_source_directories glob fs (search_pattern args) (Some (exclude args)))
    as [out1 r1].
  cbn [outcome snd] in Hd. subst r1.
  destruct (analyze_all_returns fs2 (d :: ds) []) as [evs [Ha Hw]]. cbn [app] in Ha.
  destruct (main_project_structure fs3 (exclude args)) as [out3 r3] eqn:E3.
  cbn [outcome snd] in Hv. subst r3.
  unfold io_bind, emit, lift. cbn [fst snd]. rewrite Ha. cbn [fst snd].
  split; [reflexivity |]. split.
  - rewrite !writes_app, !writes_printed, Hw. reflexivity.
  - do 9 (apply in_or_app; right). now left.
Qed.

Lemma X15_main_writes_report_then_snapshot_witness :
  writes (fst (main sample_glob sample_fs sample_fs sample_fs
                 "2024-01-01T00:00:00+00:00" "/work"
                 (mkArgs "docs src" "out/deps.json" "out/tree.json" ["node_modules"])))
  = [ (parse_path "out/deps.json",
       ReportDoc
         (mkAnalysisReport "2024-01-01T00:00:00+00:00" "/work"
            (successful_analyses sample_fs ["docs"; "src"])));
      (parse_path "out/tree.json",
       StructureDoc
         (VDict
            [("",
              VDict
                [("files", VList [VStr "README.md"]);
                 ("pkg", VDict [("node_modules", VDict [("sub", VDict [])])]);
                 ("src", VDict [("files", VList [VStr "a.pyx.py"; VStr "app.py";
                                                 VStr "broken.py"])])])])) ].
Proof.
  assert (outcome (find_source_directories sample_glob sample_fs "docs src"
                     (Some ["node_modules"])) = inr ["docs"; "src"]) as Hdirs.
  { vm_compute. reflexivity. }
  assert (outcome (main_project_structure sample_fs ["node_modules"])
          = inr (VDict
                   [("",
                     VDict
                       [("files", VList [VStr "README.md"]);
                        ("pkg", VDict [("node_modules", VDict [("sub", VDict [])])]);
                        ("src", VDict [("files", VList [VStr "a.pyx.py"; VStr "app.py";
                                                        VStr "broken.py"])])])]))
    as Hsnap.
  { vm_compute. reflexivity. }
  exact (proj1 (proj2 (X15_main_writes_report_then_snapshot sample_glob sample_fs sample_fs
                         sample_fs "2024-01-01T00:00:00+00:00" "/work"
                         (mkArgs "docs src" "out/deps.json" "out/tree.json" ["node_modules"])
                         "docs" ["src"] _ Hdirs Hsnap))).
Defined.

(** X16: when discovery finds directories and the snapshot raises, the
    entry point raises the same exception after the report is written: the
    report is the one document written and no snapshot file is. *)
Theorem X16_main_snapshot_failure_after_report :
  forall (glob : string -> list Path * option exn) (fs fs_dirs_made fs_report_written : fsnode)
         (now cwd : string) (args : Args) (d : string) (ds : list string) (e : exn),
    outcome (find_source_directories glob fs (search_pattern args) (Some (exclude args)))
    = inr (d :: ds) ->
    outcome (main_project_structure fs_report_written (exclude args)) = inl e ->
    let run := main glob fs fs_dirs_made fs_report_written now cwd args in
    snd run = inl e
    /\ writes (fst run)
       = [ (parse_path (output_file args),
            ReportDoc (mkAnalysisReport now cwd
                         (successful_analyses fs_dirs_made (d :: ds)))) ].
Proof.
  intros glob fs fs2 fs3 now cwd args d ds e Hd He. cbv zeta. unfold main.
  destruct (find_source_directories glob fs (search_pattern args) (Some (exclude args)))
    as [out1 r1].
  cbn [outcome snd] in Hd. subst r1.
  destruct (analyze_all_returns fs2 (d :: ds) []) as [evs [Ha Hw]]. cbn [app] in Ha.
  destruct (main_project_structure fs3 (exclude args)) as [out3 r3] eqn:E3.
  cbn [outcome snd] in He. subst r3.
  unfold io_bind, emit, lift. cbn [fst snd]. rewrite Ha. cbn [fst snd].
  split; [reflexivity |].
  rewrite !writes_app, ?writes_printed, Hw. cbn [app writes].
  now rewrite ?writes_printed.
Qed.

Lemma X16_main_snapshot_failure_after_report_witness :
  snd (main sample_glob collision_fs collision_fs collision_fs
         "2024-01-01T00:00:00+00:00" "/work" (mkArgs "src" "deps.json" "tree.json" []))
  = inl files_append_error.
Proof.
  assert (outcome (find_source_directories sample_glob collision_fs "src" (Some []))
          = inr ["src"]) as Hdirs.
  { vm_compute. reflexivity. }
  assert (outcome (main_project_structure collision_fs []) = inl files_append_error)
    as Hsnap.
  { vm_compute. reflexivity. }
  exact (proj1 (X16_main_snapshot_failure_after_report sample_glob collision_fs collision_fs
                  collision_fs "2024-01-01T00:00:00+00:00" "/work"
                  (mkArgs "src" "deps.json" "tree.json" []) "src" [] _ Hdirs Hsnap)).
Defined.

(** ** The calculator template *)

(** X17: [subtract] undoes [add] and [add] undoes [subtract], on either
    argument of the sum; [add] does not depend on the order of its
    arguments, and exchanging those of [subtract] negates the result. *)
Theorem X17_add_subtract_inverse :
  forall a b : Z,
    subtract (add a b) b = a
    /\ subtract (add a b) a = b
    /\ add (subtract a b) b = a
    /\ add a b = add b a
    /\ subtract a b = (- subtract b a)%Z.
Proof. intros a b. unfold add, subtract. repeat split; lia. Qed.

(** ** Patterns that match every path, and patterns that match none below
       the top level *)

Lemma prefixes_head {A : Type} (x : A) (l : list A) : In [] (prefixes (x :: l)).
Proof. now left. Qed.

(** X18: in discovery's check, each of the patterns [*], [.] and the empty
    pattern skips every relative path that has a component: [*] matches the
    path itself, and the other two match the ancestor [.] by its text and by
    its empty name. *)
Theorem X18_patterns_that_skip_everything :
  forall (path_str : string) (patterns : list string),
    root (parse_path path_str) = Relative ->
    segments (parse_path path_str) <> [] ->
    In "*" patterns \/ In "." patterns \/ In "" patterns ->
    should_skip_directory path_str patterns = true.
Proof.
  intros path_str patterns Hroot Hsegs Hin.
  apply should_skip_directory_iff. unfold excluded_per_spec.
  assert (In (mkPath Relative []) (parents (parse_path path_str))) as Hdot.
  { unfold parents. rewrite Hroot. apply in_map. apply -> in_rev.
    destruct (segments (parse_path path_str)) as [| x l]; [contradiction |].
    apply prefixes_head. }
  destruct Hin as [H | [H | H]].
  - exists "*". split; [exact H |]. left. apply fnmatch_star.
  - exists ".". split; [exact H |]. right. right.
    exists (mkPath Relative []). split; [exact Hdot |]. left. reflexivity.
  - exists "". split; [exact H |]. right. right.
    exists (mkPath Relative []). split; [exact Hdot |]. right. reflexivity.
Qed.

Lemma X18_patterns_that_skip_everything_witness :
  should_skip_directory "services/api/src" ["dist"; "."] = true.
Proof.
  apply (X18_patterns_that_skip_everything "services/api/src" ["dist"; "."]).
  - reflexivity.
  - discriminate.
  - right. left. right. left. reflexivity.
Defined.

Lemma translate_plain (pat : string) :
  plain_pattern pat = true -> translate pat = lits pat.
Proof.
  unfold translate. induction pat as [| c pat IH]; [reflexivity |].
  cbn [plain_pattern translate_go lits]. intros H.
  apply andb_true_iff in H. destruct H as [Hc Hp].
  unfold plain_char in Hc.
  apply andb_true_iff in Hc. destruct Hc as [Hc H3].
  apply andb_true_iff in Hc. destruct Hc as [H1 H2].
  apply negb_true_iff in H1, H2, H3. rewrite H1, H2, H3.
  now rewrite IH.
Qed.

Lemma should_exclude_plain_below_top (patterns : list string) (X e : string) :
  Forall (fun pat => plain_pattern pat = true /\ PyStr.contains "/" pat = false) patterns ->
  existsb (fun pattern => fnmatch (X ++ String "/" e) pattern) patterns = false.
Proof.
  induction 1 as [| pat patterns [Hplain Hslash] _ IH]; [reflexivity |].
  cbn [existsb]. rewrite IH, orb_false_r.
  unfold fnmatch. rewrite (translate_plain pat Hplain). now apply nested_lit.
Qed.

(** X19: in the structure snapshot, an exclude pattern without wildcard
    characters and without a slash (a plain name such as [node_modules])
    never excludes a path below the top level: it removes the top-level entry
    of that name only.  Under the default exclude list, a path below the top
    level is excluded exactly when its name ends with one of the list's five
    starred endings. *)
Theorem X19_plain_excludes_reach_top_level_only :
  forall (p : Path) (e : string) (patterns : list string),
    below_top p ->
    Forall (fun pat => plain_pattern pat = true /\ PyStr.contains "/" pat = false) patterns ->
    should_exclude patterns (child_path p e) = false
    /\ should_exclude DEFAULT_EXCLUDES (child_path p e)
       = existsb (fun suffix => PyStr.endswith e suffix) DEFAULT_EXCLUDE_SUFFIXES
    /\ (In e patterns -> should_exclude patterns (child_path (parse_path ".") e) = true).
Proof.
  intros p e patterns Hp Hplain.
  destruct (str_child_below_top p e Hp) as [X HX].
  unfold should_exclude. rewrite HX. split; [| split].
  - now apply should_exclude_plain_below_top.
  - unfold DEFAULT_EXCLUDES, DEFAULT_EXCLUDE_SUFFIXES. cbn [existsb].
    rewrite (nested_star X e ".egg-info" eq_refl
             : fnmatch (X ++ String "/" e) "*.egg-info" = PyStr.endswith e ".egg-info").
    rewrite (nested_star X e ".pyc" eq_refl
             : fnmatch (X ++ String "/" e) "*.pyc" = PyStr.endswith e ".pyc").
    rewrite (nested_star X e ".pyo" eq_refl
             : fnmatch (X ++ String "/" e) "*.pyo" = PyStr.endswith e ".pyo").
    rewrite (nested_star X e ".pyd" eq_refl
             : fnmatch (X ++ String "/" e) "*.pyd" = PyStr.endswith e ".pyd").
    rewrite (nested_star X e ".log" eq_refl
             : fnmatch (X ++ String "/" e) "*.log" = PyStr.endswith e ".log").
    rewrite (nested_lit X e "node_modules" eq_refl
             : fnmatch (X ++ String "/" e) "node_modules" = false).
    rewrite (nested_lit X e ".venv" eq_refl : fnmatch (X ++ String "/" e) ".venv" = false).
    rewrite (nested_lit X e "venv" eq_refl : fnmatch (X ++ String "/" e) "venv" = false).
    rewrite (nested_lit X e "__pycache__" eq_refl
             : fnmatch (X ++ String "/" e) "__pycache__" = false).
    rewrite (nested_lit X e ".git" eq_refl : fnmatch (X ++ String "/" e) ".git" = false).
    rewrite (nested_lit X e ".pytest_cache" eq_refl
             : fnmatch (X ++ String "/" e) ".pytest_cache" = false).
    rewrite (nested_lit X e ".coverage" eq_refl
             : fnmatch (X ++ String "/" e) ".coverage" = false).
    rewrite (nested_lit X e "dist" eq_refl : fnmatch (X ++ String "/" e) "dist" = false).
    rewrite (nested_lit X e "build" eq_refl : fnmatch (X ++ String "/" e) "build" = false).
    rewrite (nested_lit X e ".idea" eq_refl : fnmatch (X ++ String "/" e) ".idea" = false).
    rewrite (nested_lit X e ".vscode" eq_refl
             : fnmatch (X ++ String "/" e) ".vscode" = false).
    rewrite (nested_lit X e ".DS_Store" eq_refl
             : fnmatch (X ++ String "/" e) ".DS_Store" = false).
    rewrite (nested_lit X e ".mypy_cache" eq_refl
             : fnmatch (X ++ String "/" e) ".mypy_cache" = false).
    rewrite (nested_lit X e ".ruff_cache" eq_refl
             : fnmatch (X ++ String "/" e) ".ruff_cache" = false).
    rewrite (nested_lit X e "htmlcov" eq_refl
             : fnmatch (X ++ String "/" e) "htmlcov" = false).
    rewrite (nested_lit X e ".env" eq_refl : fnmatch (X ++ String "/" e) ".env" = false).
    reflexivity.
  - intros Hin. apply existsb_exists. exists e. split; [exact Hin |].
    rewrite Forall_forall in Hplain. destruct (Hplain e Hin) as [He _].
    unfold fnmatch. rewrite (translate_plain e He), match_lits.
    change (str (child_path (parse_path ".") e)) with ("" ++ PyStr.join "/" [e])%string.
    apply String.eqb_refl.
Qed.

Lemma X19_plain_excludes_reach_top_level_only_witness :
  should_exclude ["node_modules"; "__pycache__"]
    (child_path (parse_path "src/pkg") "__pycache__") = false.
Proof.
  assert (below_top (parse_path "src/pkg")) as Hbelow by (right; discriminate).
  assert (Forall (fun pat => plain_pattern pat = true /\ PyStr.contains "/" pat = false)
                 ["node_modules"; "__pycache__"]) as Hplain.
  { repeat constructor. }
  exact (proj1 (X19_plain_excludes_reach_top_level_only (parse_path "src/pkg")
                  "__pycache__" ["node_modules"; "__pycache__"] Hbelow Hplain)).
Defined.

(** ** A glob that raises *)

Lemma console_discover_warning (glob : string -> list Path * option exn) (fs : fsnode)
    (excl : list string) (token : string) (paths : list Path) (e : exn)
    (patterns : list string) :
  In token patterns ->
  is_dir fs (joinpath root_path token)
  && negb (should_skip_directory (str (joinpath root_path token)) excl) = false ->
  glob token = (paths, Some e) ->
  forall acc,
    In ("Warning: Error processing pattern '" ++ token ++ "': " ++ exn_msg e)%string
       (console (discover glob fs excl patterns acc)).
Proof.
  intros Hin Hdirect Hglob.
  induction patterns as [| pattern rest IH]; intros acc; [destruct Hin |].
  cbn [discover].
  destruct (String.eqb token pattern) eqn:E.
  - apply String.eqb_eq in E. subst pattern. rewrite Hdirect, Hglob.
    rewrite console_bind. cbn [outcome print snd console fst].
    now left.
  - assert (In token rest) as Hrest.
    { destruct Hin as [<- | H]; [| exact H]. rewrite String.eqb_refl in E. discriminate. }
    destruct (is_dir fs (joinpath root_path pattern)
              && negb (should_skip_directory (str (joinpath root_path pattern)) excl)).
    + now apply IH.
    + destruct (glob pattern) as [ps [e' |]]; [| now apply IH].
      rewrite console_bind. cbn [outcome print snd console fst].
      right. now apply IH.
Qed.

(** X20: when the glob of a token raises (the token not being taken as a
    direct path), discovery prints the warning that names the pattern and
    the error and goes on: it still returns, and the result holds the
    directories the glob yielded before it raised and those of every other
    token. *)
Theorem X20_glob_failure_is_contained :
  forall (glob : string -> list Path * option exn) (fs : fsnode) (search token : string)
         (exclude_patterns : option (list string)) (paths : list Path) (e : exn),
    In token (PyStr.split search) ->
    is_dir fs (joinpath root_path token)
    && negb (should_skip_directory (str (joinpath root_path token))
               (caller_patterns exclude_patterns)) = false ->
    glob token = (paths, Some e) ->
    In ("Warning: Error processing pattern '" ++ token ++ "': " ++ exn_msg e)%string
       (console (find_source_directories glob fs search exclude_patterns))
    /\ exists dirs,
         outcome (find_source_directories glob fs search exclude_patterns) = inr dirs
         /\ (forall path,
                In path paths -> is_dir fs path = true ->
                should_skip_directory (str path) (caller_patterns exclude_patterns) = false ->
                In (str path) dirs)
         /\ (forall other y,
                In other (PyStr.split search) ->
                In y (token_dirs glob fs (caller_patterns exclude_patterns) other) ->
                In y dirs).
Proof.
  intros glob fs search token excl paths e Hin Hdirect Hglob. split.
  - unfold find_source_directories. fold (caller_patterns excl).
    rewrite console_bind.
    pose proof (console_discover_warning glob fs (caller_patterns excl) token paths e
                  (PyStr.split search) Hin Hdirect Hglob []) as Hw.
    destruct (outcome (discover glob fs (caller_patterns excl) (PyStr.split search) []));
      [exact Hw | apply in_or_app; now left].
  - destruct (find_source_directories_returns glob fs search excl) as [dirs [Ho [_ Hmem]]].
    exists dirs. split; [exact Ho |]. split.
    + intros path Hp Hd Hs. apply Hmem. exists token. split; [exact Hin |].
      unfold token_dirs. rewrite Hdirect, Hglob. cbn [fst].
      apply in_map. apply filter_In. split; [exact Hp |]. now rewrite Hd, Hs.
    + intros other y Ho' Hy. apply Hmem. now exists other.
Qed.

Lemma X20_glob_failure_is_contained_witness :
  In ("Warning: Error processing pattern '**bad': "
      ++ "Invalid pattern: '**' can only be an entire path component")%string
     (console (find_source_directories raising_glob sample_fs "**bad src" None)).
Proof.
  apply (X20_glob_failure_is_contained raising_glob sample_fs "**bad src" "**bad" None []
           (PyExn "ValueError" "Invalid pattern: '**' can only be an entire path component")).
  - left. reflexivity.
  - reflexivity.
  - reflexivity.
Defined.

(** ** The order of the extractor's result *)

(** C3 (amended): for a file that parses, the imports sequence keeps every
    reference with its repetitions (it is a rearrangement of the sequence in
    source appearance order) and lists them level by level, in the order of
    the queue of [ast.walk]: the references of the nodes at nesting depth
    [k], from left to right, come before those of the nodes at depth
    [k + 1], so an import nested in a body comes after the imports of the
    levels that enclose it.  When every import statement is at the top level
    of the module, the sequence is in source appearance order. *)
Theorem C3_imports_order :
  forall (fs : fsnode) (file_path : Path) (tree : node),
    lookup fs file_path = Some (File (Parsed tree)) ->
    exists refs,
      find_imports fs file_path = ret refs
      /\ Permutation refs (source_order_imports tree)
      /\ refs = flat_map (fun k => flat_map import_refs (nodes_at_depth k [tree]))
                         (seq 0 (node_size tree))
      /\ (forall k,
             k <= node_size tree ->
             refs = flat_map (fun j => flat_map import_refs (nodes_at_depth j [tree]))
                             (seq 0 k)
                    ++ flat_map (fun j => flat_map import_refs (nodes_at_depth j [tree]))
                                (seq k (node_size tree - k)))
      /\ (imports_at_top_level tree = true -> refs = source_order_imports tree).
Proof.
  intros fs file_path tree Hlook. exists (collect_imports tree).
  assert (collect_imports tree
          = flat_map (fun k => flat_map import_refs (nodes_at_depth k [tree]))
                     (seq 0 (node_size tree))) as Hlevels.
  { unfold collect_imports, walk. rewrite walk_queue_levels.
    - apply flat_map_flat_map.
    - rewrite queue_size_cons, node_size_unfold. unfold queue_size. simpl. lia. }
  split; [now apply find_imports_parsed |].
  split; [apply collect_imports_permutation |].
  split; [exact Hlevels |].
  split; [| apply collect_imports_top_level].
  intros k Hk. rewrite Hlevels at 1.
  replace (node_size tree) with (k + (node_size tree - k)) at 1 by lia.
  rewrite seq_app, flat_map_app. reflexivity.
Qed.

Lemma C3_imports_order_witness :
  exists refs,
    find_imports nested_fs (parse_path "m.py") = ret refs
    /\ refs = flat_map (fun k => flat_map import_refs (nodes_at_depth k [nested_module]))
                       (seq 0 (node_size nested_module)).
Proof.
  destruct (C3_imports_order nested_fs (parse_path "m.py") nested_module eq_refl)
    as [refs [Hret [_ [Hlevels _]]]].
  exists refs. split; [exact Hret | exact Hlevels].
Defined.

(** ** A directory at the depth limit in the snapshot *)

(** Adding a child under another name keeps a mapping stored under a name. *)
Lemma add_child_keeps_mapping (tree tree' : list (string * value)) (e : string)
    (kvs : list (string * value)) (child_name : string) (child_is_dir : bool)
    (child_tree : value) :
  dict_get e tree = Some (VDict kvs) ->
  child_name <> e ->
  outcome (add_child tree child_name child_is_dir child_tree) = inr tree' ->
  dict_get e tree' = Some (VDict kvs).
Proof.
  intros Hget Hname.
  destruct (String.eqb e "files") eqn:Efiles.
  - apply String.eqb_eq in Efiles. subst e.
    pose proof (add_child_files_mapping tree kvs child_name child_is_dir child_tree
                  Hget Hname) as Hadd.
    intros Ho. rewrite Ho in Hadd. apply Hadd.
  - apply String.eqb_neq in Efiles. unfold add_child.
    assert (outcome
              (if child_is_dir
               then ret (dict_set child_name child_tree tree)
               else
                 let tree0 :=
                   match dict_get "files" tree with
                   | None => dict_set "files" (VList []) tree
                   | Some _ => tree
                   end in
                 match dict_get "files" tree0 with
                 | Some (VList l) =>
                     ret (dict_set "files" (VList (l ++ [child_tree])) tree0)
                 | _ => raise (PyExn "AttributeError"
                                 "'dict' object has no attribute 'append'")
                 end) = inr tree' ->
            dict_get e tree' = Some (VDict kvs)) as Hmain.
    { destruct child_is_dir.
      - intros H. injection H as <-.
        rewrite dict_get_set_other; [exact Hget | now apply not_eq_sym].
      - cbv zeta.
        set (tree0 := match dict_get "files" tree with
                      | None => dict_set "files" (VList []) tree
                      | Some _ => tree
                      end).
        assert (dict_get e tree0 = Some (VDict kvs)) as Hget0.
        { unfold tree0. destruct (dict_get "files" tree); [exact Hget |].
          now rewrite dict_get_set_other. }
        destruct (dict_get "files" tree0) as [[| s | l | d] |]; try discriminate.
        intros H. injection H as <-. now rewrite dict_get_set_other. }
    destruct child_tree; try exact Hmain.
    intros H. injection H as <-. exact Hget.
Qed.

Lemma build_children_keeps_mapping (children : list child_run) (e : string) :
  Forall (fun run => run_key run <> e) children ->
  forall tree tree' kvs,
    dict_get e tree = Some (VDict kvs) ->
    outcome (build_children children tree) = inr tree' ->
    dict_get e tree' = Some (VDict kvs).
Proof.
  induction 1 as [| [[n b] call] rest Hkey _ IH]; intros tree tree' kvs Hget.
  - intros H. injection H as <-. exact Hget.
  - rewrite outcome_build_children_cons.
    destruct (outcome call) as [x | v]; [discriminate |].
    destruct (outcome (add_child tree n b v)) as [x | t] eqn:Ea; [discriminate |].
    apply IH. exact (add_child_keeps_mapping tree t e kvs n b v Hget Hkey Ea).
Qed.

(** When the loop over the children returns, every child has returned, and
    the mapping of a child directory is in the result under its name. *)
Lemma build_children_stores (children : list child_run) :
  StronglySorted run_lt children ->
  forall e call tree tree',
    In (e, true, call) children ->
    outcome (build_children children tree) = inr tree' ->
    exists v,
      outcome call = inr v
      /\ forall kvs, v = VDict kvs -> dict_get e tree' = Some (VDict kvs).
Proof.
  induction 1 as [| [[n b] c0] rest Hs IH Hall]; intros e call tree tree' Hin; [destruct Hin |].
  rewrite outcome_build_children_cons.
  destruct (outcome c0) as [x | v0] eqn:Ec; [discriminate |].
  destruct (outcome (add_child tree n b v0)) as [x | t] eqn:Ea; [discriminate |].
  intros Ho. destruct Hin as [Heq | Hin].
  - injection Heq as -> -> ->. exists v0. split; [exact Ec |].
    intros kvs ->. cbn [add_child outcome ret snd] in Ea. injection Ea as <-.
    apply (build_children_keeps_mapping rest e) with (tree := dict_set e (VDict kvs) tree).
    + eapply Forall_impl; [| exact Hall]. intros run Hrun.
      exact (run_lt_key_differs _ _ Hrun).
    + apply dict_get_set_same.
    + exact Ho.
  - exact (IH e call t tree' Hin Ho).
Qed.

Lemma expanded_to_limit_is_dir (excl : list string) (max_depth : Z) (path : Path)
    (n : fsnode) (d : Z) (names : list string) :
  expanded_to_limit excl max_depth path n d names -> node_is_dir n = true.
Proof.
  destruct names as [| e rest]; cbn [expanded_to_limit].
  - intros [H _]. exact H.
  - intros [entries [c [-> _]]]. reflexivity.
Qed.

Lemma value_at_mapping (keys : list string) (v : value) :
  value_at keys v = Some (VDict []) -> exists kvs, v = VDict kvs.
Proof.
  destruct keys as [| k keys]; cbn [value_at].
  - intros H. injection H as ->. now exists [].
  - destruct v; try discriminate. intros _. now eexists.
Qed.

(** A directory at the depth limit that the snapshot reaches is in the
    value built, under the names that lead to it, as the empty mapping. *)
Lemma build_tree_reaches_limit (excl : list string) (max_depth : Z) (names : list string) :
  forall path n d v,
    expanded_to_limit excl max_depth path n d names ->
    outcome (build_tree excl max_depth path n d) = inr v ->
    value_at names v = Some (VDict []).
Proof.
  induction names as [| e rest IH]; intros path n d v; cbn [expanded_to_limit].
  - intros [Hdir [Hex Hd]]. destruct n as [c | r entries]; [discriminate |].
    rewrite (build_tree_at_limit excl max_depth path r entries d Hex Hd).
    intros H. injection H as <-. reflexivity.
  - intros [entries [c [-> [Hex [Hd [Hnd [Hin Hrest]]]]]]].
    rewrite build_tree_dir, Hex.
    assert ((d >=? max_depth)%Z = false) as -> by (rewrite Z.geb_leb; apply Z.leb_gt; lia).
    cbn [negb]. rewrite outcome_bind.
    destruct (outcome (build_children
                         (sorted_children (child_runs excl max_depth path d entries)) []))
      as [x | tree] eqn:Eb; [discriminate |].
    destruct (build_children_stores
                (sorted_children (child_runs excl max_depth path d entries)))
      with (e := e)
           (call := build_tree excl max_depth (child_path path e) c (d + 1))
           (tree := @nil (string * value)) (tree' := tree)
      as [cv [Hcv Hstored]].
    + apply sorted_children_strict. now rewrite child_runs_keys.
    + apply sorted_children_in. unfold child_runs. apply in_map_iff.
      exists (e, c). split; [| exact Hin].
      cbn [fst snd]. now rewrite (expanded_to_limit_is_dir _ _ _ _ _ _ Hrest).
    + exact Eb.
    + pose proof (IH _ _ _ _ Hrest Hcv) as Hat.
      destruct (value_at_mapping rest cv Hat) as [kvs ->].
      specialize (Hstored kvs eq_refl).
      destruct tree as [| kv tree]; [discriminate |].
      intros H. injection H as <-. cbn [value_at]. now rewrite Hstored.
Qed.

(** C7: the snapshot holds no file name that fails every pattern of the
    allow-list, and mappings are nested no deeper than the maximum depth
    allows (the outer mapping, the root, and one level for each depth up to
    the limit).  A directory at the depth limit that the snapshot reaches
    (through readable directories that are not excluded) is in the snapshot,
    under the names that lead to it, as the empty mapping: it is there, and
    none of its children is. *)
Theorem C7_snapshot_bounds :
  forall (fs : fsnode) (root_path : string) (exclude_patterns : option (list string))
         (max_depth : Z) (v : value),
    outcome (generate_project_structure fs root_path exclude_patterns max_depth) = inr v ->
    Forall important_name (file_names v)
    /\ nesting v <= Z.to_nat max_depth + 2
    /\ (forall n names,
           lookup fs (parse_path root_path) = Some n ->
           expanded_to_limit (caller_patterns exclude_patterns) max_depth
             (parse_path root_path) n 0 names ->
           value_at (name (parse_path root_path) :: names) v = Some (VDict []))
    /\ (forall patterns path r entries current_depth,
           should_exclude patterns path = false ->
           (current_depth >= max_depth)%Z ->
           build_tree patterns max_depth path (Dir r entries) current_depth = ret (VDict []))
    /\ (forall tree child_name,
           add_child tree child_name true (VDict [])
           = ret (dict_set child_name (VDict []) tree)).
Proof.
  intros fs root_path excl max_depth v. unfold generate_project_structure.
  fold (caller_patterns excl). rewrite outcome_bind.
  intros H.
  assert (exists built,
             v = VDict [(name (parse_path root_path), built)]
             /\ value_ok (levels_below max_depth 0) built
             /\ forall n names,
                  lookup fs (parse_path root_path) = Some n ->
                  expanded_to_limit (caller_patterns excl) max_depth
                    (parse_path root_path) n 0 names ->
                  value_at names built = Some (VDict []))
    as [built [-> [[Hn Hd] Hat]]].
  { destruct (lookup fs (parse_path root_path)) as [n |].
    - destruct (outcome (build_tree (caller_patterns excl) max_depth
                           (parse_path root_path) n 0)) as [e | built] eqn:Eb;
        [discriminate |].
      exists built. split; [now injection H as <- |]. split.
      + exact (build_tree_ok (caller_patterns excl) max_depth n _ _ _ Eb).
      + intros n' names Hn' Hchain. injection Hn' as <-.
        exact (build_tree_reaches_limit _ _ _ _ _ _ _ Hchain Eb).
    - unfold build_tree_missing in H.
      destruct (should_exclude (caller_patterns excl) (parse_path root_path)).
      + exists VNone. split; [now injection H as <- |].
        split; [apply value_ok_none | discriminate].
      + destruct (0 >=? max_depth)%Z; [| discriminate].
        exists (VDict []). split; [now injection H as <- |].
        split; [apply value_ok_empty_dict | discriminate]. }
  split; [| split; [| split; [| split]]].
  - rewrite file_names_dict. cbn [flat_map snd]. now rewrite app_nil_r.
  - cbn [nesting]. unfold levels_below in Hd. rewrite Z.sub_0_r in Hd. lia.
  - intros n names Hlook Hchain. cbn [value_at dict_get].
    rewrite String.eqb_refl. exact (Hat n names Hlook Hchain).
  - intros pats path r entries d. apply build_tree_at_limit.
  - reflexivity.
Qed.

Lemma C7_snapshot_bounds_witness :
  value_at [""; "pkg"; "node_modules"; "sub"]
    (VDict
       [("",
         VDict
           [("files", VList [VStr "README.md"]);
            ("node_modules", VDict [("pkg", VDict [("src", VDict [])])]);
            ("pkg", VDict [("node_modules", VDict [("sub", VDict [])])]);
            ("src", VDict [("files", VList [VStr "a.pyx.py"; VStr "app.py";
                                            VStr "broken.py"])])])])
  = Some (VDict []).
Proof.
  assert (outcome (generate_project_structure sample_fs "." None 3)
          = inr (VDict
                   [("",
                     VDict
                       [("files", VList [VStr "README.md"]);
                        ("node_modules", VDict [("pkg", VDict [("src", VDict [])])]);
                        ("pkg", VDict [("node_modules", VDict [("sub", VDict [])])]);
                        ("src", VDict [("files", VList [VStr "a.pyx.py"; VStr "app.py";
                                                        VStr "broken.py"])])])]))
    as Hout.
  { vm_compute. reflexivity. }
  apply (proj1 (proj2 (proj2 (C7_snapshot_bounds sample_fs "." None 3 _ Hout))) sample_fs).
  - reflexivity.
  - cbn [expanded_to_limit]. eexists _, _. split; [reflexivity |].
    split; [reflexivity |]. split; [reflexivity |].
    split; [repeat constructor; simpl; intuition discriminate |].
    split; [right; right; left; reflexivity |].
    eexists _, _. split; [reflexivity |].
    split; [reflexivity |]. split; [reflexivity |].
    split; [repeat constructor; simpl; intuition discriminate |].
    split; [left; reflexivity |].
    eexists _, _. split; [reflexivity |].
    split; [reflexivity |]. split; [reflexivity |].
    split; [repeat constructor; simpl; intuition discriminate |].
    split; [left; reflexivity |].
    split; [reflexivity |]. split; [reflexivity | vm_compute; discriminate].
Defined.

(** ** Excluding everything *)

Lemma should_skip_star (path_str : string) (patterns : list string) :
  In "*" patterns -> should_skip_directory path_str patterns = true.
Proof.
  intros Hin. apply should_skip_directory_iff. exists "*".
  split; [exact Hin |]. left. apply fnmatch_star.
Qed.

(** X12: with the pattern [*] among the caller's excludes, discovery's check
    skips every candidate, so discovery returns no directory for any search
    specification, and the entry point prints discovery's lines and the line
    that no directory matches, returns, and writes nothing: the snapshot is
    never built. *)
Theorem X12_exclude_star_finds_nothing :
  forall (glob : string -> list Path * option exn) (fs fs_dirs_made fs_report_written : fsnode)
         (now cwd : string) (args : Args),
    In "*" (exclude args) ->
    outcome (find_source_directories glob fs (search_pattern args) (Some (exclude args)))
    = inr []
    /\ main glob fs fs_dirs_made fs_report_written now cwd args
       = (map Printed
            (console (find_source_directories glob fs (search_pattern args)
                        (Some (exclude args))))
          ++ [Printed ("No directories found matching pattern: "
                       ++ search_pattern args)%string],
          inr tt)
    /\ writes (fst (main glob fs fs_dirs_made fs_report_written now cwd args)) = [].
Proof.
  intros glob fs fs2 fs3 now cwd args Hin.
  assert (outcome (find_source_directories glob fs (search_pattern args)
                     (Some (exclude args))) = inr []) as Hnone.
  { destruct (find_source_directories_returns glob fs (search_pattern args)
                (Some (exclude args))) as [dirs [Ho [_ Hmem]]].
    rewrite Ho. f_equal. destruct dirs as [| y dirs]; [reflexivity |].
    exfalso. destruct (proj1 (Hmem y) (or_introl eq_refl)) as [token [_ Hy]].
    apply token_dirs_not_skipped in Hy. cbn [caller_patterns] in Hy.
    rewrite (should_skip_star y (exclude args) Hin) in Hy. discriminate. }
  assert (main glob fs fs2 fs3 now cwd args
          = (map Printed
               (console (find_source_directories glob fs (search_pattern args)
                           (Some (exclude args))))
             ++ [Printed ("No directories found matching pattern: "
                          ++ search_pattern args)%string],
             inr tt)) as Hmain.
  { unfold main.
    destruct (find_source_directories glob fs (search_pattern args) (Some (exclude args)))
      as [out r].
    cbn [outcome snd] in Hnone. subst r. reflexivity. }
  split; [exact Hnone |]. split; [exact Hmain |].
  rewrite Hmain. cbn [fst]. now rewrite writes_app, writes_printed.
Qed.

Lemma X12_exclude_star_finds_nothing_witness :
  outcome (find_source_directories sample_glob sample_fs "src **/src docs"
             (Some ["tests"; "*"])) = inr [].
Proof.
  apply (X12_exclude_star_finds_nothing sample_glob sample_fs sample_fs sample_fs
           "2024-01-01T00:00:00+00:00" "/work"
           (mkArgs "src **/src docs" "out/deps.json" "out/tree.json" ["tests"; "*"])).
  right. left. reflexivity.
Defined.
